(** * Popposite referral bot: the ledger of main.js

    A shallow embedding of the ledger operations of [src/main.js]
    (registration, purchase confirmation, withdrawal requests and their
    approval or rejection, pending purchases) and of the withdraw dialogue,
    followed by the properties the specification states about them.

    Conventions of the embedding.
    - A number is an integer ([Z]), NaN or null ([Num]).  The numbers the
      ledger computes with come from [parseInt], from the commission table
      and from sums and differences of those; NaN arises where [undefined]
      is added, and db.json holds null where NaN was written.  [%] is
      JavaScript's remainder, [Z.rem].
    - [nanoid(n)] and [new Date().toISOString()] are inputs of the operation
      that calls them (the arguments [nano] and [now]; one time per call).
    - [PACKAGES[key]] finds the three packages of the table and, [PACKAGES]
      being an object literal, the properties every object inherits from
      [Object.prototype].
    - [bot.telegram.sendMessage] and [ctx.reply] do not touch the store and
      their failures are caught; a handler returns the kind of its reply.
    - User objects have an identity.  [db.read()] (lowdb over a [JSONFile]
      adapter) parses db.json again and installs the result as [db.data], so
      the objects of the snapshot loaded before are no longer part of
      [db.data]; a reference kept by a caller still denotes the old object. *)

From Stdlib Require Import ZArith String Ascii Bool Lia List.
Import ListNotations.

Local Open Scope string_scope.
Local Open Scope list_scope.
Local Open Scope Z_scope.

(** * The program

    ** Numbers *)

(** What [balance] and [amount] hold: an integer, NaN or null. *)
Inductive Num : Type :=
| num (n : Z)
| NaN
| null.

(** [v || 0]: 0, NaN and null are falsy. *)
Definition or_zero (v : Num) : Z :=
  match v with
  | num n => n
  | NaN | null => 0
  end.

(** [a + v] for a number [a]: null counts as 0, and NaN gives NaN. *)
Definition plus (a : Z) (v : Num) : Num :=
  match v with
  | num n => num (a + n)
  | NaN => NaN
  | null => num a
  end.

(** [v - a] for a number [a]. *)
Definition minus (v : Num) (a : Z) : Num :=
  match v with
  | num n => num (n - a)
  | NaN => NaN
  | null => num (0 - a)
  end.

(** [a > v] for a number [a]: a comparison with NaN is false, and null
    counts as 0. *)
Definition greater (a : Z) (v : Num) : bool :=
  match v with
  | num n => a >? n
  | NaN => false
  | null => a >? 0
  end.

(** [JSON.parse(JSON.stringify(v))]: JSON has no NaN, null is written in its
    place. *)
Definition stored (v : Num) : Num :=
  match v with
  | NaN => null
  | other => other
  end.

(** ** Records of db.json *)

Inductive Status : Type := pending | approved | rejected.

Definition Status_eqb (a b : Status) : bool :=
  match a, b with
  | pending, pending | approved, approved | rejected, rejected => true
  | _, _ => false
  end.

(** [{ id, name, referralCode, referredBy, balance, package, createdAt }],
    and [packageConfirmedAt] once a purchase was confirmed. *)
Record User : Type := mkUser {
  u_id : Z;
  u_name : string;
  u_referralCode : string;
  u_referredBy : option string;
  u_balance : Num;
  u_package : option string;
  u_createdAt : string;
  u_packageConfirmedAt : option string
}.

(** [{ id, userId, package, note, createdAt }] *)
Record PendingPurchase : Type := mkPending {
  p_id : string;
  p_userId : Z;
  p_package : string;
  p_note : string;
  p_createdAt : string
}.

(** [{ id, userId, amount, paymentMethod, status, note, createdAt, updatedAt }];
    the full-balance request has no [paymentMethod], and [note] is set when
    the request is resolved. *)
Record Withdraw : Type := mkWithdraw {
  w_id : string;
  w_userId : Z;
  w_amount : Num;
  w_paymentMethod : option string;
  w_status : Status;
  w_note : option string;
  w_createdAt : string;
  w_updatedAt : string
}.

(** The three collections, as db.json and [db.data] hold them. *)
Record Db : Type := mkDb {
  users : list User;
  pendingPurchases : list PendingPurchase;
  withdraws : list Withdraw
}.

Definition default_data : Db :=
  {| users := []; pendingPurchases := []; withdraws := [] |}.

(** What db.json holds once [d] is written to it, as [db.read()] parses it:
    of the fields of the three collections only a number can differ. *)
Definition stored_user (u : User) : User :=
  {| u_id := u_id u; u_name := u_name u; u_referralCode := u_referralCode u;
     u_referredBy := u_referredBy u; u_balance := stored (u_balance u);
     u_package := u_package u; u_createdAt := u_createdAt u;
     u_packageConfirmedAt := u_packageConfirmedAt u |}.

Definition stored_request (w : Withdraw) : Withdraw :=
  {| w_id := w_id w; w_userId := w_userId w; w_amount := stored (w_amount w);
     w_paymentMethod := w_paymentMethod w; w_status := w_status w;
     w_note := w_note w; w_createdAt := w_createdAt w;
     w_updatedAt := w_updatedAt w |}.

Definition to_json (d : Db) : Db :=
  {| users := map stored_user (users d);
     pendingPurchases := pendingPurchases d;
     withdraws := map stored_request (withdraws d) |}.

(** ** Configuration *)

Definition MIN_WITHDRAW : Z := 100.

Record Package : Type := mkPackage { price : Z; commission : Z }.

Definition PACKAGES_table : list (string * Package) :=
  [ ("Basic",   {| price := 1500; commission := 200 |});
    ("Premium", {| price := 3000; commission := 400 |});
    ("VIP",     {| price := 3500; commission := 500 |}) ].

Fixpoint assoc {A : Type} (k : string) (l : list (string * A)) : option A :=
  match l with
  | [] => None
  | (k', v) :: t => if String.eqb k' k then Some v else assoc k t
  end.

(** The properties every object inherits from [Object.prototype].  Each is
    a function or an object: truthy, and without a [commission]. *)
Definition Object_prototype : list string :=
  [ "constructor"; "__defineGetter__"; "__defineSetter__"; "hasOwnProperty";
    "__lookupGetter__"; "__lookupSetter__"; "isPrototypeOf";
    "propertyIsEnumerable"; "toString"; "valueOf"; "__proto__";
    "toLocaleString" ].

(** What [PACKAGES[key]] finds. *)
Inductive Property : Type :=
| package (pkg : Package)   (* a package of the table *)
| inherited.                (* a property of [Object.prototype] *)

(** [PACKAGES[packageType]]; [None] is undefined. *)
Definition PACKAGES (packageType : string) : option Property :=
  match assoc packageType PACKAGES_table with
  | Some pkg => Some (package pkg)
  | None =>
      if existsb (String.eqb packageType) Object_prototype
      then Some inherited
      else None
  end.

(** [a + p.commission] for a number [a]: [a + undefined] is NaN. *)
Definition plus_commission (a : Z) (p : Property) : Num :=
  match p with
  | package pkg => num (a + commission pkg)
  | inherited => NaN
  end.

(** ** Arrays *)

(** [arr.find(p)]: the first element that satisfies [p], with its position;
    the object found is then read and written at that position. *)
Fixpoint find_pos {A : Type} (p : A -> bool) (l : list A) : option (nat * A) :=
  match l with
  | [] => None
  | x :: t =>
      if p x then Some (O, x)
      else match find_pos p t with
           | Some (i, y) => Some (S i, y)
           | None => None
           end
  end.

Fixpoint update_nth {A : Type} (n : nat) (f : A -> A) (l : list A) : list A :=
  match l, n with
  | [], _ => []
  | x :: t, O => f x :: t
  | x :: t, S k => x :: update_nth k f t
  end.

(** ** Withdraw sessions ([userSessions]) *)

Inductive Action : Type := withdraw.
Inductive Step : Type := amount_step | method_step.

(** [{ action: 'withdraw', step: 'amount' | 'method', data: { amount } }] *)
Record Session : Type := mkSession {
  action : Action;
  step : Step;
  s_data : option Z
}.

Definition Sessions : Type := list (Z * Session).

Fixpoint session_get (k : Z) (m : Sessions) : option Session :=
  match m with
  | [] => None
  | (k', v) :: t => if Z.eqb k' k then Some v else session_get k t
  end.

Definition session_delete (k : Z) (m : Sessions) : Sessions :=
  filter (fun kv => negb (Z.eqb (fst kv) k)) m.

Definition session_set (k : Z) (v : Session) (m : Sessions) : Sessions :=
  (k, v) :: session_delete k m.

(** ** The store and the objects in memory *)

(** A reference to a user object: the number of the snapshot it belongs to
    (snapshots are numbered in the order [db.read()] loaded them) and its
    position in that snapshot's [users] array. *)
Definition Ref : Type := (nat * nat)%type.

Record State : Type := mkState {
  written : Db;                 (* the data last written to db.json *)
  loaded : list (list User);    (* the users arrays of the snapshots loaded
                                   before the current one, oldest first *)
  data : Db;                    (* db.data, the current snapshot *)
  userSessions : Sessions
}.

(** The contents of db.json, as [db.read()] parses them. *)
Definition file (st : State) : Db := to_json (written st).

Definition initial_state : State :=
  {| written := default_data; loaded := []; data := default_data;
     userSessions := [] |}.

Definition set_data (d : Db) (st : State) : State :=
  {| written := written st; loaded := loaded st; data := d;
     userSessions := userSessions st |}.

Definition set_users (us : list User) (d : Db) : Db :=
  {| users := us; pendingPurchases := pendingPurchases d;
     withdraws := withdraws d |}.

Definition set_pendingPurchases (ps : list PendingPurchase) (d : Db) : Db :=
  {| users := users d; pendingPurchases := ps; withdraws := withdraws d |}.

Definition set_withdraws (ws : list Withdraw) (d : Db) : Db :=
  {| users := users d; pendingPurchases := pendingPurchases d;
     withdraws := ws |}.

(** The object a reference denotes, if any. *)
Definition lookup_ref (st : State) (r : Ref) : option User :=
  let (g, i) := r in
  if Nat.ltb g (length (loaded st)) then nth_error (nth g (loaded st) []) i
  else if Nat.eqb g (length (loaded st)) then nth_error (users (data st)) i
  else None.

(** ** Computations: state, and an exception that keeps the state *)

Definition M (A : Type) : Type := State -> option A * State.

Definition ret {A : Type} (a : A) : M A := fun st => (Some a, st).

Definition bind {A B : Type} (m : M A) (f : A -> M B) : M B :=
  fun st =>
    match m st with
    | (Some a, st') => f a st'
    | (None, st') => (None, st')
    end.

(** A [TypeError]: a property of [undefined] is read or written. *)
Definition throw {A : Type} : M A := fun st => (None, st).

Notation "x <- m ;; k" := (bind m (fun x => k))
  (at level 61, m at next level, right associativity).
Notation "m ;;; k" := (bind m (fun _ => k))
  (at level 61, right associativity).

Definition modify_state (f : State -> State) : M unit :=
  fun st => (Some tt, f st).

(** [await db.read()].  [db] is lowdb's [Low] over [new JSONFile("db.json")]
    (main.js, lines 20 to 26): [read()] reads the file, parses it and assigns
    the result to [db.data].  The objects of the new snapshot are new ones;
    the users array that was [db.data.users] is kept here for the references
    that still point into it. *)
Definition db_read : M unit :=
  modify_state (fun st =>
    {| written := written st;
       loaded := loaded st ++ [users (data st)];
       data := file st;
       userSessions := userSessions st |}).

(** Modelled from the spec: [saveDB] is called by main.js and defined
    nowhere in it; the spec's record store is "persisted after each
    mutation" through [persist(snapshot)], so [saveDB()] writes [db.data]
    to db.json.  What the file then holds is [file]. *)
Definition saveDB : M unit :=
  modify_state (fun st =>
    {| written := data st; loaded := loaded st; data := data st;
       userSessions := userSessions st |}).

Definition get_data : M Db := fun st => (Some (data st), st).

Definition modify_data (f : Db -> Db) : M unit :=
  modify_state (fun st => set_data (f (data st)) st).

(** Reading a property of [user]. *)
Definition deref (user : Ref) : M User :=
  fun st =>
    match lookup_ref st user with
    | Some u => (Some u, st)
    | None => (None, st)
    end.

(** Writing properties of [user]: the object is changed where it lives, in
    [db.data] or in a snapshot loaded earlier. *)
Definition assign (user : Ref) (f : User -> User) : M unit :=
  fun st =>
    match lookup_ref st user with
    | None => (None, st)
    | Some _ =>
        let (g, i) := user in
        if Nat.ltb g (length (loaded st)) then
          (Some tt,
           {| written := written st;
              loaded := update_nth g (update_nth i f) (loaded st);
              data := data st;
              userSessions := userSessions st |})
        else
          (Some tt,
           set_data (set_users (update_nth i f (users (data st))) (data st)) st)
    end.

(** [db.data.users.find(u => u.id === id)] *)
Definition findUserById (id : Z) : M (option Ref) :=
  fun st =>
    (Some (option_map (fun found => (length (loaded st), fst found))
             (find_pos (fun u => Z.eqb (u_id u) id) (users (data st)))),
     st).

(** [db.data.users.find(u => u.referralCode === code)] *)
Definition findUserByReferral (code : string) : M (option Ref) :=
  fun st =>
    (Some (option_map (fun found => (length (loaded st), fst found))
             (find_pos (fun u => String.eqb (u_referralCode u) code)
                (users (data st)))),
     st).

(** [db.data.users.push(user)]; the result refers to the object pushed. *)
Definition push_user (u : User) : M Ref :=
  fun st =>
    (Some (length (loaded st), length (users (data st))),
     set_data (set_users (users (data st) ++ [u]) (data st)) st).

(** Sending a message: no effect on the store, failures are caught. *)
Definition sendMessage (chat : Z) : M unit := ret tt.

(** ** Helpers of the operations *)

(** [{ ok: true, ... }] or [{ ok: false, error }] *)
Inductive Result (A : Type) : Type :=
| Ok (a : A)
| Err (error : string).
Arguments Ok {A} a.
Arguments Err {A} error.

(** [s || null] on a string that may be missing: the empty string is falsy. *)
Definition truthy (s : option string) : option string :=
  match s with
  | Some EmptyString => None
  | other => other
  end.

(** [ctx.from]: the Telegram account a message comes from. *)
Record From : Type := mkFrom {
  from_id : Z;
  first_name : option string;
  username : option string
}.

(** [ctx.from.first_name || `${ctx.from.username || "User"}`] *)
Definition display_name (f : From) : string :=
  match truthy (first_name f) with
  | Some n => n
  | None =>
      match truthy (username f) with
      | Some n => n
      | None => "User"
      end
  end.

Definition set_balance (b : Num) (u : User) : User :=
  {| u_id := u_id u; u_name := u_name u; u_referralCode := u_referralCode u;
     u_referredBy := u_referredBy u; u_balance := b; u_package := u_package u;
     u_createdAt := u_createdAt u;
     u_packageConfirmedAt := u_packageConfirmedAt u |}.

Definition set_package (packageType now : string) (u : User) : User :=
  {| u_id := u_id u; u_name := u_name u; u_referralCode := u_referralCode u;
     u_referredBy := u_referredBy u; u_balance := u_balance u;
     u_package := Some packageType; u_createdAt := u_createdAt u;
     u_packageConfirmedAt := Some now |}.

(** [w.status = status; w.updatedAt = now; w.note = note] *)
Definition resolve (status : Status) (now note : string) (w : Withdraw) :
  Withdraw :=
  {| w_id := w_id w; w_userId := w_userId w; w_amount := w_amount w;
     w_paymentMethod := w_paymentMethod w; w_status := status;
     w_note := Some note; w_createdAt := w_createdAt w; w_updatedAt := now |}.

(** ** The ledger operations *)

(** [createWithdrawRequestDynamic(user, amount, paymentMethod)] *)
Definition createWithdrawRequestDynamic (user : Ref) (amount : Z)
    (paymentMethod : string) (nano now : string) : M (Result Withdraw) :=
  db_read ;;;
  if (amount =? 0) || (amount <=? 0) then ret (Err "Invalid amount") else
  u <- deref user ;;
  if greater amount (u_balance u) then ret (Err "Insufficient balance") else
  if negb (Z.rem amount 100 =? 0) then ret (Err "Amount must end with 00") else
  let request :=
    {| w_id := nano; w_userId := u_id u; w_amount := num amount;
       w_paymentMethod := Some paymentMethod; w_status := pending;
       w_note := None; w_createdAt := now; w_updatedAt := now |} in
  modify_data (fun d => set_withdraws (withdraws d ++ [request]) d) ;;;
  assign user (fun u => set_balance (minus (u_balance u) amount) u) ;;;
  saveDB ;;;
  ret (Ok request).

(** [registerUserIfNotExists(ctx, referralCode = null)] *)
Definition registerUserIfNotExists (from : From) (referralCode : option string)
    (nano now : string) : M Ref :=
  db_read ;;;
  found <- findUserById (from_id from) ;;
  match found with
  | Some user => ret user
  | None =>
      user <- push_user
        {| u_id := from_id from;
           u_name := display_name from;
           u_referralCode := nano;
           u_referredBy := truthy referralCode;
           u_balance := num 0;
           u_package := None;
           u_createdAt := now;
           u_packageConfirmedAt := None |} ;;
      match truthy referralCode with
      | Some code =>
          ref <- findUserByReferral code ;;
          match ref with
          | Some r => referrer <- deref r ;; sendMessage (u_id referrer)
          | None => ret tt
          end
      | None => ret tt
      end ;;;
      saveDB ;;;
      ret user
  end.

(** [confirmPurchase(userId, packageType, note)]; [note] is not used. *)
Definition confirmPurchase (userId : Z) (packageType : string) (now : string) :
  M (Result Ref) :=
  db_read ;;;
  found <- findUserById userId ;;
  match found with
  | None => ret (Err "User not found")
  | Some user =>
      match PACKAGES packageType with
      | None => ret (Err "Invalid package")
      | Some property =>
          assign user (set_package packageType now) ;;;
          u <- deref user ;;
          match truthy (u_referredBy u) with
          | Some code =>
              found_ref <- findUserByReferral code ;;
              match found_ref with
              | Some ref =>
                  assign ref (fun r =>
                    set_balance
                      (plus_commission (or_zero (u_balance r)) property) r) ;;;
                  r <- deref ref ;;
                  sendMessage (u_id r)
              | None => ret tt
              end
          | None => ret tt
          end ;;;
          modify_data (fun d =>
            set_pendingPurchases
              (filter (fun p => negb (Z.eqb (p_userId p) userId
                                      && String.eqb (p_package p) packageType))
                 (pendingPurchases d)) d) ;;;
          saveDB ;;;
          ret (Ok user)
      end
  end.

(** [createWithdrawRequest(user)]: the request for the whole balance. *)
Definition createWithdrawRequest (user : Ref) (nano now : string) :
  M Withdraw :=
  db_read ;;;
  u <- deref user ;;
  let request :=
    {| w_id := nano; w_userId := u_id u; w_amount := u_balance u;
       w_paymentMethod := None; w_status := pending;
       w_note := None; w_createdAt := now; w_updatedAt := now |} in
  modify_data (fun d => set_withdraws (withdraws d ++ [request]) d) ;;;
  assign user (set_balance (num 0)) ;;;
  saveDB ;;;
  ret request.

(** [approveWithdrawRequest(withdrawId, note)] *)
Definition approveWithdrawRequest (withdrawId note now : string) :
  M (Result Withdraw) :=
  db_read ;;;
  d <- get_data ;;
  match find_pos (fun x => String.eqb (w_id x) withdrawId) (withdraws d) with
  | None => ret (Err "Withdraw request not found")
  | Some (i, w) =>
      if negb (Status_eqb (w_status w) pending) then ret (Err "Not pending")
      else
        modify_data (fun d =>
          set_withdraws (update_nth i (resolve approved now note) (withdraws d)) d) ;;;
        saveDB ;;;
        sendMessage (w_userId w) ;;;
        ret (Ok (resolve approved now note w))
  end.

(** [rejectWithdrawRequest(withdrawId, reason)] *)
Definition rejectWithdrawRequest (withdrawId reason now : string) :
  M (Result Withdraw) :=
  db_read ;;;
  d <- get_data ;;
  match find_pos (fun x => String.eqb (w_id x) withdrawId) (withdraws d) with
  | None => ret (Err "Withdraw request not found")
  | Some (i, w) =>
      if negb (Status_eqb (w_status w) pending) then ret (Err "Not pending")
      else
        modify_data (fun d =>
          set_withdraws (update_nth i (resolve rejected now reason) (withdraws d)) d) ;;;
        found <- findUserById (w_userId w) ;;
        match found with
        | Some user =>
            assign user (fun u =>
              set_balance (plus (or_zero (u_balance u)) (w_amount w)) u)
        | None => ret tt
        end ;;;
        saveDB ;;;
        sendMessage (w_userId w) ;;;
        ret (Ok (resolve rejected now reason w))
  end.

(** [addPendingPurchase(userId, packageType, note)] *)
Definition addPendingPurchase (userId : Z) (packageType note : string)
    (nano now : string) : M (Result PendingPurchase) :=
  db_read ;;;
  found <- findUserById userId ;;
  match found with
  | None => ret (Err "User not found")
  | Some _ =>
      match PACKAGES packageType with
      | None => ret (Err "Invalid package")
      | Some _ =>
          let entry :=
            {| p_id := nano; p_userId := userId; p_package := packageType;
               p_note := note; p_createdAt := now |} in
          modify_data (fun d =>
            set_pendingPurchases (pendingPurchases d ++ [entry]) d) ;;;
          saveDB ;;;
          sendMessage userId ;;;
          ret (Ok entry)
      end
  end.

(** ** Strings of the withdraw dialogue

    The string methods the handler uses, on ASCII text: a string is the
    sequence of its characters, each with a code below 128.  On such text
    the functions below are the JavaScript methods.  (JavaScript's white
    space has members outside ASCII, U+00A0 and U+FEFF among them, and
    [parseInt] gives a double, which is the integer read as long as that is
    below 2^53.) *)

Definition is_space (c : ascii) : bool :=
  let n := nat_of_ascii c in
  (Nat.eqb n 32 || (Nat.leb 9 n && Nat.leb n 13))%bool.

Fixpoint trimStart (s : list ascii) : list ascii :=
  match s with
  | c :: t => if is_space c then trimStart t else s
  | [] => []
  end.

(** [s.trim()], for ASCII text. *)
Definition trim (s : string) : string :=
  string_of_list_ascii
    (rev (trimStart (rev (trimStart (list_ascii_of_string s))))).

Definition lower (c : ascii) : ascii :=
  let n := nat_of_ascii c in
  if (Nat.leb 65 n && Nat.leb n 90)%bool then ascii_of_nat (n + 32) else c.

(** [s.toLowerCase()], for ASCII text. *)
Fixpoint toLowerCase (s : string) : string :=
  match s with
  | EmptyString => EmptyString
  | String c t => String (lower c) (toLowerCase t)
  end.

(** [s.includes(sub)] *)
Fixpoint includes (s sub : string) : bool :=
  (String.prefix sub s
   || match s with
      | EmptyString => false
      | String _ t => includes t sub
      end)%bool.

Definition digit (c : ascii) : option Z :=
  let n := nat_of_ascii c in
  if (Nat.leb 48 n && Nat.leb n 57)%bool then Some (Z.of_nat (n - 48)) else None.

(** The digits at the start of [s]; [None] (NaN) when there is none. *)
Fixpoint digits (acc : Z) (seen : bool) (s : list ascii) : option Z :=
  match s with
  | c :: t =>
      match digit c with
      | Some d => digits (10 * acc + d) true t
      | None => if seen then Some acc else None
      end
  | [] => if seen then Some acc else None
  end.

(** [parseInt(s, 10)], for ASCII text: leading white space, a sign, then
    digits; what follows the digits is ignored.  [None] is NaN.  The result
    is the integer read, which is what JavaScript gives below 2^53. *)
Definition parseInt (s : string) : option Z :=
  match trimStart (list_ascii_of_string s) with
  | "-"%char :: t => option_map Z.opp (digits 0 false t)
  | "+"%char :: t => digits 0 false t
  | t => digits 0 false t
  end.

(** ** The withdraw dialogue *)

(** What the handler answers. *)
Inductive Reply : Type :=
| PleaseStart          (* "Please /start first." *)
| MinimumWithdraw      (* "Minimum withdraw is 100 ETB." *)
| EnterAmount          (* "Enter the amount you want to withdraw ..." *)
| Canceled             (* "Withdraw canceled." *)
| UserNotFound         (* "User not found." *)
| InvalidAmount        (* "Invalid amount. Must be a number ending with 00 ..." *)
| InsufficientBalance  (* "Insufficient balance." *)
| ChooseMethod         (* "Choose payment method: ..." *)
| InvalidMethod        (* "Invalid method. Type Telebirr, CBE, or Transfer." *)
| Failed (error : string)         (* the error of the ledger operation *)
| Submitted (request : Withdraw)  (* "Withdraw request submitted: ..." *).

Definition get_session (id : Z) : M (option Session) :=
  fun st => (Some (session_get id (userSessions st)), st).

Definition modify_sessions (f : Sessions -> Sessions) : M unit :=
  modify_state (fun st =>
    {| written := written st; loaded := loaded st; data := data st;
       userSessions := f (userSessions st) |}).

(** [bot.command("withdraw", ...)] *)
Definition withdraw_command (from : Z) : M Reply :=
  db_read ;;;
  found <- findUserById from ;;
  match found with
  | None => ret PleaseStart
  | Some user =>
      u <- deref user ;;
      if or_zero (u_balance u) <? MIN_WITHDRAW then ret MinimumWithdraw
      else
        modify_sessions
          (session_set from
             {| action := withdraw; step := amount_step; s_data := None |}) ;;;
        ret EnterAmount
  end.

(** [bot.on("text", ...)]; no reply when the sender has no session. *)
Definition on_text (from : Z) (message_text : string) (nano now : string) :
  M (option Reply) :=
  found_session <- get_session from ;;
  match found_session with
  | None => ret None
  | Some session =>
      let text := toLowerCase (trim message_text) in
      if String.eqb text "cancel" then
        modify_sessions (session_delete from) ;;;
        ret (Some Canceled)
      else
        found <- findUserById from ;;
        match found with
        | None => ret (Some UserNotFound)
        | Some user =>
            match action session, step session with
            | withdraw, amount_step =>
                match parseInt message_text with
                | None => ret (Some InvalidAmount)
                | Some amount =>
                    if (amount <=? 0) || negb (Z.rem amount 100 =? 0)
                    then ret (Some InvalidAmount)
                    else
                      u <- deref user ;;
                      if greater amount (u_balance u)
                      then ret (Some InsufficientBalance)
                      else
                        modify_sessions
                          (session_set from
                             {| action := withdraw; step := method_step;
                                s_data := Some amount |}) ;;;
                        ret (Some ChooseMethod)
                end
            | withdraw, method_step =>
                let chosen :=
                  if includes text "telebirr" || String.eqb text "1"
                  then Some "Telebirr"
                  else if includes text "cbe" || String.eqb text "2"
                  then Some "CBE"
                  else if includes text "transfer" || String.eqb text "3"
                  then Some "Transfer"
                  else None in
                match chosen with
                | None => ret (Some InvalidMethod)
                | Some method =>
                    match s_data session with
                    | None => throw
                    | Some amount =>
                        res <- createWithdrawRequestDynamic user amount method
                                 nano now ;;
                        match res with
                        | Err error => ret (Some (Failed error))
                        | Ok request =>
                            modify_sessions (session_delete from) ;;;
                            ret (Some (Submitted request))
                        end
                    end
                end
            end
        end
  end.

(** ** Sequences of ledger operations *)

(** One call of a ledger operation with its arguments.  The two withdrawal
    requests take the user object itself, as in main.js. *)
Inductive Op : Type :=
| Register (from : From) (referralCode : option string) (nano now : string)
| ConfirmPurchase (userId : Z) (packageType now : string)
| AddPendingPurchase (userId : Z) (packageType note nano now : string)
| CreateWithdrawDynamic (user : Ref) (amount : Z)
    (paymentMethod nano now : string)
| CreateWithdraw (user : Ref) (nano now : string)
| Approve (withdrawId note now : string)
| Reject (withdrawId reason now : string).

(** The state an operation leaves (also when it throws). *)
Definition apply_op (op : Op) (st : State) : State :=
  match op with
  | Register from referralCode nano now =>
      snd (registerUserIfNotExists from referralCode nano now st)
  | ConfirmPurchase userId packageType now =>
      snd (confirmPurchase userId packageType now st)
  | AddPendingPurchase userId packageType note nano now =>
      snd (addPendingPurchase userId packageType note nano now st)
  | CreateWithdrawDynamic user amount paymentMethod nano now =>
      snd (createWithdrawRequestDynamic user amount paymentMethod nano now st)
  | CreateWithdraw user nano now =>
      snd (createWithdrawRequest user nano now st)
  | Approve withdrawId note now =>
      snd (approveWithdrawRequest withdrawId note now st)
  | Reject withdrawId reason now =>
      snd (rejectWithdrawRequest withdrawId reason now st)
  end.

Definition run (ops : list Op) (st : State) : State :=
  fold_left (fun s op => apply_op op s) ops st.

(** * Notions used to state the properties

    ** Invariants *)

(** A non-negative integer. *)
Definition nonneg (v : Num) : Prop := exists n, v = num n /\ 0 <= n.

Definition nonneg_users (us : list User) : Prop :=
  Forall (fun u => nonneg (u_balance u)) us.

Definition nonneg_db (d : Db) : Prop :=
  nonneg_users (users d) /\ Forall (fun w => nonneg (w_amount w)) (withdraws d).

(** No balance and no requested amount is negative: in db.json, in [db.data]
    and in the objects of the snapshots loaded earlier. *)
Definition ledger_ok (st : State) : Prop :=
  nonneg_db (file st) /\ nonneg_db (data st) /\ Forall nonneg_users (loaded st).

(** ** The states an operation leaves *)

Definition reloaded (st : State) : State :=
  {| written := written st; loaded := loaded st ++ [users (data st)];
     data := file st; userSessions := userSessions st |}.

(** [d] is both [db.data] and what was written. *)
Definition committed (d : Db) (st : State) : State :=
  {| written := d; loaded := loaded st ++ [users (data st)];
     data := d; userSessions := userSessions st |}.

(** The first user of [us] with this id gets [amount] added to the balance. *)
Definition credit_user (id : Z) (amount : Num) (us : list User) : list User :=
  match find_pos (fun u => Z.eqb (u_id u) id) us with
  | Some (j, _) =>
      update_nth j
        (fun u => set_balance (plus (or_zero (u_balance u)) amount) u) us
  | None => us
  end.

Definition has_withdraw_id (withdrawId : string) (x : Withdraw) : bool :=
  String.eqb (w_id x) withdrawId.

(** The state after a successful write through a reference. *)
Definition assigned (user : Ref) (f : User -> User) (st : State) : State :=
  if Nat.ltb (fst user) (length (loaded st)) then
    {| written := written st;
       loaded := update_nth (fst user) (update_nth (snd user) f) (loaded st);
       data := data st;
       userSessions := userSessions st |}
  else
    {| written := written st; loaded := loaded st;
       data := {| users := update_nth (snd user) f (users (data st));
                  pendingPurchases := pendingPurchases (data st);
                  withdraws := withdraws (data st) |};
       userSessions := userSessions st |}.

Definition full_request (u : User) (nano now : string) : Withdraw :=
  {| w_id := nano; w_userId := u_id u; w_amount := u_balance u;
     w_paymentMethod := None; w_status := pending;
     w_note := None; w_createdAt := now; w_updatedAt := now |}.

Definition dynamic_request (u : User) (amount : Z)
    (paymentMethod nano now : string) : Withdraw :=
  {| w_id := nano; w_userId := u_id u; w_amount := num amount;
     w_paymentMethod := Some paymentMethod; w_status := pending;
     w_note := None; w_createdAt := now; w_updatedAt := now |}.

(** The state after a request [w] was pushed and saved and the object behind
    [user], which belongs to a snapshot loaded earlier, was changed by [f]. *)
Definition requested (w : Withdraw) (user : Ref) (f : User -> User)
    (st : State) : State :=
  let d := {| users := users (file st);
              pendingPurchases := pendingPurchases (file st);
              withdraws := withdraws (file st) ++ [w] |} in
  {| written := d;
     loaded := update_nth (fst user) (update_nth (snd user) f)
                 (loaded st ++ [users (data st)]);
     data := d;
     userSessions := userSessions st |}.

Definition has_id (id : Z) (u : User) : bool := Z.eqb (u_id u) id.

Definition has_referralCode (code : string) (u : User) : bool :=
  String.eqb (u_referralCode u) code.

Definition new_user (from : From) (referralCode : option string)
    (nano now : string) : User :=
  {| u_id := from_id from;
     u_name := display_name from;
     u_referralCode := nano;
     u_referredBy := truthy referralCode;
     u_balance := num 0;
     u_package := None;
     u_createdAt := now;
     u_packageConfirmedAt := None |}.

(** The referrer named by [referredBy], if a user has that code, is paid the
    commission of [property]. *)
Definition pay_commission (referredBy : option string) (property : Property)
    (us : list User) : list User :=
  match truthy referredBy with
  | Some code =>
      match find_pos (has_referralCode code) us with
      | Some (j, _) =>
          update_nth j
            (fun r =>
               set_balance (plus_commission (or_zero (u_balance r)) property) r)
            us
      | None => us
      end
  | None => us
  end.

(** A pending purchase of another user or of another package. *)
Definition other_purchase (userId : Z) (packageType : string)
    (p : PendingPurchase) : bool :=
  negb (Z.eqb (p_userId p) userId && String.eqb (p_package p) packageType).

Definition pushed (w : Withdraw) (st : State) : State :=
  set_data (set_withdraws (withdraws (data st) ++ [w]) (data st)) st.

Definition saved (st : State) : State :=
  {| written := data st; loaded := loaded st; data := data st;
     userSessions := userSessions st |}.

(** Nothing happened to the store: db.json is as before, [db.data] is the
    snapshot of db.json again (as before, when it was one), the sessions are
    as before and every user object is as before. *)
Definition store_unchanged (st st' : State) : Prop :=
  file st' = file st /\
  data st' = file st /\
  userSessions st' = userSessions st /\
  forall r u, lookup_ref st r = Some u -> lookup_ref st' r = Some u.

(** ** Example stores *)

Definition example_user : User :=
  {| u_id := 7; u_name := "Abebe"; u_referralCode := "abc123";
     u_referredBy := None; u_balance := num 300; u_package := None;
     u_createdAt := "2024-01-01T00:00:00.000Z";
     u_packageConfirmedAt := None |}.

Definition example_request (status : Status) : Withdraw :=
  {| w_id := "w1234567"; w_userId := 7; w_amount := num 200;
     w_paymentMethod := Some "Telebirr"; w_status := status;
     w_note := None; w_createdAt := "2024-01-02T00:00:00.000Z";
     w_updatedAt := "2024-01-02T00:00:00.000Z" |}.

Definition example_db (status : Status) : Db :=
  {| users := [example_user]; pendingPurchases := [];
     withdraws := [example_request status] |}.

Definition example_state (status : Status) : State :=
  {| written := example_db status; loaded := []; data := example_db status;
     userSessions := [] |}.

Definition example_from : From :=
  {| from_id := 8; first_name := Some "Sara"; username := None |}.

Definition example_referred : User :=
  {| u_id := 8; u_name := "Sara"; u_referralCode := "k3J9xQ";
     u_referredBy := Some "abc123"; u_balance := num 0; u_package := None;
     u_createdAt := "2024-01-05T00:00:00.000Z";
     u_packageConfirmedAt := None |}.

Definition example_purchase : PendingPurchase :=
  {| p_id := "p1234567"; p_userId := 8; p_package := "Basic";
     p_note := "paid by bank"; p_createdAt := "2024-01-06T00:00:00.000Z" |}.

Definition example_shop_db : Db :=
  {| users := [example_user; example_referred];
     pendingPurchases := [example_purchase]; withdraws := [] |}.

Definition example_shop : State :=
  {| written := example_shop_db; loaded := []; data := example_shop_db;
     userSessions := [] |}.

Definition example_saver : User :=
  {| u_id := 9; u_name := "Dawit"; u_referralCode := "Qw3rTy";
     u_referredBy := None; u_balance := num 500; u_package := None;
     u_createdAt := "2024-02-01T00:00:00.000Z";
     u_packageConfirmedAt := None |}.

Definition example_wallet_db : Db :=
  {| users := [example_saver]; pendingPurchases := []; withdraws := [] |}.

Definition example_wallet : State :=
  {| written := example_wallet_db; loaded := []; data := example_wallet_db;
     userSessions := [] |}.

(** The messages "/withdraw", [amount_text], [method_text] of one sender. *)
Definition withdraw_dialogue (from : Z) (amount_text method_text : string)
    (nano now : string) : M (Reply * option Reply * option Reply) :=
  r0 <- withdraw_command from ;;
  r1 <- on_text from amount_text nano now ;;
  r2 <- on_text from method_text nano now ;;
  ret (r0, r1, r2).

(** The messages "/withdraw", "cancel" of one sender. *)
Definition cancel_dialogue (from : Z) (nano now : string) :
  M (Reply * option Reply) :=
  r0 <- withdraw_command from ;;
  r1 <- on_text from "cancel" nano now ;;
  ret (r0, r1).

Definition example_withdrawal : Withdraw :=
  {| w_id := "w7654321"; w_userId := 9; w_amount := num 200;
     w_paymentMethod := Some "Telebirr"; w_status := pending;
     w_note := None; w_createdAt := "2024-02-02T00:00:00.000Z";
     w_updatedAt := "2024-02-02T00:00:00.000Z" |}.

(** ** The other handlers and helpers of main.js *)

(** [s.split(sep)] for a separator of one character. *)
Fixpoint split_on (sep : ascii) (s : string) : list string :=
  match s with
  | EmptyString => [EmptyString]
  | String c t =>
      if Ascii.eqb c sep then EmptyString :: split_on sep t
      else match split_on sep t with
           | h :: r => String c h :: r
           | [] => [String c EmptyString]
           end
  end.

(** [bot.start(...)]: the referral code is the second word of the message.
    The reply shows the name and the referral link of the user returned. *)
Definition start_command (from : From) (message_text : option string)
    (nano now : string) : M Ref :=
  db_read ;;;
  let text := match truthy message_text with
              | Some t => t
              | None => EmptyString
              end in
  let parts := split_on " "%char text in
  let referralCode := truthy (nth_error parts 1) in
  registerUserIfNotExists from referralCode nano now.

(** [db.data.users.filter(u => u.referredBy === user.referralCode)] *)
Definition referrals_of (user : User) (us : list User) : list User :=
  filter (fun u => match u_referredBy u with
                   | Some code => String.eqb code (u_referralCode user)
                   | None => false
                   end) us.

(** What "/referral", "/myrefs" and "/balance" answer. *)
Inductive UserReply : Type :=
| NotRegistered                     (* "Please /start first." *)
| ReferralLink (referralCode : string)
| NoReferrals                       (* "You have no referrals yet." *)
| Referrals (refs : list User)      (* name, id and package of each *)
| Balance (balance : Z) (refs : list User) (referralCode : string)
                                    (* [user.balance || 0], the referrals
                                       and the referral link *).


(** [bot.command("myrefs", ...)] *)
Definition myrefs_command (from : Z) : M UserReply :=
  db_read ;;;
  found <- findUserById from ;;
  match found with
  | None => ret NotRegistered
  | Some user =>
      u <- deref user ;;
      d <- get_data ;;
      let refs := referrals_of u (users d) in
      if Nat.eqb (length refs) 0 then ret NoReferrals
      else ret (Referrals refs)
  end.


(** [try { ... } catch (e) { ... }] *)
Definition try_catch {A : Type} (body handler : M A) : M A :=
  fun st =>
    match body st with
    | (None, st') => handler st'
    | done => done
    end.

(** [for (const x of l) { ... }]; the result lists what the rounds did. *)
Fixpoint for_each {A B : Type} (l : list A) (body : A -> M B) : M (list B) :=
  match l with
  | [] => ret []
  | x :: t => y <- body x ;; ys <- for_each t body ;; ret (y :: ys)
  end.

(** [bot.telegram.sendMessage(chat, text)] of the broadcast: it throws for
    the chats [delivers] rejects. *)
Definition deliver (delivers : Z -> bool) (chat : Z) (text : string) : M unit :=
  if delivers chat then ret tt else throw.

(** A message the broadcast tried to send, and whether it was delivered. *)
Record Attempt : Type := mkAttempt {
  chat : Z;
  message : string;
  delivered : bool
}.

(** [broadcastMessage(text)]; [delivers] tells which deliveries succeed.
    Beside the answer, the result lists the deliveries attempted. *)
Definition broadcastMessage (delivers : Z -> bool) (text : string) :
  M (Result nat * list Attempt) :=
  db_read ;;;
  d <- get_data ;;
  let us := users d in
  attempts <-
    for_each us (fun u =>
      try_catch
        (deliver delivers (u_id u) text ;;;
         ret {| chat := u_id u; message := text; delivered := true |})
        (ret {| chat := u_id u; message := text; delivered := false |})) ;;
  ret (Ok (length us), attempts).

(** The values [===] compares in [isAdmin]. *)
Inductive JsValue : Type :=
| JsUndefined
| JsNumber (n : Z)
| JsString (s : string).

(** [a === b] *)
Definition strict_equal (a b : JsValue) : bool :=
  match a, b with
  | JsUndefined, JsUndefined => true
  | JsNumber x, JsNumber y => Z.eqb x y
  | JsString x, JsString y => String.eqb x y
  | _, _ => false
  end.

(** [process.env.ADMIN_ID]: the string of the environment, or undefined. *)
Definition ADMIN_ID (env : option string) : JsValue :=
  match env with
  | Some s => JsString s
  | None => JsUndefined
  end.

(** [isAdmin(ctx)]: [ctx.from?.id === ADMIN_ID]; [sender] is [ctx.from?.id],
    a number when the update has a sender. *)
Definition isAdmin (env : option string) (sender : option Z) : bool :=
  strict_equal
    (match sender with
     | Some id => JsNumber id
     | None => JsUndefined
     end)
    (ADMIN_ID env).

(** The sum "/stats" computes:
    [withdraws.filter(w => w.status === "approved")
              .reduce((s, x) => s + (x.amount || 0), 0)] *)
Definition stats_totalWithdraws (d : Db) : Z :=
  fold_left (fun s x => s + or_zero (w_amount x))
    (filter (fun w => Status_eqb (w_status w) approved) (withdraws d)) 0.

(** ** Notions used to state further properties *)

(** What identifies a user and is set when the user is created. *)
Definition user_identity (u : User) : Z * string * string * option string * string :=
  (u_id u, u_name u, u_referralCode u, u_referredBy u, u_createdAt u).

(** What a withdrawal request is created with. *)
Definition request_identity (w : Withdraw) :
  string * Z * Num * option string * string :=
  (w_id w, w_userId w, w_amount w, w_paymentMethod w, w_createdAt w).

(** A stored user has a name, a [referredBy] that is null or a non-empty
    code, and a package that is null or a key of [PACKAGES]. *)
Definition user_wf (u : User) : Prop :=
  u_name u <> EmptyString /\
  u_referredBy u <> Some EmptyString /\
  (forall p, u_package u = Some p -> PACKAGES p <> None).

Definition no_space (s : string) : Prop :=
  Forall (fun c => c <> " "%char) (list_ascii_of_string s).

(** The request the operation [op] approves in [d], if it approves one. *)
Definition approved_by (op : Op) (d : Db) : Z :=
  match op with
  | Approve withdrawId _ _ =>
      match find_pos (has_withdraw_id withdrawId) (withdraws d) with
      | Some (_, w) =>
          if Status_eqb (w_status w) pending
          then match w_amount w with num a => a | NaN | null => 0 end
          else 0
      | None => 0
      end
  | _ => 0
  end.


Definition example_method_session : State :=
  {| written := example_wallet_db; loaded := []; data := example_wallet_db;
     userSessions :=
       [(9, {| action := withdraw; step := method_step; s_data := Some 200 |})] |}.

(** What a request adds to the sum of "/stats". *)
Definition approved_amount (w : Withdraw) : Z :=
  if Status_eqb (w_status w) approved
  then match w_amount w with num a => a | NaN | null => 0 end
  else 0.

(** The state with the sessions changed by [f]. *)
Definition with_sessions (f : Sessions -> Sessions) (st : State) : State :=
  {| written := written st; loaded := loaded st; data := data st;
     userSessions := f (userSessions st) |}.

(** The payment method the handler reads from an answer. *)
Definition payment_method_of (text : string) : option string :=
  if includes text "telebirr" || String.eqb text "1" then Some "Telebirr"
  else if includes text "cbe" || String.eqb text "2" then Some "CBE"
  else if includes text "transfer" || String.eqb text "3" then Some "Transfer"
  else None.

(** [amount > balance] does not hold, as JavaScript compares: [amount] is at
    most an integer balance; nothing is greater than NaN; null counts
    as 0. *)
Definition within (amount : Z) (balance : Num) : Prop :=
  match balance with
  | num b => amount <= b
  | NaN => True
  | null => amount <= 0
  end.

(** An amount the dialogue accepts from a user with balance [balance]. *)
Definition acceptable_amount (balance : Num) (amount : Z) : Prop :=
  0 < amount /\ Z.rem amount 100 = 0 /\ within amount balance.



(** The names [PACKAGES[name]] finds something under: the three packages and
    the properties of [Object.prototype]. *)
Definition property_names : list string :=
  [ "Basic"; "Premium"; "VIP";
    "constructor"; "__defineGetter__"; "__defineSetter__"; "hasOwnProperty";
    "__lookupGetter__"; "__lookupSetter__"; "isPrototypeOf";
    "propertyIsEnumerable"; "toString"; "valueOf"; "__proto__";
    "toLocaleString" ].

(** The user [x] of [db.data] is written to db.json as [y]: the same
    record, with null for a balance that is NaN. *)
Definition user_written_as (x y : User) : Prop :=
  user_identity y = user_identity x /\
  u_package y = u_package x /\
  u_packageConfirmedAt y = u_packageConfirmedAt x /\
  u_balance y = match u_balance x with NaN => null | b => b end.

(** The same for a withdrawal request and its amount. *)
Definition request_written_as (x y : Withdraw) : Prop :=
  w_id y = w_id x /\ w_userId y = w_userId x /\
  w_paymentMethod y = w_paymentMethod x /\ w_status y = w_status x /\
  w_note y = w_note x /\ w_createdAt y = w_createdAt x /\
  w_updatedAt y = w_updatedAt x /\
  w_amount y = match w_amount x with NaN => null | a => a end.

(** The operation confirms no purchase under the name of a property that
    [PACKAGES] inherits. *)
Definition table_package (op : Op) : Prop :=
  match op with
  | ConfirmPurchase _ packageType _ => ~ In packageType Object_prototype
  | _ => True
  end.

Definition example_abebe : From :=
  {| from_id := 7; first_name := Some "Abebe"; username := None |}.

(** User 7 registers, user 8 registers with the code of user 7 and buys
    "VIP". *)
Definition example_run : list Op :=
  [ Register example_abebe None "abc123" "2024-01-01T00:00:00.000Z";
    Register example_from (Some "abc123") "k3J9xQ" "2024-01-05T00:00:00.000Z";
    ConfirmPurchase 8 "VIP" "2024-01-07T00:00:00.000Z" ].

(** User 8 as db.json holds it after the example run. *)
Definition example_buyer : User :=
  {| u_id := 8; u_name := "Sara"; u_referralCode := "k3J9xQ";
     u_referredBy := Some "abc123"; u_balance := num 0;
     u_package := Some "VIP";
     u_createdAt := "2024-01-05T00:00:00.000Z";
     u_packageConfirmedAt := Some "2024-01-07T00:00:00.000Z" |}.

Ltac run_monad :=
  unfold bind, db_read, saveDB, modify_data, modify_sessions, modify_state,
    get_data, get_session, findUserById, findUserByReferral, push_user,
    deref, assign, lookup_ref, sendMessage, ret, throw, set_data, set_users,
    set_withdraws, set_pendingPurchases;
  cbn [fst snd written loaded data userSessions users pendingPurchases
       withdraws option_map];
  rewrite ?Nat.ltb_irrefl, ?Nat.eqb_refl.

(** * Properties

    ** Basic facts about arrays *)

Lemma find_pos_Some {A : Type} (p : A -> bool) (l : list A) (i : nat) (x : A) :
  find_pos p l = Some (i, x) ->
  nth_error l i = Some x /\ p x = true /\
  l = firstn i l ++ x :: skipn (S i) l /\
  Forall (fun y => p y = false) (firstn i l).
Proof.
  revert i. induction l as [|a l IH]; intros i H; [discriminate|].
  cbn [find_pos] in H. destruct (p a) eqn:Ea.
  - inversion H; subst. cbn. auto.
  - destruct (find_pos p l) as [[j y]|] eqn:Ef; [|discriminate].
    inversion H; subst. destruct (IH j eq_refl) as (H1 & H2 & H3 & H4).
    cbn [nth_error firstn skipn app]. repeat split; auto.
    now f_equal.
Qed.

Lemma find_pos_None {A : Type} (p : A -> bool) (l : list A) :
  find_pos p l = None -> Forall (fun y => p y = false) l.
Proof.
  induction l as [|a l IH]; intros H; [constructor|].
  cbn [find_pos] in H. destruct (p a) eqn:Ea; [discriminate|].
  destruct (find_pos p l) as [[j y]|]; [discriminate|].
  constructor; auto.
Qed.

Lemma find_pos_split {A : Type} (p : A -> bool) (l1 l2 : list A) (x : A) :
  Forall (fun y => p y = false) l1 -> p x = true ->
  find_pos p (l1 ++ x :: l2) = Some (length l1, x).
Proof.
  intros H Hx. induction H as [|a l Ha _ IH]; cbn.
  - now rewrite Hx.
  - now rewrite Ha, IH.
Qed.

Lemma find_pos_app_None {A : Type} (p : A -> bool) (l : list A) (x : A) :
  find_pos p l = None -> p x = true ->
  find_pos p (l ++ [x]) = Some (length l, x).
Proof.
  intros H Hx. apply find_pos_None in H.
  now apply find_pos_split.
Qed.

Lemma update_nth_split {A : Type} (f : A -> A) (l1 l2 : list A) (x : A) :
  update_nth (length l1) f (l1 ++ x :: l2) = l1 ++ f x :: l2.
Proof. induction l1 as [|a l1 IH]; cbn; [reflexivity | now rewrite IH]. Qed.

Lemma update_nth_length {A : Type} (f : A -> A) (n : nat) (l : list A) :
  length (update_nth n f l) = length l.
Proof.
  revert n. induction l as [|a l IH]; intros [|n]; cbn; auto.
Qed.

Lemma nth_error_update_nth {A : Type} (f : A -> A) (n m : nat) (l : list A) :
  nth_error (update_nth n f l) m =
  if Nat.eqb n m then option_map f (nth_error l m) else nth_error l m.
Proof.
  revert n m. induction l as [|a l IH]; intros [|n] [|m]; cbn; auto.
  - now destruct (Nat.eqb n m).
Qed.

Lemma nth_update_nth {A : Type} (f : A -> A) (n : nat) (l : list A) (d : A) :
  (n < length l)%nat -> nth n (update_nth n f l) d = f (nth n l d).
Proof.
  revert n. induction l as [|a l IH]; intros [|n] H; cbn in *; try lia; auto.
  apply IH. lia.
Qed.

Lemma Forall_update_nth {A : Type} (P : A -> Prop) (f : A -> A) (n : nat)
    (l : list A) :
  Forall P l -> (forall x, nth_error l n = Some x -> P x -> P (f x)) ->
  Forall P (update_nth n f l).
Proof.
  intros H. revert n. induction H as [|a l Ha Hl IH]; intros n Hf.
  - destruct n; constructor.
  - destruct n; cbn; constructor; auto.
Qed.

Lemma find_pos_update_nth {A : Type} (p : A -> bool) (f : A -> A) (n : nat)
    (l : list A) :
  (forall x, p (f x) = p x) ->
  find_pos p (update_nth n f l) =
  match find_pos p l with
  | Some (i, x) => Some (i, if Nat.eqb n i then f x else x)
  | None => None
  end.
Proof.
  intros Hp. revert n. induction l as [|a l IH]; intros n; [now destruct n|].
  destruct n as [|n]; cbn.
  - rewrite Hp. destruct (p a); [reflexivity|].
    destruct (find_pos p l) as [[j y]|]; reflexivity.
  - destruct (p a); [reflexivity|]. rewrite IH.
    destruct (find_pos p l) as [[j y]|]; reflexivity.
Qed.

Lemma map_update_nth {A B : Type} (g : A -> B) (f : A -> A) (f' : B -> B)
    (n : nat) (l : list A) :
  (forall x, g (f x) = f' (g x)) ->
  map g (update_nth n f l) = update_nth n f' (map g l).
Proof.
  intros H. revert n. induction l as [|a l IH]; intros [|n]; cbn; auto.
  - now rewrite H.
  - now rewrite IH.
Qed.

Lemma map_update_nth_same {A B : Type} (g : A -> B) (f : A -> A) (n : nat)
    (l : list A) :
  (forall x, g (f x) = g x) -> map g (update_nth n f l) = map g l.
Proof.
  intros H. revert n. induction l as [|a l IH]; intros [|n]; cbn; auto.
  - now rewrite H.
  - now rewrite IH.
Qed.

Lemma nth_error_snoc {A : Type} (l : list A) (x y : A) (k : nat) :
  nth_error l k = Some y -> nth_error (l ++ [x]) k = Some y.
Proof.
  intros H. rewrite nth_error_app1; [exact H|].
  apply nth_error_Some. congruence.
Qed.

Lemma nth_error_nested {A : Type} (l : list (list A)) (g i : nat) (x : A)
    (y : list A) :
  nth_error l g = Some y -> nth_error (nth g l []) i = Some x ->
  nth_error y i = Some x.
Proof.
  intros H. apply (nth_error_nth _ _ []) in H. now rewrite H.
Qed.

Lemma Status_eqb_pending (s : Status) :
  Status_eqb s pending = true <-> s = pending.
Proof. destruct s; cbn; split; congruence. Qed.

Lemma truthy_nonempty (s : option string) : s <> Some EmptyString -> truthy s = s.
Proof. destruct s as [[|c s]|]; [contradiction | reflexivity | reflexivity]. Qed.

Lemma PACKAGES_commission (packageType : string) (pkg : Package) :
  PACKAGES packageType = Some (package pkg) -> 0 < commission pkg.
Proof.
  unfold PACKAGES, PACKAGES_table. cbn [assoc].
  repeat match goal with
  | |- context [String.eqb ?a ?b] => destruct (String.eqb a b)
  end; try (intros H; inversion H; subst; cbn; lia).
  destruct (existsb _ _); discriminate.
Qed.

(** ** References and [db.read()] *)

Lemma assign_run (user : Ref) (f : User -> User) (st : State) :
  assign user f st =
  match lookup_ref st user with
  | Some _ => (Some tt, assigned user f st)
  | None => (None, st)
  end.
Proof.
  unfold assign, assigned. destruct (lookup_ref st user); [|reflexivity].
  destruct user as [g i]. cbn [fst snd].
  destruct (Nat.ltb g (length (loaded st))); reflexivity.
Qed.

Lemma lookup_ref_assigned (user : Ref) (f : User -> User) (st : State) (u : User) :
  lookup_ref st user = Some u ->
  lookup_ref (assigned user f st) user = Some (f u).
Proof.
  destruct user as [g i]. unfold lookup_ref, assigned. cbn [fst snd].
  destruct (Nat.ltb g (length (loaded st))) eqn:Eg; cbn [loaded data users].
  - rewrite update_nth_length, Eg. intros H.
    apply Nat.ltb_lt in Eg.
    rewrite nth_update_nth by exact Eg.
    rewrite nth_error_update_nth, Nat.eqb_refl, H. reflexivity.
  - rewrite Eg. destruct (Nat.eqb g (length (loaded st))); [|discriminate].
    intros H. rewrite nth_error_update_nth, Nat.eqb_refl, H. reflexivity.
Qed.

(** A reference that denotes an object keeps denoting it after [db.read()]:
    the object now belongs to a snapshot loaded earlier. *)
Lemma lookup_ref_reloaded (st : State) (r : Ref) (u : User) :
  lookup_ref st r = Some u ->
  lookup_ref (reloaded st) r = Some u /\
  Nat.ltb (fst r) (length (loaded (reloaded st))) = true.
Proof.
  destruct r as [g i]. unfold lookup_ref, reloaded. cbn [fst snd loaded data].
  rewrite length_app. cbn [length].
  destruct (Nat.ltb g (length (loaded st))) eqn:Eg.
  - apply Nat.ltb_lt in Eg. intros H.
    assert (E : Nat.ltb g (length (loaded st) + 1) = true)
      by (apply Nat.ltb_lt; lia).
    rewrite E, app_nth1 by exact Eg. auto.
  - destruct (Nat.eqb g (length (loaded st))) eqn:Ee; [|discriminate].
    apply Nat.eqb_eq in Ee. subst g. intros H.
    assert (E : Nat.ltb (length (loaded st)) (length (loaded st) + 1) = true)
      by (apply Nat.ltb_lt; lia).
    rewrite E, nth_middle. auto.
Qed.

(** A reference found in [db.data] denotes the element at its position. *)
Lemma lookup_ref_current (st : State) (i : nat) :
  lookup_ref st (length (loaded st), i) = nth_error (users (data st)) i.
Proof.
  unfold lookup_ref. now rewrite Nat.ltb_irrefl, Nat.eqb_refl.
Qed.

Lemma lookup_ref_in_reloaded (st : State) (i : nat) :
  lookup_ref (reloaded st) (length (loaded (reloaded st)), i) =
  nth_error (users (file st)) i.
Proof. exact (lookup_ref_current (reloaded st) i). Qed.

Lemma lookup_ref_in_committed (d : Db) (st : State) (i : nat) :
  lookup_ref (committed d st) (length (loaded (reloaded st)), i) =
  nth_error (users d) i.
Proof. exact (lookup_ref_current (committed d st) i). Qed.

Lemma lookup_ref_set_withdraws (st : State) (ws : list Withdraw) (r : Ref) :
  lookup_ref (set_data (set_withdraws ws (data st)) st) r = lookup_ref st r.
Proof. destruct r; reflexivity. Qed.

Lemma withdraws_assigned (user : Ref) (f : User -> User) (st : State) :
  withdraws (data (assigned user f st)) = withdraws (data st).
Proof.
  unfold assigned. destruct (Nat.ltb (fst user) (length (loaded st))); reflexivity.
Qed.

Lemma store_unchanged_reloaded (st : State) : store_unchanged st (reloaded st).
Proof.
  repeat split. intros r u H. now apply lookup_ref_reloaded.
Qed.

(** ** The operations in closed form *)

Lemma approve_run (withdrawId note now : string) (st : State) :
  approveWithdrawRequest withdrawId note now st =
  match find_pos (has_withdraw_id withdrawId) (withdraws (file st)) with
  | None => (Some (Err "Withdraw request not found"), reloaded st)
  | Some (i, w) =>
      if Status_eqb (w_status w) pending then
        (Some (Ok (resolve approved now note w)),
         committed
           {| users := users (file st);
              pendingPurchases := pendingPurchases (file st);
              withdraws :=
                update_nth i (resolve approved now note) (withdraws (file st)) |}
           st)
      else (Some (Err "Not pending"), reloaded st)
  end.
Proof.
  unfold approveWithdrawRequest, has_withdraw_id. run_monad.
  destruct (find_pos _ _) as [[i w]|]; [|reflexivity].
  destruct (Status_eqb (w_status w) pending); reflexivity.
Qed.

Lemma reject_run (withdrawId reason now : string) (st : State) :
  rejectWithdrawRequest withdrawId reason now st =
  match find_pos (has_withdraw_id withdrawId) (withdraws (file st)) with
  | None => (Some (Err "Withdraw request not found"), reloaded st)
  | Some (i, w) =>
      if Status_eqb (w_status w) pending then
        (Some (Ok (resolve rejected now reason w)),
         committed
           {| users := credit_user (w_userId w) (w_amount w) (users (file st));
              pendingPurchases := pendingPurchases (file st);
              withdraws :=
                update_nth i (resolve rejected now reason) (withdraws (file st)) |}
           st)
      else (Some (Err "Not pending"), reloaded st)
  end.
Proof.
  unfold rejectWithdrawRequest, has_withdraw_id, credit_user. run_monad.
  destruct (find_pos _ _) as [[i w]|]; [|reflexivity].
  destruct (Status_eqb (w_status w) pending); [|reflexivity].
  cbn [negb]. run_monad.
  destruct (find_pos _ (users (file st))) as [[j u]|] eqn:Eu.
  - cbn [option_map fst]. run_monad.
    apply find_pos_Some in Eu. destruct Eu as (Hn & _). rewrite Hn.
    reflexivity.
  - reflexivity.
Qed.

Lemma createWithdrawRequest_any (user : Ref) (nano now : string) (st : State) :
  createWithdrawRequest user nano now st =
  match lookup_ref (reloaded st) user with
  | None => (None, reloaded st)
  | Some u =>
      (Some (full_request u nano now),
       saved (assigned user (set_balance (num 0))
                (pushed (full_request u nano now) (reloaded st))))
  end.
Proof.
  unfold createWithdrawRequest, bind.
  change (db_read st) with (Some tt, reloaded st). cbv iota beta.
  unfold deref. destruct (lookup_ref (reloaded st) user) as [u|] eqn:E;
    [|reflexivity].
  unfold modify_data, modify_state. cbv iota beta.
  rewrite assign_run, lookup_ref_set_withdraws, E. reflexivity.
Qed.

Lemma createWithdrawRequestDynamic_any (user : Ref) (amount : Z)
    (paymentMethod nano now : string) (st : State) :
  createWithdrawRequestDynamic user amount paymentMethod nano now st =
  if (amount =? 0) || (amount <=? 0) then
    (Some (Err "Invalid amount"), reloaded st)
  else
    match lookup_ref (reloaded st) user with
    | None => (None, reloaded st)
    | Some u =>
        if greater amount (u_balance u) then
          (Some (Err "Insufficient balance"), reloaded st)
        else if negb (Z.rem amount 100 =? 0) then
          (Some (Err "Amount must end with 00"), reloaded st)
        else
          (Some (Ok (dynamic_request u amount paymentMethod nano now)),
           saved (assigned user (fun x => set_balance (minus (u_balance x) amount) x)
                    (pushed (dynamic_request u amount paymentMethod nano now)
                       (reloaded st))))
    end.
Proof.
  unfold createWithdrawRequestDynamic, bind.
  change (db_read st) with (Some tt, reloaded st). cbv iota beta.
  destruct ((amount =? 0) || (amount <=? 0)); [reflexivity|].
  unfold deref. destruct (lookup_ref (reloaded st) user) as [u|] eqn:E;
    [|reflexivity].
  destruct (greater amount (u_balance u)); [reflexivity|].
  destruct (negb (Z.rem amount 100 =? 0)); [reflexivity|].
  unfold modify_data, modify_state. cbv iota beta.
  rewrite assign_run, lookup_ref_set_withdraws, E. reflexivity.
Qed.

Lemma createWithdrawRequest_run (user : Ref) (nano now : string) (st : State)
    (u : User) :
  lookup_ref st user = Some u ->
  createWithdrawRequest user nano now st =
  (Some (full_request u nano now),
   requested (full_request u nano now) user (set_balance (num 0)) st).
Proof.
  intros H. apply lookup_ref_reloaded in H. destruct H as [H Hold].
  unfold createWithdrawRequest, bind.
  change (db_read st) with (Some tt, reloaded st). cbv iota beta.
  unfold deref. rewrite H.
  unfold modify_data, modify_state. cbv iota beta.
  rewrite assign_run, lookup_ref_set_withdraws, H.
  unfold assigned. cbn [loaded set_data]. rewrite Hold. reflexivity.
Qed.

Lemma createWithdrawRequestDynamic_run (user : Ref) (amount : Z)
    (paymentMethod nano now : string) (st : State) (u : User) :
  lookup_ref st user = Some u ->
  createWithdrawRequestDynamic user amount paymentMethod nano now st =
  if (amount =? 0) || (amount <=? 0) then
    (Some (Err "Invalid amount"), reloaded st)
  else if greater amount (u_balance u) then
    (Some (Err "Insufficient balance"), reloaded st)
  else if negb (Z.rem amount 100 =? 0) then
    (Some (Err "Amount must end with 00"), reloaded st)
  else
    (Some (Ok (dynamic_request u amount paymentMethod nano now)),
     requested (dynamic_request u amount paymentMethod nano now) user
       (fun x => set_balance (minus (u_balance x) amount) x) st).
Proof.
  intros H. apply lookup_ref_reloaded in H. destruct H as [H Hold].
  unfold createWithdrawRequestDynamic, bind.
  change (db_read st) with (Some tt, reloaded st). cbv iota beta.
  destruct ((amount =? 0) || (amount <=? 0)); [reflexivity|].
  unfold deref. rewrite H.
  destruct (greater amount (u_balance u)); [reflexivity|].
  destruct (negb (Z.rem amount 100 =? 0)); [reflexivity|].
  unfold modify_data, modify_state. cbv iota beta.
  rewrite assign_run, lookup_ref_set_withdraws, H.
  unfold assigned. cbn [loaded set_data]. rewrite Hold. reflexivity.
Qed.

Lemma registerUserIfNotExists_run (from : From) (referralCode : option string)
    (nano now : string) (st : State) :
  registerUserIfNotExists from referralCode nano now st =
  match find_pos (has_id (from_id from)) (users (file st)) with
  | Some (i, _) => (Some (length (loaded (reloaded st)), i), reloaded st)
  | None =>
      (Some (length (loaded (reloaded st)), length (users (file st))),
       committed
         {| users := users (file st) ++ [new_user from referralCode nano now];
            pendingPurchases := pendingPurchases (file st);
            withdraws := withdraws (file st) |}
         st)
  end.
Proof.
  unfold registerUserIfNotExists, has_id, new_user. run_monad.
  destruct (find_pos _ _) as [[i u]|]; [reflexivity|].
  cbn [option_map]. run_monad.
  destruct (truthy referralCode) as [code|]; [|reflexivity].
  run_monad.
  destruct (find_pos _ _) as [[j r]|] eqn:Er; [|reflexivity].
  cbn [option_map fst]. run_monad.
  apply find_pos_Some in Er. destruct Er as (Hn & _). rewrite Hn.
  reflexivity.
Qed.

Lemma confirmPurchase_run (userId : Z) (packageType now : string) (st : State) :
  confirmPurchase userId packageType now st =
  match find_pos (has_id userId) (users (file st)) with
  | None => (Some (Err "User not found"), reloaded st)
  | Some (i, u) =>
      match PACKAGES packageType with
      | None => (Some (Err "Invalid package"), reloaded st)
      | Some property =>
          (Some (Ok (length (loaded (reloaded st)), i)),
           committed
             {| users :=
                  pay_commission (u_referredBy u) property
                    (update_nth i (set_package packageType now)
                       (users (file st)));
                pendingPurchases :=
                  filter (other_purchase userId packageType)
                    (pendingPurchases (file st));
                withdraws := withdraws (file st) |}
             st)
      end
  end.
Proof.
  unfold confirmPurchase, has_id, pay_commission, has_referralCode, other_purchase.
  run_monad.
  destruct (find_pos _ _) as [[i u]|] eqn:Eu; [|reflexivity].
  cbn [option_map fst].
  destruct (PACKAGES packageType) as [pkg|]; [|reflexivity].
  run_monad.
  apply find_pos_Some in Eu. destruct Eu as (Hn & _). rewrite Hn.
  run_monad. rewrite nth_error_update_nth, Nat.eqb_refl, Hn.
  cbn [option_map set_package u_referredBy].
  destruct (truthy (u_referredBy u)) as [code|]; [|reflexivity].
  run_monad.
  destruct (find_pos _ _) as [[j r]|] eqn:Er; [|reflexivity].
  cbn [option_map fst]. run_monad.
  apply find_pos_Some in Er. destruct Er as (Hr & _). rewrite Hr.
  run_monad. rewrite nth_error_update_nth, Nat.eqb_refl, Hr.
  reflexivity.
Qed.

Lemma addPendingPurchase_run (userId : Z) (packageType note nano now : string)
    (st : State) :
  addPendingPurchase userId packageType note nano now st =
  match find_pos (has_id userId) (users (file st)) with
  | None => (Some (Err "User not found"), reloaded st)
  | Some _ =>
      match PACKAGES packageType with
      | None => (Some (Err "Invalid package"), reloaded st)
      | Some _ =>
          let entry :=
            {| p_id := nano; p_userId := userId; p_package := packageType;
               p_note := note; p_createdAt := now |} in
          (Some (Ok entry),
           committed
             {| users := users (file st);
                pendingPurchases := pendingPurchases (file st) ++ [entry];
                withdraws := withdraws (file st) |}
             st)
      end
  end.
Proof.
  unfold addPendingPurchase, has_id. run_monad.
  destruct (find_pos _ _) as [[i u]|]; [|reflexivity].
  cbn [option_map].
  destruct (PACKAGES packageType); reflexivity.
Qed.

(** "cancel" ends the session of its sender and touches nothing else. *)
Lemma on_text_cancel (st : State) (from : Z) (nano now : string)
    (session : Session) :
  session_get from (userSessions st) = Some session ->
  on_text from "cancel" nano now st =
  (Some (Some Canceled),
   {| written := written st; loaded := loaded st; data := data st;
      userSessions := session_delete from (userSessions st) |}).
Proof.
  intros H. unfold on_text, bind, get_session. rewrite H. reflexivity.
Qed.

(** ** What db.json holds *)

Lemma stored_stored (v : Num) : stored (stored v) = stored v.
Proof. destruct v; reflexivity. Qed.

Lemma stored_not_NaN (v : Num) : stored v <> NaN.
Proof. destruct v; discriminate. Qed.

Lemma stored_same (v : Num) : v <> NaN -> stored v = v.
Proof. destruct v; [reflexivity | contradiction | reflexivity]. Qed.

Lemma stored_user_same (u : User) : u_balance u <> NaN -> stored_user u = u.
Proof.
  intros H. destruct u. unfold stored_user. cbn in *.
  now rewrite (stored_same _ H).
Qed.

Lemma stored_request_same (w : Withdraw) :
  w_amount w <> NaN -> stored_request w = w.
Proof.
  intros H. destruct w. unfold stored_request. cbn in *.
  now rewrite (stored_same _ H).
Qed.

Lemma map_same {A : Type} (g : A -> A) (l : list A) :
  Forall (fun x => g x = x) l -> map g l = l.
Proof.
  induction 1 as [|x l Hx _ IH]; [reflexivity|]. cbn. now rewrite Hx, IH.
Qed.

(** No number of db.json is NaN. *)
Lemma file_users_json (st : State) :
  Forall (fun u => u_balance u <> NaN) (users (file st)).
Proof.
  unfold file, to_json. cbn [users]. apply Forall_map.
  apply Forall_forall. intros u _. apply stored_not_NaN.
Qed.

Lemma file_withdraws_json (st : State) :
  Forall (fun w => w_amount w <> NaN) (withdraws (file st)).
Proof.
  unfold file, to_json. cbn [withdraws]. apply Forall_map.
  apply Forall_forall. intros w _. apply stored_not_NaN.
Qed.

Lemma map_stored_user_json (us : list User) :
  Forall (fun u => u_balance u <> NaN) us -> map stored_user us = us.
Proof.
  intros H. apply map_same. eapply Forall_impl; [|exact H].
  intros u. apply stored_user_same.
Qed.

Lemma map_stored_request_json (ws : list Withdraw) :
  Forall (fun w => w_amount w <> NaN) ws -> map stored_request ws = ws.
Proof.
  intros H. apply map_same. eapply Forall_impl; [|exact H].
  intros w. apply stored_request_same.
Qed.

Lemma map_stored_user_file (st : State) :
  map stored_user (users (file st)) = users (file st).
Proof. apply map_stored_user_json, file_users_json. Qed.

Lemma map_stored_request_file (st : State) :
  map stored_request (withdraws (file st)) = withdraws (file st).
Proof. apply map_stored_request_json, file_withdraws_json. Qed.

(** Writing what was read changes nothing. *)
Lemma to_json_file (st : State) : to_json (file st) = file st.
Proof.
  unfold to_json at 1. rewrite map_stored_user_file, map_stored_request_file.
  now destruct (file st).
Qed.

Lemma file_reloaded (st : State) : file (reloaded st) = file st.
Proof. reflexivity. Qed.

Lemma file_committed (d : Db) (st : State) : file (committed d st) = to_json d.
Proof. reflexivity. Qed.

Lemma file_with_sessions (f : Sessions -> Sessions) (st : State) :
  file (with_sessions f st) = file st.
Proof. reflexivity. Qed.

(** A collection that holds no NaN is written as it is. *)
Lemma to_json_same (d : Db) :
  Forall (fun u => u_balance u <> NaN) (users d) ->
  Forall (fun w => w_amount w <> NaN) (withdraws d) ->
  to_json d = d.
Proof.
  intros Hu Hw. unfold to_json.
  rewrite (map_stored_user_json _ Hu), (map_stored_request_json _ Hw).
  now destruct d.
Qed.

Lemma json_resolved (i : nat) (status : Status) (now note : string)
    (ws : list Withdraw) :
  Forall (fun w => w_amount w <> NaN) ws ->
  Forall (fun w => w_amount w <> NaN) (update_nth i (resolve status now note) ws).
Proof.
  intros H. apply Forall_update_nth; [exact H|]. intros x _ Hx. exact Hx.
Qed.

Lemma plus_not_NaN (a : Z) (v : Num) : v <> NaN -> plus a v <> NaN.
Proof. destruct v; [discriminate | contradiction | discriminate]. Qed.

Lemma json_credit_user (id : Z) (amount : Num) (us : list User) :
  Forall (fun u => u_balance u <> NaN) us -> amount <> NaN ->
  Forall (fun u => u_balance u <> NaN) (credit_user id amount us).
Proof.
  intros H Ha. unfold credit_user.
  destruct (find_pos _ us) as [[j u]|]; [|exact H].
  apply Forall_update_nth; [exact H|]. intros x _ _. cbn.
  now apply plus_not_NaN.
Qed.

Lemma json_set_package (i : nat) (packageType now : string) (us : list User) :
  Forall (fun u => u_balance u <> NaN) us ->
  Forall (fun u => u_balance u <> NaN)
    (update_nth i (set_package packageType now) us).
Proof.
  intros H. apply Forall_update_nth; [exact H|]. intros x _ Hx. exact Hx.
Qed.

Lemma json_pay_commission (referredBy : option string) (pkg : Package)
    (us : list User) :
  Forall (fun u => u_balance u <> NaN) us ->
  Forall (fun u => u_balance u <> NaN)
    (pay_commission referredBy (package pkg) us).
Proof.
  intros H. unfold pay_commission.
  destruct (truthy referredBy); [|exact H].
  destruct (find_pos _ us) as [[j u]|]; [|exact H].
  apply Forall_update_nth; [exact H|]. intros x _ _. discriminate.
Qed.

(** ** db.json after an operation *)

Lemma approve_file (withdrawId note now : string) (st : State) :
  file (snd (approveWithdrawRequest withdrawId note now st)) =
  match find_pos (has_withdraw_id withdrawId) (withdraws (file st)) with
  | None => file st
  | Some (i, w) =>
      if Status_eqb (w_status w) pending then
        {| users := users (file st);
           pendingPurchases := pendingPurchases (file st);
           withdraws :=
             update_nth i (resolve approved now note) (withdraws (file st)) |}
      else file st
  end.
Proof.
  rewrite approve_run.
  destruct (find_pos _ _) as [[i w]|]; [|reflexivity].
  destruct (Status_eqb (w_status w) pending); [|reflexivity].
  cbn [snd]. rewrite file_committed. apply to_json_same; cbn [users withdraws].
  - apply file_users_json.
  - apply json_resolved, file_withdraws_json.
Qed.

Lemma reject_file (withdrawId reason now : string) (st : State) :
  file (snd (rejectWithdrawRequest withdrawId reason now st)) =
  match find_pos (has_withdraw_id withdrawId) (withdraws (file st)) with
  | None => file st
  | Some (i, w) =>
      if Status_eqb (w_status w) pending then
        {| users := credit_user (w_userId w) (w_amount w) (users (file st));
           pendingPurchases := pendingPurchases (file st);
           withdraws :=
             update_nth i (resolve rejected now reason) (withdraws (file st)) |}
      else file st
  end.
Proof.
  rewrite reject_run.
  destruct (find_pos _ _) as [[i w]|] eqn:E; [|reflexivity].
  destruct (Status_eqb (w_status w) pending); [|reflexivity].
  cbn [snd]. rewrite file_committed. apply to_json_same; cbn [users withdraws].
  - apply json_credit_user; [apply file_users_json|].
    apply find_pos_Some in E. destruct E as (Hn & _).
    apply nth_error_In in Hn.
    pose proof (file_withdraws_json st) as Hw.
    eapply Forall_forall in Hw; [exact Hw | exact Hn].
  - apply json_resolved, file_withdraws_json.
Qed.

Lemma register_file (from : From) (referralCode : option string)
    (nano now : string) (st : State) :
  file (snd (registerUserIfNotExists from referralCode nano now st)) =
  match find_pos (has_id (from_id from)) (users (file st)) with
  | Some _ => file st
  | None =>
      {| users := users (file st) ++ [new_user from referralCode nano now];
         pendingPurchases := pendingPurchases (file st);
         withdraws := withdraws (file st) |}
  end.
Proof.
  rewrite registerUserIfNotExists_run.
  destruct (find_pos _ _) as [[i u]|]; [reflexivity|].
  cbn [snd]. rewrite file_committed. apply to_json_same; cbn [users withdraws].
  - apply Forall_app. split; [apply file_users_json|].
    constructor; [discriminate | constructor].
  - apply file_withdraws_json.
Qed.

Lemma confirmPurchase_file (userId : Z) (packageType now : string) (st : State) :
  file (snd (confirmPurchase userId packageType now st)) =
  match find_pos (has_id userId) (users (file st)) with
  | None => file st
  | Some (i, u) =>
      match PACKAGES packageType with
      | None => file st
      | Some property =>
          {| users :=
               map stored_user
                 (pay_commission (u_referredBy u) property
                    (update_nth i (set_package packageType now)
                       (users (file st))));
             pendingPurchases :=
               filter (other_purchase userId packageType)
                 (pendingPurchases (file st));
             withdraws := withdraws (file st) |}
      end
  end.
Proof.
  rewrite confirmPurchase_run.
  destruct (find_pos _ _) as [[i u]|]; [|reflexivity].
  destruct (PACKAGES packageType); [|reflexivity].
  cbn [snd]. rewrite file_committed. unfold to_json.
  cbn [users pendingPurchases withdraws].
  now rewrite map_stored_request_file.
Qed.

(** For a package of the table the users are written as they are. *)
Lemma stored_pay_commission (referredBy : option string) (pkg : Package)
    (i : nat) (packageType now : string) (st : State) :
  map stored_user
    (pay_commission referredBy (package pkg)
       (update_nth i (set_package packageType now) (users (file st)))) =
  pay_commission referredBy (package pkg)
    (update_nth i (set_package packageType now) (users (file st))).
Proof.
  apply map_stored_user_json, json_pay_commission, json_set_package,
    file_users_json.
Qed.

Lemma addPendingPurchase_file (userId : Z) (packageType note nano now : string)
    (st : State) :
  file (snd (addPendingPurchase userId packageType note nano now st)) =
  match find_pos (has_id userId) (users (file st)) with
  | None => file st
  | Some _ =>
      match PACKAGES packageType with
      | None => file st
      | Some _ =>
          {| users := users (file st);
             pendingPurchases :=
               pendingPurchases (file st) ++
               [{| p_id := nano; p_userId := userId; p_package := packageType;
                   p_note := note; p_createdAt := now |}];
             withdraws := withdraws (file st) |}
      end
  end.
Proof.
  rewrite addPendingPurchase_run.
  destruct (find_pos _ _) as [[i u]|]; [|reflexivity].
  destruct (PACKAGES packageType); [|reflexivity].
  cbv zeta. cbn [snd]. rewrite file_committed.
  apply to_json_same; cbn [users withdraws];
    [apply file_users_json | apply file_withdraws_json].
Qed.

(** db.json after a request [w] was pushed and saved for a user object of a
    snapshot loaded earlier. *)
Lemma file_requested (w : Withdraw) (user : Ref) (f : User -> User)
    (st : State) :
  file (requested w user f st) =
  {| users := users (file st);
     pendingPurchases := pendingPurchases (file st);
     withdraws := withdraws (file st) ++ [stored_request w] |}.
Proof.
  unfold file at 1, requested, to_json. cbn [written users pendingPurchases withdraws].
  now rewrite map_stored_user_file, map_app, map_stored_request_file.
Qed.

Lemma data_requested (w : Withdraw) (user : Ref) (f : User -> User)
    (st : State) :
  data (requested w user f st) =
  {| users := users (file st);
     pendingPurchases := pendingPurchases (file st);
     withdraws := withdraws (file st) ++ [w] |}.
Proof. reflexivity. Qed.

(** db.json after a request [w] was pushed and saved and the object behind
    any reference was changed. *)
Lemma withdraws_file_saved (user : Ref) (f : User -> User) (w : Withdraw)
    (st : State) :
  withdraws (file (saved (assigned user f (pushed w (reloaded st))))) =
  withdraws (file st) ++ [stored_request w].
Proof.
  unfold file at 1, saved, to_json. cbn [written withdraws].
  rewrite withdraws_assigned. cbn [pushed set_data set_withdraws data withdraws reloaded].
  now rewrite map_app, map_stored_request_file.
Qed.

Lemma pendingPurchases_file_saved (user : Ref) (f : User -> User)
    (w : Withdraw) (st : State) :
  pendingPurchases (file (saved (assigned user f (pushed w (reloaded st))))) =
  pendingPurchases (file st).
Proof.
  unfold file at 1, saved, to_json. cbn [written pendingPurchases].
  unfold assigned. destruct (Nat.ltb (fst user) (length _)); reflexivity.
Qed.

Lemma users_file_saved (user : Ref) (f : User -> User) (w : Withdraw)
    (st : State) :
  users (file (saved (assigned user f (pushed w (reloaded st))))) =
    users (file st) \/
  users (file (saved (assigned user f (pushed w (reloaded st))))) =
    map stored_user (update_nth (snd user) f (users (file st))).
Proof.
  unfold file at 1 3, saved, to_json. cbn [written users].
  unfold assigned. destruct (Nat.ltb (fst user) (length _)).
  - left. cbn. apply map_stored_user_file.
  - right. reflexivity.
Qed.

(** ** Balances that are non-negative integers *)

Lemma nonneg_not_NaN (v : Num) : nonneg v -> v <> NaN.
Proof. intros (n & -> & _). discriminate. Qed.

Lemma nonneg_db_to_json (d : Db) : nonneg_db d -> to_json d = d.
Proof.
  intros [Hu Hw]. unfold to_json.
  rewrite map_stored_user_json, map_stored_request_json.
  - now destruct d.
  - eapply Forall_impl; [|exact Hw]. intros w. apply nonneg_not_NaN.
  - eapply Forall_impl; [|exact Hu]. intros u. apply nonneg_not_NaN.
Qed.

Lemma ledger_ok_reloaded (st : State) : ledger_ok st -> ledger_ok (reloaded st).
Proof.
  intros (Hf & Hd & Hl). split; [exact Hf|]. split; [exact Hf|].
  cbn [loaded reloaded]. apply Forall_app. split; [exact Hl|].
  constructor; [apply Hd | constructor].
Qed.

Lemma ledger_ok_committed (d : Db) (st : State) :
  ledger_ok st -> nonneg_db d -> ledger_ok (committed d st).
Proof.
  intros (Hf & Hd & Hl) H. split; [|split].
  - rewrite file_committed, nonneg_db_to_json; exact H.
  - exact H.
  - cbn [loaded committed]. apply Forall_app. split; [exact Hl|].
    constructor; [apply Hd | constructor].
Qed.

Lemma ledger_ok_saved (st : State) : ledger_ok st -> ledger_ok (saved st).
Proof.
  intros (Hf & Hd & Hl). split; [|split; [exact Hd | exact Hl]].
  unfold file, saved. cbn [written]. now rewrite nonneg_db_to_json.
Qed.

Lemma ledger_ok_pushed (w : Withdraw) (st : State) :
  ledger_ok st -> nonneg (w_amount w) -> ledger_ok (pushed w st).
Proof.
  intros (Hf & (Hu & Hw) & Hl) H. split; [exact Hf|]. split; [|exact Hl].
  split; [exact Hu|]. cbn. apply Forall_app.
  split; [exact Hw | constructor; [exact H | constructor]].
Qed.

Lemma lookup_ref_nonneg (st : State) (r : Ref) (u : User) :
  ledger_ok st -> lookup_ref st r = Some u -> nonneg (u_balance u).
Proof.
  intros (Hf & (Hu & _) & Hl). destruct r as [g i]. unfold lookup_ref.
  destruct (Nat.ltb g (length (loaded st))) eqn:Eg.
  - intros H. apply nth_error_In in H.
    apply Nat.ltb_lt in Eg.
    assert (Hg : nonneg_users (nth g (loaded st) [])).
    { eapply Forall_forall in Hl; [exact Hl|]. now apply nth_In. }
    eapply Forall_forall in Hg; [exact Hg | exact H].
  - destruct (Nat.eqb g (length (loaded st))); [|discriminate].
    intros H. apply nth_error_In in H.
    eapply Forall_forall in Hu; [exact Hu | exact H].
Qed.

Lemma ledger_ok_assigned (st : State) (r : Ref) (f : User -> User) (u : User) :
  ledger_ok st -> lookup_ref st r = Some u -> nonneg (u_balance (f u)) ->
  ledger_ok (assigned r f st).
Proof.
  intros (Hf & (Hu & Hw) & Hl) H Hfu. destruct r as [g i].
  unfold lookup_ref in H. unfold assigned. cbn [fst snd].
  destruct (Nat.ltb g (length (loaded st))) eqn:Eg.
  - split; [exact Hf|]. split; [split; assumption|]. cbn [loaded].
    apply Forall_update_nth; [exact Hl|].
    intros y Hy Py. apply Forall_update_nth; [exact Py|].
    intros x Hx _.
    rewrite (nth_error_nested _ _ _ _ _ Hy H) in Hx. inversion Hx; subst. exact Hfu.
  - destruct (Nat.eqb g (length (loaded st))); [|discriminate].
    split; [exact Hf|]. split; [|exact Hl]. split; [|exact Hw]. cbn [data users].
    apply Forall_update_nth; [exact Hu|].
    intros x Hx _. rewrite H in Hx. inversion Hx; subst. exact Hfu.
Qed.

Lemma nonneg_credit_user (id : Z) (amount : Num) (us : list User) :
  nonneg_users us -> nonneg amount -> nonneg_users (credit_user id amount us).
Proof.
  intros H (a & -> & Ha). unfold credit_user.
  destruct (find_pos _ us) as [[j u]|]; [|exact H].
  apply Forall_update_nth; [exact H|]. intros x _ (n & Hx & Hn). cbn.
  rewrite Hx. cbn. exists (n + a). split; [reflexivity | lia].
Qed.

Lemma nonneg_pay_commission (referredBy : option string) (pkg : Package)
    (us : list User) :
  nonneg_users us -> 0 <= commission pkg ->
  nonneg_users (pay_commission referredBy (package pkg) us).
Proof.
  intros H Hd. unfold pay_commission.
  destruct (truthy referredBy) as [code|]; [|exact H].
  destruct (find_pos _ us) as [[j u]|]; [|exact H].
  apply Forall_update_nth; [exact H|]. intros x _ (n & Hx & Hn). cbn.
  rewrite Hx. cbn. exists (n + commission pkg). split; [reflexivity | lia].
Qed.

Lemma amounts_resolved (i : nat) (status : Status) (now note : string)
    (ws : list Withdraw) :
  Forall (fun w => nonneg (w_amount w)) ws ->
  Forall (fun w => nonneg (w_amount w)) (update_nth i (resolve status now note) ws).
Proof.
  intros H. apply Forall_update_nth; [exact H|]. intros x _ Hx. exact Hx.
Qed.

(** The name of an inherited property is in the list. *)
Lemma PACKAGES_inherited (packageType : string) :
  PACKAGES packageType = Some inherited -> In packageType Object_prototype.
Proof.
  unfold PACKAGES. destruct (assoc packageType PACKAGES_table); [discriminate|].
  destruct (existsb _ _) eqn:E; [|discriminate]. intros _.
  apply existsb_exists in E. destruct E as (k & Hk & E).
  apply String.eqb_eq in E. now subst k.
Qed.

Lemma apply_op_ledger_ok (op : Op) (st : State) :
  table_package op -> ledger_ok st -> ledger_ok (apply_op op st).
Proof.
  intros Ht H. pose proof H as (Hf & _ & _). destruct Hf as [Hu Hw].
  destruct op; cbn [apply_op].
  - (* Register *)
    rewrite registerUserIfNotExists_run.
    destruct (find_pos _ _) as [[i u]|]; cbn [snd].
    + now apply ledger_ok_reloaded.
    + apply ledger_ok_committed; [exact H|]. split; [|exact Hw].
      cbn [users]. apply Forall_app. split; [exact Hu|].
      constructor; [exists 0; split; [reflexivity | lia] | constructor].
  - (* ConfirmPurchase *)
    rewrite confirmPurchase_run.
    destruct (find_pos _ _) as [[i u]|]; cbn [snd];
      [|now apply ledger_ok_reloaded].
    destruct (PACKAGES packageType) as [[pkg|]|] eqn:Ep; cbn [snd];
      [| |now apply ledger_ok_reloaded].
    + apply ledger_ok_committed; [exact H|]. split; [|exact Hw].
      cbn [users]. apply nonneg_pay_commission.
      * apply Forall_update_nth; [exact Hu|]. intros x _ Hx. exact Hx.
      * apply PACKAGES_commission in Ep. lia.
    + apply PACKAGES_inherited in Ep. contradiction.
  - (* AddPendingPurchase *)
    rewrite addPendingPurchase_run.
    destruct (find_pos _ _) as [[i u]|]; cbn [snd];
      [|now apply ledger_ok_reloaded].
    destruct (PACKAGES packageType); cbn [snd];
      [|now apply ledger_ok_reloaded].
    apply ledger_ok_committed; [exact H|]. split; assumption.
  - (* CreateWithdrawDynamic *)
    rewrite createWithdrawRequestDynamic_any.
    destruct ((amount =? 0) || (amount <=? 0)) eqn:Ea; cbn [snd];
      [now apply ledger_ok_reloaded|].
    destruct (lookup_ref (reloaded st) user) as [u|] eqn:El; cbn [snd];
      [|now apply ledger_ok_reloaded].
    destruct (greater amount (u_balance u)) eqn:Eb; cbn [snd];
      [now apply ledger_ok_reloaded|].
    destruct (negb (Z.rem amount 100 =? 0)); cbn [snd];
      [now apply ledger_ok_reloaded|].
    apply orb_false_iff in Ea. destruct Ea as [_ Ea].
    apply Z.leb_gt in Ea.
    assert (Hb : exists n, u_balance u = num n /\ amount <= n).
    { destruct (lookup_ref_nonneg _ _ _ (ledger_ok_reloaded _ H) El)
        as (n & Hn & _).
      exists n. split; [exact Hn|]. rewrite Hn in Eb. cbn in Eb.
      rewrite Z.gtb_ltb in Eb. now apply Z.ltb_ge in Eb. }
    destruct Hb as (n & Hn & Hb).
    apply ledger_ok_saved.
    apply ledger_ok_assigned with (u := u).
    + apply ledger_ok_pushed; [now apply ledger_ok_reloaded|].
      exists amount. split; [reflexivity | lia].
    + unfold pushed. rewrite lookup_ref_set_withdraws. exact El.
    + cbn. rewrite Hn. cbn. exists (n - amount). split; [reflexivity | lia].
  - (* CreateWithdraw *)
    rewrite createWithdrawRequest_any.
    destruct (lookup_ref (reloaded st) user) as [u|] eqn:El; cbn [snd];
      [|now apply ledger_ok_reloaded].
    assert (Hb : nonneg (u_balance u)).
    { eapply lookup_ref_nonneg; [apply ledger_ok_reloaded; exact H | exact El]. }
    apply ledger_ok_saved.
    apply ledger_ok_assigned with (u := u).
    + apply ledger_ok_pushed; [now apply ledger_ok_reloaded | exact Hb].
    + unfold pushed. rewrite lookup_ref_set_withdraws. exact El.
    + cbn. exists 0. split; [reflexivity | lia].
  - (* Approve *)
    rewrite approve_run.
    destruct (find_pos _ _) as [[i w]|]; cbn [snd];
      [|now apply ledger_ok_reloaded].
    destruct (Status_eqb (w_status w) pending); cbn [snd];
      [|now apply ledger_ok_reloaded].
    apply ledger_ok_committed; [exact H|]. split; [exact Hu|].
    now apply amounts_resolved.
  - (* Reject *)
    rewrite reject_run.
    destruct (find_pos _ _) as [[i w]|] eqn:Ew; cbn [snd];
      [|now apply ledger_ok_reloaded].
    destruct (Status_eqb (w_status w) pending); cbn [snd];
      [|now apply ledger_ok_reloaded].
    apply ledger_ok_committed; [exact H|]. split.
    + cbn [users]. apply nonneg_credit_user; [exact Hu|].
      apply find_pos_Some in Ew. destruct Ew as (Hn & _).
      apply nth_error_In in Hn.
      eapply Forall_forall in Hw; [exact Hw | exact Hn].
    + now apply amounts_resolved.
Qed.

Lemma run_ledger_ok (ops : list Op) (st : State) :
  Forall table_package ops -> ledger_ok st -> ledger_ok (run ops st).
Proof.
  revert st. induction ops as [|op ops IH]; intros st Ht H; [exact H|].
  inversion Ht; subst.
  cbn [run fold_left]. apply IH; [assumption|]. now apply apply_op_ledger_ok.
Qed.

Lemma ledger_ok_initial : ledger_ok initial_state.
Proof. repeat split; constructor. Qed.

(** X27. As long as no purchase is confirmed under the name of an inherited
    property, every balance is a non-negative integer: after any such
    sequence of ledger operations (registration, purchase confirmation,
    pending purchases, withdrawal requests of both kinds, approval and
    rejection) on the empty store, every user record of db.json and of
    [db.data] and every user object that a reference denotes has a balance
    that is a non-negative integer. *)
Theorem balance_never_negative (ops : list Op) :
  Forall table_package ops ->
  let st := run ops initial_state in
  (forall u, In u (users (file st)) -> exists n, u_balance u = num n /\ 0 <= n) /\
  (forall u, In u (users (data st)) -> exists n, u_balance u = num n /\ 0 <= n) /\
  (forall r u, lookup_ref st r = Some u ->
               exists n, u_balance u = num n /\ 0 <= n).
Proof.
  intros Ht st.
  assert (H : ledger_ok st) by (apply run_ledger_ok; [exact Ht|apply ledger_ok_initial]).
  split; [|split].
  - intros u Hu. destruct H as ((Hf & _) & _ & _).
    eapply Forall_forall in Hf; [exact Hf | exact Hu].
  - intros u Hu. destruct H as (_ & (Hd & _) & _).
    eapply Forall_forall in Hd; [exact Hd | exact Hu].
  - intros r u Hr. eapply lookup_ref_nonneg; [exact H | exact Hr].
Qed.

(** After the example run the balance of user 8 is a non-negative
    integer. *)
Lemma balance_never_negative_witness :
  exists n, u_balance example_buyer = num n /\ 0 <= n.
Proof.
  refine (proj1 (balance_never_negative example_run _) example_buyer _).
  - repeat constructor. cbn. intuition discriminate.
  - vm_compute. right. left. reflexivity.
Defined.

(** C1 on the code.  [confirmPurchase] takes the name of a property that
    [PACKAGES] inherits for a package.  After the example run user 7 has the
    balance 500; confirming "toString" for user 8, whom user 7 referred,
    answers ok, stores "toString" as the package of user 8 and adds the
    missing commission to the balance of user 7: in [db.data] that balance
    is NaN, in db.json it is null.  Neither is a non-negative integer, and
    the 500 are gone: the commission of a later "Basic" purchase brings the
    balance to 200. *)
Theorem inherited_package_breaks_balance :
  let st := run example_run initial_state in
  let out := confirmPurchase 8 "toString" "2024-01-08T00:00:00.000Z" st in
  let later :=
    snd (confirmPurchase 8 "Basic" "2024-01-09T00:00:00.000Z" (snd out)) in
  map u_id (users (file st)) = [7; 8] /\
  map u_balance (users (file st)) = [num 500; num 0] /\
  (exists user, fst out = Some (Ok user)) /\
  map u_package (users (file (snd out))) = [None; Some "toString"] /\
  map u_balance (users (data (snd out))) = [NaN; num 0] /\
  map u_balance (users (file (snd out))) = [null; num 0] /\
  map u_balance (users (file later)) = [num 200; num 0].
Proof.
  cbv zeta. repeat split; try (vm_compute; reflexivity).
  eexists. vm_compute. reflexivity.
Qed.

(** ** Approval and rejection *)

Lemma credit_user_split (id : Z) (amount : Num) (us1 us2 : list User)
    (u : User) :
  u_id u = id -> Forall (fun x => u_id x <> id) us1 ->
  credit_user id amount (us1 ++ u :: us2) =
  us1 ++ set_balance (plus (or_zero (u_balance u)) amount) u :: us2.
Proof.
  intros Hu H1. unfold credit_user.
  rewrite (find_pos_split _ us1 us2 u).
  - now rewrite update_nth_split.
  - eapply Forall_impl; [|exact H1]. intros x Hx. cbn. now apply Z.eqb_neq.
  - now apply Z.eqb_eq.
Qed.

Lemma credit_user_absent (id : Z) (amount : Num) (us : list User) :
  Forall (fun x => u_id x <> id) us -> credit_user id amount us = us.
Proof.
  intros H. unfold credit_user.
  destruct (find_pos _ us) as [[j u]|] eqn:E; [|reflexivity].
  apply find_pos_Some in E. destruct E as (Hn & Hp & _).
  apply nth_error_In in Hn. eapply Forall_forall in H; [|exact Hn].
  apply Z.eqb_eq in Hp. contradiction.
Qed.

(** C2. Rejecting the pending request [w] that [withdrawId] finds, for the
    amount [a], brings the balance [b] of the user with id [w.userId] (the
    first one in [users]) to [b + a] and changes nothing else of that user
    and no other user; rejecting it again answers "Not pending" and adds
    nothing more.  Approving [w] leaves every user record and every user
    object as it was. *)
Theorem rejection_refunds_once (st : State)
    (withdrawId reason now reason' now' note : string)
    (i : nat) (w : Withdraw) :
  find_pos (has_withdraw_id withdrawId) (withdraws (file st)) = Some (i, w) ->
  w_status w = pending ->
  let st1 := snd (rejectWithdrawRequest withdrawId reason now st) in
  let again := rejectWithdrawRequest withdrawId reason' now' st1 in
  let st_a := snd (approveWithdrawRequest withdrawId note now st) in
  (forall us1 u us2 b a,
     users (file st) = us1 ++ u :: us2 ->
     u_id u = w_userId w ->
     Forall (fun x => u_id x <> w_userId w) us1 ->
     u_balance u = num b ->
     w_amount w = num a ->
     users (file st1) =
       us1 ++
       {| u_id := u_id u; u_name := u_name u;
          u_referralCode := u_referralCode u; u_referredBy := u_referredBy u;
          u_balance := num (b + a);
          u_package := u_package u; u_createdAt := u_createdAt u;
          u_packageConfirmedAt := u_packageConfirmedAt u |} :: us2) /\
  (Forall (fun x => u_id x <> w_userId w) (users (file st)) ->
   users (file st1) = users (file st)) /\
  fst again = Some (Err "Not pending") /\
  users (file (snd again)) = users (file st1) /\
  users (file st_a) = users (file st) /\
  users (data st_a) = users (file st) /\
  (forall r u, lookup_ref st r = Some u -> lookup_ref st_a r = Some u).
Proof.
  intros Hf Hs st1 again st_a.
  assert (Ep : Status_eqb (w_status w) pending = true)
    by now apply Status_eqb_pending.
  assert (E1 : file st1 =
      {| users := credit_user (w_userId w) (w_amount w) (users (file st));
         pendingPurchases := pendingPurchases (file st);
         withdraws :=
           update_nth i (resolve rejected now reason) (withdraws (file st)) |}).
  { unfold st1. now rewrite reject_file, Hf, Ep. }
  assert (Ea : again = (Some (Err "Not pending"), reloaded st1)).
  { unfold again. rewrite reject_run, E1. cbn [withdraws].
    rewrite find_pos_update_nth by reflexivity.
    rewrite Hf, Nat.eqb_refl. reflexivity. }
  assert (Eap : st_a =
    committed
      {| users := users (file st);
         pendingPurchases := pendingPurchases (file st);
         withdraws :=
           update_nth i (resolve approved now note) (withdraws (file st)) |}
      st).
  { unfold st_a. now rewrite approve_run, Hf, Ep. }
  split; [|split; [|split; [|split; [|split; [|split]]]]].
  - intros us1 u us2 b a Hus Hu H1 Hb Ha. rewrite E1. cbn [users].
    rewrite Hus, (credit_user_split _ _ _ _ _ Hu H1).
    unfold set_balance. now rewrite Hb, Ha.
  - intros Hnone. rewrite E1. cbn [users].
    now apply credit_user_absent.
  - now rewrite Ea.
  - now rewrite Ea.
  - unfold st_a. now rewrite approve_file, Hf, Ep.
  - now rewrite Eap.
  - intros r u Hr. rewrite Eap.
    apply (lookup_ref_reloaded st r u) in Hr. exact (proj1 Hr).
Qed.

(** On the example store: rejecting the pending request for 200 of the user
    with balance 300 leaves the balance 500. *)
Lemma rejection_refunds_once_witness :
  map u_balance
    (users (file (snd (rejectWithdrawRequest "w1234567" "no funds"
                         "2024-01-03T00:00:00.000Z" (example_state pending))))) =
  [num 500].
Proof.
  destruct (rejection_refunds_once (example_state pending) "w1234567"
              "no funds" "2024-01-03T00:00:00.000Z" "again"
              "2024-01-04T00:00:00.000Z" EmptyString 0%nat (example_request pending)
              eq_refl eq_refl) as (H & _).
  now rewrite (H [] example_user [] 300 200 eq_refl eq_refl (Forall_nil _)
                 eq_refl eq_refl).
Defined.

(** A request that is no longer pending is never changed again, whatever
    operation runs. *)
Lemma resolved_request_kept (op : Op) (st : State) (k : nat) (w : Withdraw) :
  nth_error (withdraws (file st)) k = Some w ->
  w_status w <> pending ->
  nth_error (withdraws (file (apply_op op st))) k = Some w.
Proof.
  intros Hk Hs. destruct op; cbn [apply_op].
  - rewrite register_file.
    destruct (find_pos _ _) as [[i u]|]; exact Hk.
  - rewrite confirmPurchase_file.
    destruct (find_pos _ _) as [[i u]|]; [|exact Hk].
    destruct (PACKAGES packageType); exact Hk.
  - rewrite addPendingPurchase_file.
    destruct (find_pos _ _) as [[i u]|]; [|exact Hk].
    destruct (PACKAGES packageType); exact Hk.
  - rewrite createWithdrawRequestDynamic_any.
    destruct ((amount =? 0) || (amount <=? 0)); [exact Hk|].
    destruct (lookup_ref (reloaded st) user) as [u|]; [|exact Hk].
    destruct (greater amount (u_balance u)); [exact Hk|].
    destruct (negb (Z.rem amount 100 =? 0)); [exact Hk|].
    cbn [snd]. rewrite withdraws_file_saved.
    now apply nth_error_snoc.
  - rewrite createWithdrawRequest_any.
    destruct (lookup_ref (reloaded st) user) as [u|]; [|exact Hk].
    cbn [snd]. rewrite withdraws_file_saved.
    now apply nth_error_snoc.
  - rewrite approve_file.
    destruct (find_pos _ _) as [[i x]|] eqn:Ex; [|exact Hk].
    destruct (Status_eqb (w_status x) pending) eqn:Ep; [|exact Hk].
    cbn. rewrite nth_error_update_nth.
    destruct (Nat.eqb i k) eqn:Eik; [|exact Hk].
    apply Nat.eqb_eq in Eik. subst k.
    apply find_pos_Some in Ex. destruct Ex as (Hn & _).
    rewrite Hn in Hk. inversion Hk; subst x.
    apply Status_eqb_pending in Ep. contradiction.
  - rewrite reject_file.
    destruct (find_pos _ _) as [[i x]|] eqn:Ex; [|exact Hk].
    destruct (Status_eqb (w_status x) pending) eqn:Ep; [|exact Hk].
    cbn. rewrite nth_error_update_nth.
    destruct (Nat.eqb i k) eqn:Eik; [|exact Hk].
    apply Nat.eqb_eq in Eik. subst k.
    apply find_pos_Some in Ex. destruct Ex as (Hn & _).
    rewrite Hn in Hk. inversion Hk; subst x.
    apply Status_eqb_pending in Ep. contradiction.
Qed.

(** C3. When the request that [withdrawId] finds is not pending,
    [approveWithdrawRequest] and [rejectWithdrawRequest] both answer
    "Not pending" and leave the store as it was; and a request that is not
    pending stays exactly as it is under every operation, so its status
    leaves "pending" at most once. *)
Theorem resolved_request_is_final (st : State) (withdrawId text now : string)
    (i : nat) (w : Withdraw) :
  find_pos (has_withdraw_id withdrawId) (withdraws (file st)) = Some (i, w) ->
  w_status w <> pending ->
  (fst (approveWithdrawRequest withdrawId text now st) = Some (Err "Not pending") /\
   store_unchanged st (snd (approveWithdrawRequest withdrawId text now st))) /\
  (fst (rejectWithdrawRequest withdrawId text now st) = Some (Err "Not pending") /\
   store_unchanged st (snd (rejectWithdrawRequest withdrawId text now st))) /\
  (forall (op : Op) (k : nat) (x : Withdraw),
     nth_error (withdraws (file st)) k = Some x ->
     w_status x <> pending ->
     nth_error (withdraws (file (apply_op op st))) k = Some x).
Proof.
  intros Hf Hs.
  assert (Ep : Status_eqb (w_status w) pending = false).
  { destruct (Status_eqb (w_status w) pending) eqn:E; [|reflexivity].
    apply Status_eqb_pending in E. contradiction. }
  rewrite approve_run, reject_run, Hf, Ep. cbn [fst snd].
  repeat split; try apply store_unchanged_reloaded.
  intros op k x Hk Hx. now apply resolved_request_kept.
Qed.

(** On the example store with the request already approved. *)
Lemma resolved_request_is_final_witness :
  fst (approveWithdrawRequest "w1234567" EmptyString "2024-01-03T00:00:00.000Z"
         (example_state approved)) = Some (Err "Not pending") /\
  fst (rejectWithdrawRequest "w1234567" EmptyString "2024-01-03T00:00:00.000Z"
         (example_state approved)) = Some (Err "Not pending").
Proof.
  destruct (resolved_request_is_final (example_state approved) "w1234567" EmptyString
              "2024-01-03T00:00:00.000Z" 0%nat (example_request approved)
              eq_refl ltac:(discriminate)) as ((Ha & _) & (Hr & _) & _).
  split; [exact Ha | exact Hr].
Defined.

(** ** Withdrawal requests *)

(** C4, as the code has it.  For a user object [u]:
    [createWithdrawRequestDynamic] answers "Invalid amount" when
    [amount <= 0]; otherwise "Insufficient balance" when
    [amount > u.balance]; otherwise "Amount must end with 00" when
    [amount % 100 != 0].  ([amount > u.balance] holds for every positive
    amount when the balance is null and for none when it is NaN.)  Whenever
    it answers an error, db.json, the withdrawals and every user object (so
    the balance of [u]) are as before. *)
Theorem createWithdrawRequestDynamic_failures (st : State) (user : Ref)
    (u : User) (amount : Z) (paymentMethod nano now : string) :
  lookup_ref st user = Some u ->
  let out := createWithdrawRequestDynamic user amount paymentMethod nano now st in
  (amount <= 0 -> fst out = Some (Err "Invalid amount")) /\
  (forall b, u_balance u = num b -> 0 < amount -> b < amount ->
   fst out = Some (Err "Insufficient balance")) /\
  (forall b, u_balance u = num b -> 0 < amount -> amount <= b ->
   Z.rem amount 100 <> 0 ->
   fst out = Some (Err "Amount must end with 00")) /\
  (u_balance u = null -> 0 < amount ->
   fst out = Some (Err "Insufficient balance")) /\
  (u_balance u = NaN -> 0 < amount -> Z.rem amount 100 <> 0 ->
   fst out = Some (Err "Amount must end with 00")) /\
  (forall error, fst out = Some (Err error) -> store_unchanged st (snd out)).
Proof.
  intros H out. unfold out.
  rewrite (createWithdrawRequestDynamic_run _ _ _ _ _ _ _ H).
  assert (Pos : 0 < amount -> ((amount =? 0) || (amount <=? 0)) = false).
  { intros Ha. apply orb_false_iff.
    split; [apply Z.eqb_neq | apply Z.leb_gt]; lia. }
  assert (Odd : Z.rem amount 100 <> 0 -> negb (Z.rem amount 100 =? 0) = true).
  { intros Hr. apply negb_true_iff. now apply Z.eqb_neq. }
  split; [|split; [|split; [|split; [|split]]]].
  - intros Ha.
    assert (E : ((amount =? 0) || (amount <=? 0)) = true).
    { apply orb_true_iff. right. now apply Z.leb_le. }
    now rewrite E.
  - intros b Hb Ha Hlt. rewrite (Pos Ha), Hb. cbn [greater].
    assert (E' : (amount >? b) = true)
      by (rewrite Z.gtb_ltb; now apply Z.ltb_lt).
    now rewrite E'.
  - intros b Hb Ha Hle Hr. rewrite (Pos Ha), Hb. cbn [greater].
    assert (E' : (amount >? b) = false)
      by (rewrite Z.gtb_ltb; now apply Z.ltb_ge).
    now rewrite E', (Odd Hr).
  - intros Hb Ha. rewrite (Pos Ha), Hb. cbn [greater].
    assert (E' : (amount >? 0) = true)
      by (rewrite Z.gtb_ltb; now apply Z.ltb_lt).
    now rewrite E'.
  - intros Hb Ha Hr. rewrite (Pos Ha), Hb. cbn [greater].
    now rewrite (Odd Hr).
  - intros error.
    destruct ((amount =? 0) || (amount <=? 0));
      [intros _; apply store_unchanged_reloaded|].
    destruct (greater amount (u_balance u));
      [intros _; apply store_unchanged_reloaded|].
    destruct (negb (Z.rem amount 100 =? 0));
      [intros _; apply store_unchanged_reloaded|].
    discriminate.
Qed.

(** On the example store: 150 of a balance of 300. *)
Lemma createWithdrawRequestDynamic_failures_witness :
  fst (createWithdrawRequestDynamic (0%nat, 0%nat) 150 "CBE" "w7654321"
         "2024-01-03T00:00:00.000Z" (example_state pending)) =
  Some (Err "Amount must end with 00").
Proof.
  destruct (createWithdrawRequestDynamic_failures (example_state pending)
              (0%nat, 0%nat) example_user 150 "CBE" "w7654321"
              "2024-01-03T00:00:00.000Z" eq_refl) as (_ & _ & H & _).
  apply (H 300); [reflexivity | lia | lia | discriminate].
Defined.

(** C4 as the specification states it fails: 350 is not a multiple of 100 and
    exceeds the balance 300, and the answer is "Insufficient balance"; 150
    is not a multiple of 100 and within the balance, and the answer is
    "Amount must end with 00".  Neither is "Invalid amount". *)
Lemma createWithdrawRequestDynamic_not_invalid_amount :
  let st := example_state pending in
  let over := fst (createWithdrawRequestDynamic (0%nat, 0%nat) 350 "CBE"
                     "w7654321" "2024-01-03T00:00:00.000Z" st) in
  let odd := fst (createWithdrawRequestDynamic (0%nat, 0%nat) 150 "CBE"
                    "w7654321" "2024-01-03T00:00:00.000Z" st) in
  lookup_ref st (0%nat, 0%nat) = Some example_user /\
  u_balance example_user = num 300 /\
  Z.rem 350 100 <> 0 /\
  over = Some (Err "Insufficient balance") /\
  over <> Some (Err "Invalid amount") /\
  Z.rem 150 100 <> 0 /\
  odd = Some (Err "Amount must end with 00") /\
  odd <> Some (Err "Invalid amount").
Proof. cbv zeta. repeat split; try discriminate; reflexivity. Qed.

(** The object behind a reference after the operation wrote to it. *)
Lemma lookup_ref_requested (w : Withdraw) (user : Ref) (f : User -> User)
    (st : State) (u : User) :
  lookup_ref st user = Some u ->
  lookup_ref (requested w user f st) user = Some (f u).
Proof.
  intros H. apply lookup_ref_reloaded in H. destruct H as [H Hold].
  apply (lookup_ref_assigned user f) in H.
  unfold assigned in H. rewrite Hold in H. exact H.
Qed.

(** C10 on the code.  Given a user object [u], [createWithdrawRequest]
    always returns a request: it is pending, for the whole balance of [u]
    (also when that is 0) and without a payment method, and it is appended
    to the withdrawals.  The balance is set to 0 in the object passed in;
    that object belongs to the snapshot that [db.read()] has replaced, so
    the users of db.json and of [db.data] are as before: the stored balance
    is not reset. *)
Theorem createWithdrawRequest_keeps_stored_balance (st : State) (user : Ref)
    (u : User) (nano now : string) :
  lookup_ref st user = Some u ->
  let out := createWithdrawRequest user nano now st in
  let request :=
    {| w_id := nano; w_userId := u_id u; w_amount := u_balance u;
       w_paymentMethod := None; w_status := pending;
       w_note := None; w_createdAt := now; w_updatedAt := now |} in
  fst out = Some request /\
  withdraws (data (snd out)) = withdraws (file st) ++ [request] /\
  (u_balance u <> NaN ->
   withdraws (file (snd out)) = withdraws (file st) ++ [request]) /\
  users (file (snd out)) = users (file st) /\
  users (data (snd out)) = users (file st) /\
  lookup_ref (snd out) user =
    Some {| u_id := u_id u; u_name := u_name u;
            u_referralCode := u_referralCode u; u_referredBy := u_referredBy u;
            u_balance := num 0;
            u_package := u_package u; u_createdAt := u_createdAt u;
            u_packageConfirmedAt := u_packageConfirmedAt u |}.
Proof.
  intros H out request. unfold out, request.
  rewrite (createWithdrawRequest_run _ _ _ _ _ H). cbn [fst snd].
  rewrite file_requested, data_requested. cbn [users withdraws].
  split; [reflexivity|]. split; [reflexivity|].
  split; [|split; [reflexivity|split; [reflexivity|]]].
  - intros Hn. now rewrite stored_request_same.
  - now rewrite (lookup_ref_requested _ _ _ _ _ H).
Qed.

(** On the example store: the request is for the balance 300, and 300 is
    still the balance db.json holds. *)
Lemma createWithdrawRequest_keeps_stored_balance_witness :
  let out := createWithdrawRequest (0%nat, 0%nat) "w7654321"
               "2024-01-03T00:00:00.000Z" (example_state pending) in
  option_map w_amount (fst out) = Some (num 300) /\
  map u_balance (users (file (snd out))) = [num 300].
Proof.
  destruct (createWithdrawRequest_keeps_stored_balance (example_state pending)
              (0%nat, 0%nat) example_user "w7654321"
              "2024-01-03T00:00:00.000Z" eq_refl) as (H1 & _ & _ & H2 & _).
  cbv zeta. rewrite H1, H2. split; reflexivity.
Defined.

(** C5 on the code.  For the registered user 9 with balance 500, the messages
    "/withdraw", "200", "telebirr" are answered as expected and create one
    pending request for 200 by Telebirr, and the session ends; but the 200
    are taken from the user object of the snapshot loaded before the
    request was created (balance 300), while the user record of db.json and
    of [db.data] keeps the balance 500.  Rejecting the request afterwards
    brings the stored balance to 700.  "/withdraw", "cancel" leaves db.json
    as it was. *)
Theorem withdraw_dialogue_keeps_stored_balance :
  let out := withdraw_dialogue 9 "200" "telebirr" "w7654321"
               "2024-02-02T00:00:00.000Z" example_wallet in
  let rejected_after :=
    snd (rejectWithdrawRequest "w7654321" "no funds"
           "2024-02-03T00:00:00.000Z" (snd out)) in
  let cancelled := cancel_dialogue 9 "w7654321" "2024-02-02T00:00:00.000Z"
                     example_wallet in
  fst out = Some (EnterAmount, Some ChooseMethod,
                  Some (Submitted example_withdrawal)) /\
  withdraws (file (snd out)) = [example_withdrawal] /\
  userSessions (snd out) = [] /\
  map u_balance (users (file (snd out))) = [num 500] /\
  map u_balance (users (data (snd out))) = [num 500] /\
  option_map u_balance (lookup_ref (snd out) (1%nat, 0%nat)) = Some (num 300) /\
  map u_balance (users (file rejected_after)) = [num 700] /\
  fst cancelled = Some (EnterAmount, Some Canceled) /\
  file (snd cancelled) = file example_wallet /\
  userSessions (snd cancelled) = [].
Proof. cbv zeta. repeat split; vm_compute; reflexivity. Qed.

(** ** Purchases *)

Lemma map_pay_commission_same {B : Type} (g : User -> B)
    (referredBy : option string) (property : Property) (us : list User) :
  (forall b x, g (set_balance b x) = g x) ->
  map g (pay_commission referredBy property us) = map g us.
Proof.
  intros H. unfold pay_commission.
  destruct (truthy referredBy); [|reflexivity].
  destruct (find_pos _ us) as [[j r]|]; [|reflexivity].
  apply map_update_nth_same. intros x. apply H.
Qed.

(** C6. Confirming "VIP" for an existing user [u] succeeds.  If some user has
    the referral code [u.referredBy], the first such user gets exactly 500
    more (500, where db.json holds no number) and every other balance is as
    before; if [u.referredBy] is null or no user has that code, every
    balance is as before.  The users keep their places, ids and referral
    codes. *)
Theorem confirmPurchase_VIP_commission (st : State) (userId : Z) (now : string)
    (i : nat) (u : User) :
  find_pos (has_id userId) (users (file st)) = Some (i, u) ->
  u_referredBy u <> Some EmptyString ->
  let out := confirmPurchase userId "VIP" now st in
  let before := users (file st) in
  let after := users (file (snd out)) in
  (exists user, fst out = Some (Ok user)) /\
  map u_id after = map u_id before /\
  map u_referralCode after = map u_referralCode before /\
  (forall code j r,
     u_referredBy u = Some code ->
     find_pos (has_referralCode code) before = Some (j, r) ->
     map u_balance after =
     update_nth j
       (fun b => match b with
                 | num n => num (n + 500)
                 | NaN | null => num 500
                 end)
       (map u_balance before)) /\
  (u_referredBy u = None \/
   (exists code, u_referredBy u = Some code /\
                 find_pos (has_referralCode code) before = None) ->
   map u_balance after = map u_balance before).
Proof.
  intros Hf Hne out before after. unfold after, out, before.
  rewrite confirmPurchase_file, confirmPurchase_run, Hf.
  change (PACKAGES "VIP")
    with (Some (package {| price := 3500; commission := 500 |})).
  cbn [fst snd users]. rewrite stored_pay_commission.
  split; [eexists; reflexivity|].
  split; [rewrite map_pay_commission_same by reflexivity;
          now apply map_update_nth_same|].
  split; [rewrite map_pay_commission_same by reflexivity;
          now apply map_update_nth_same|].
  unfold pay_commission. rewrite (truthy_nonempty _ Hne).
  split.
  - intros code j r Hc Hr. rewrite Hc.
    rewrite find_pos_update_nth by reflexivity. rewrite Hr.
    rewrite (map_update_nth u_balance _
               (fun b => match b with
                         | num n => num (n + 500)
                         | NaN | null => num 500
                         end))
      by (intros x; cbn; destruct (u_balance x); reflexivity).
    f_equal. now apply map_update_nth_same.
  - intros [Hn | (code & Hc & Hr)].
    + rewrite Hn. now apply map_update_nth_same.
    + rewrite Hc. rewrite find_pos_update_nth by reflexivity. rewrite Hr.
      now apply map_update_nth_same.
Qed.

(** On the example shop: user 8 was referred by user 7, whose balance goes
    from 300 to 800. *)
Lemma confirmPurchase_VIP_commission_witness :
  map u_balance
    (users (file (snd (confirmPurchase 8 "VIP" "2024-01-07T00:00:00.000Z"
                         example_shop)))) = [num 800; num 0].
Proof.
  destruct (confirmPurchase_VIP_commission example_shop 8
              "2024-01-07T00:00:00.000Z" 1%nat example_referred eq_refl
              ltac:(discriminate)) as (_ & _ & _ & H & _).
  exact (H "abc123" 0%nat example_user eq_refl eq_refl).
Defined.

(** C7. When [addPendingPurchase(userId, packageType)] succeeds and
    [confirmPurchase(userId, packageType)] follows, the pending purchases of
    db.json are exactly the earlier ones of another user or another package,
    in their order: none is left for this user and package, and each of the
    others is still there as it was. *)
Theorem confirmPurchase_removes_pending (st : State) (userId : Z)
    (packageType note nano now now' : string) (entry : PendingPurchase) :
  fst (addPendingPurchase userId packageType note nano now st) =
    Some (Ok entry) ->
  let st1 := snd (addPendingPurchase userId packageType note nano now st) in
  let st2 := snd (confirmPurchase userId packageType now' st1) in
  In entry (pendingPurchases (file st1)) /\
  p_userId entry = userId /\ p_package entry = packageType /\
  pendingPurchases (file st2) =
    filter (other_purchase userId packageType) (pendingPurchases (file st)) /\
  (forall p, In p (pendingPurchases (file st2)) ->
             ~ (p_userId p = userId /\ p_package p = packageType)) /\
  (forall p, In p (pendingPurchases (file st)) ->
             p_userId p <> userId \/ p_package p <> packageType ->
             In p (pendingPurchases (file st2))).
Proof.
  intros Hadd st1 st2.
  assert (E1 : file st1 =
    {| users := users (file st);
       pendingPurchases :=
         pendingPurchases (file st) ++
         [{| p_id := nano; p_userId := userId; p_package := packageType;
             p_note := note; p_createdAt := now |}];
       withdraws := withdraws (file st) |} /\
    entry = {| p_id := nano; p_userId := userId; p_package := packageType;
               p_note := note; p_createdAt := now |} /\
    (exists i u, find_pos (has_id userId) (users (file st)) = Some (i, u)) /\
    (exists property, PACKAGES packageType = Some property)).
  { unfold st1. rewrite addPendingPurchase_file.
    rewrite addPendingPurchase_run in Hadd.
    destruct (find_pos (has_id userId) (users (file st))) as [[i u]|];
      [|discriminate].
    destruct (PACKAGES packageType) as [property|]; [|discriminate].
    cbv zeta in Hadd. cbn [fst] in Hadd. inversion Hadd.
    split; [reflexivity|]. split; [reflexivity|].
    split; [now exists i, u | now exists property]. }
  destruct E1 as (E1 & -> & (i & u & Eu) & (property & Ep)).
  assert (E2 : pendingPurchases (file st2) =
               filter (other_purchase userId packageType)
                 (pendingPurchases (file st))).
  { unfold st2. rewrite confirmPurchase_file, E1.
    cbn [users pendingPurchases]. rewrite Eu, Ep. cbn [pendingPurchases].
    rewrite filter_app. cbn [filter]. unfold other_purchase at 2.
    cbn [p_userId p_package]. rewrite Z.eqb_refl, String.eqb_refl.
    cbn. apply app_nil_r. }
  rewrite E2, E1. cbn [pendingPurchases p_userId p_package].
  split; [apply in_or_app; right; now left|].
  split; [reflexivity|]. split; [reflexivity|]. split; [reflexivity|].
  split.
  - intros p Hp [H1 H2]. apply filter_In in Hp. destruct Hp as [_ Hp].
    unfold other_purchase in Hp. apply negb_true_iff in Hp.
    apply andb_false_iff in Hp. destruct Hp as [Hp | Hp].
    + apply Z.eqb_neq in Hp. contradiction.
    + apply String.eqb_neq in Hp. contradiction.
  - intros p Hp Hother. apply filter_In. split; [exact Hp|].
    unfold other_purchase. apply negb_true_iff. apply andb_false_iff.
    destruct Hother as [H | H]; [left; now apply Z.eqb_neq
                                | right; now apply String.eqb_neq].
Qed.

(** On the example shop: the pending "Basic" purchase of user 8 stays, the
    "VIP" one is gone. *)
Lemma confirmPurchase_removes_pending_witness :
  pendingPurchases
    (file (snd (confirmPurchase 8 "VIP" "2024-01-08T00:00:00.000Z"
             (snd (addPendingPurchase 8 "VIP" "telebirr receipt" "p7654321"
                     "2024-01-07T00:00:00.000Z" example_shop))))) =
  [example_purchase].
Proof.
  destruct (confirmPurchase_removes_pending example_shop 8 "VIP"
              "telebirr receipt" "p7654321" "2024-01-07T00:00:00.000Z"
              "2024-01-08T00:00:00.000Z" _ eq_refl) as (_ & _ & _ & H & _).
  exact H.
Defined.

(** ** Registration *)

(** C8, as the code has it.  When no user has the sender's id,
    [registerUserIfNotExists] appends one user to db.json and returns it; its
    [referredBy] is the referral code supplied, whether or not any user has
    that code, and null when no code or the empty code is supplied. *)
Theorem registerUserIfNotExists_referredBy (st : State) (from : From)
    (referralCode : option string) (nano now : string) :
  find_pos (has_id (from_id from)) (users (file st)) = None ->
  let out := registerUserIfNotExists from referralCode nano now st in
  exists user u,
    fst out = Some user /\
    lookup_ref (snd out) user = Some u /\
    users (file (snd out)) = users (file st) ++ [u] /\
    u_id u = from_id from /\
    u_referralCode u = nano /\
    u_balance u = num 0 /\
    (forall code, referralCode = Some code -> code <> EmptyString ->
                  u_referredBy u = Some code) /\
    (referralCode = None \/ referralCode = Some EmptyString -> u_referredBy u = None).
Proof.
  intros H out. unfold out.
  rewrite register_file, registerUserIfNotExists_run, H.
  eexists. exists (new_user from referralCode nano now). cbn [fst snd].
  split; [reflexivity|]. split.
  { rewrite lookup_ref_in_committed. cbn [users].
    rewrite nth_error_app2, Nat.sub_diag by lia. reflexivity. }
  repeat split.
  - intros code -> Hc. cbn. destruct code; [contradiction | reflexivity].
  - intros [-> | ->]; reflexivity.
Qed.

(** On the example store, where no user has the referral code "zzzzzz". *)
Lemma registerUserIfNotExists_referredBy_witness :
  exists u,
    users (file (snd (registerUserIfNotExists example_from (Some "zzzzzz")
                        "k3J9xQ" "2024-01-05T00:00:00.000Z"
                        (example_state pending)))) = [example_user; u] /\
    u_referredBy u = Some "zzzzzz".
Proof.
  destruct (registerUserIfNotExists_referredBy (example_state pending)
              example_from (Some "zzzzzz") "k3J9xQ" "2024-01-05T00:00:00.000Z"
              eq_refl) as (user & u & _ & _ & Hu & _ & _ & _ & Hc & _).
  exists u. split; [exact Hu|]. apply Hc; [reflexivity | discriminate].
Defined.

(** C8 as the specification states it fails: on the empty store no user has
    the referral code "zzzzzz", and the user registered with it is stored
    with [referredBy = "zzzzzz"], not null. *)
Lemma unresolved_referral_code_is_stored :
  let out := registerUserIfNotExists example_from (Some "zzzzzz") "k3J9xQ"
               "2024-01-05T00:00:00.000Z" initial_state in
  find_pos (has_referralCode "zzzzzz") (users (file initial_state)) = None /\
  map u_referredBy (users (file (snd out))) = [Some "zzzzzz"] /\
  map u_referredBy (users (file (snd out))) <> [None].
Proof. cbv zeta. repeat split; try discriminate; reflexivity. Qed.

(** C9. Registering the same id twice, whatever the names, referral codes,
    generated codes and times of the two calls: both calls return a user,
    the two returned objects hold the same record, the second call leaves
    db.json (so the users, their referral codes and balances) as the first
    call left it, and the object the first call returned is unchanged. *)
Theorem registerUserIfNotExists_idempotent (st : State) (id : Z)
    (first_name1 username1 first_name2 username2 : option string)
    (referralCode1 referralCode2 : option string)
    (nano1 now1 nano2 now2 : string) :
  let from1 := {| from_id := id; first_name := first_name1;
                  username := username1 |} in
  let from2 := {| from_id := id; first_name := first_name2;
                  username := username2 |} in
  let out1 := registerUserIfNotExists from1 referralCode1 nano1 now1 st in
  let out2 := registerUserIfNotExists from2 referralCode2 nano2 now2 (snd out1) in
  exists user1 user2 u,
    fst out1 = Some user1 /\
    fst out2 = Some user2 /\
    lookup_ref (snd out1) user1 = Some u /\
    lookup_ref (snd out2) user2 = Some u /\
    lookup_ref (snd out2) user1 = Some u /\
    In u (users (file (snd out1))) /\
    u_id u = id /\
    file (snd out2) = file (snd out1).
Proof.
  intros from1 from2 out1 out2. unfold out2, out1.
  rewrite (registerUserIfNotExists_run from1).
  cbn [from_id from1].
  destruct (find_pos (has_id id) (users (file st))) as [[i u]|] eqn:E.
  - cbn [snd fst]. rewrite (registerUserIfNotExists_run from2).
    cbn [from_id from2]. rewrite file_reloaded, E. cbn [fst snd].
    pose proof (find_pos_Some _ _ _ _ E) as (Hn & Hp & _).
    assert (H1 : lookup_ref (reloaded st) (length (loaded (reloaded st)), i)
                 = Some u) by (rewrite lookup_ref_in_reloaded; exact Hn).
    do 2 eexists. exists u. repeat split; try reflexivity.
    + exact H1.
    + rewrite lookup_ref_in_reloaded. exact Hn.
    + apply (lookup_ref_reloaded _ _ _ H1).
    + apply nth_error_In in Hn. exact Hn.
    + now apply Z.eqb_eq.
  - cbn [snd fst]. rewrite (registerUserIfNotExists_run from2).
    cbn [from_id from2].
    set (u := new_user from1 referralCode1 nano1 now1).
    set (d := {| users := users (file st) ++ [u];
                 pendingPurchases := pendingPurchases (file st);
                 withdraws := withdraws (file st) |}).
    assert (Ef : file (committed d st) = d).
    { rewrite file_committed. apply to_json_same; cbn [d users withdraws].
      - apply Forall_app. split; [apply file_users_json|].
        constructor; [discriminate | constructor].
      - apply file_withdraws_json. }
    rewrite Ef. cbn [d users].
    rewrite (find_pos_app_None _ _ u E) by apply Z.eqb_refl.
    cbn [fst snd].
    assert (Hn : nth_error (users (file st) ++ [u]) (length (users (file st)))
                 = Some u)
      by (rewrite nth_error_app2, Nat.sub_diag by lia; reflexivity).
    assert (H1 : lookup_ref (committed d st)
                   (length (loaded (reloaded st)), length (users (file st)))
                 = Some u) by (rewrite lookup_ref_in_committed; exact Hn).
    do 2 eexists. exists u. repeat split; try reflexivity.
    + exact H1.
    + rewrite lookup_ref_in_reloaded, Ef. exact Hn.
    + apply (lookup_ref_reloaded _ _ _ H1).
    + cbn. apply in_or_app. right. now left.
    + exact Ef.
Qed.

(** * Further properties

    ** Ledger operations *)

Lemma find_pos_app_Some {A : Type} (p : A -> bool) (l l' : list A) r :
  find_pos p l = Some r -> find_pos p (l ++ l') = Some r.
Proof.
  revert r. induction l as [|a l IH]; intros r H; [discriminate|].
  cbn in *. destruct (p a); [exact H|].
  destruct (find_pos p l) as [[j y]|]; [|discriminate].
  now rewrite (IH _ eq_refl).
Qed.

Lemma update_nth_twice {A : Type} (f g : A -> A) (n : nat) (l : list A) :
  update_nth n g (update_nth n f l) = update_nth n (fun x => g (f x)) l.
Proof.
  revert n. induction l as [|a l IH]; intros [|n]; cbn; auto.
  now rewrite IH.
Qed.

Lemma update_nth_ext {A : Type} (f g : A -> A) (n : nat) (l : list A) :
  (forall x, f x = g x) -> update_nth n f l = update_nth n g l.
Proof.
  intros H. revert n. induction l as [|a l IH]; intros [|n]; cbn; auto.
  - now rewrite H.
  - now rewrite IH.
Qed.

Lemma greater_within (amount : Z) (balance : Num) :
  greater amount balance = false <-> within amount balance.
Proof.
  destruct balance as [b| |]; cbn.
  - rewrite Z.gtb_ltb. apply Z.ltb_ge.
  - split; auto.
  - rewrite Z.gtb_ltb. apply Z.ltb_ge.
Qed.

(** X1. For a user object [u], [createWithdrawRequestDynamic] answers ok
    exactly when [amount] is positive and a multiple of 100 and
    [amount > u.balance] does not hold.  The request it returns is pending,
    for [amount], by the payment method given and of user [u.id]; it is
    appended to the withdrawals of db.json; in the object, an integer
    balance [b] becomes [b - amount] (a balance that is NaN stays) and
    nothing else changes; and the pending purchases and the sessions
    stay. *)
Theorem createWithdrawRequestDynamic_success (st : State) (user : Ref)
    (u : User) (amount : Z) (paymentMethod nano now : string) :
  lookup_ref st user = Some u ->
  let out := createWithdrawRequestDynamic user amount paymentMethod nano now st in
  ((exists request, fst out = Some (Ok request)) <->
   0 < amount /\ within amount (u_balance u) /\ Z.rem amount 100 = 0) /\
  (forall request, fst out = Some (Ok request) ->
     request =
       {| w_id := nano; w_userId := u_id u; w_amount := num amount;
          w_paymentMethod := Some paymentMethod; w_status := pending;
          w_note := None; w_createdAt := now; w_updatedAt := now |} /\
     withdraws (file (snd out)) = withdraws (file st) ++ [request] /\
     (forall b, u_balance u = num b ->
        lookup_ref (snd out) user =
          Some {| u_id := u_id u; u_name := u_name u;
                  u_referralCode := u_referralCode u;
                  u_referredBy := u_referredBy u;
                  u_balance := num (b - amount);
                  u_package := u_package u; u_createdAt := u_createdAt u;
                  u_packageConfirmedAt := u_packageConfirmedAt u |}) /\
     (u_balance u = NaN -> lookup_ref (snd out) user = Some u) /\
     u_balance u <> null /\
     pendingPurchases (file (snd out)) = pendingPurchases (file st) /\
     userSessions (snd out) = userSessions st).
Proof.
  intros H out. unfold out.
  rewrite (createWithdrawRequestDynamic_run _ _ _ _ _ _ _ H).
  destruct ((amount =? 0) || (amount <=? 0)) eqn:E1.
  { split; [split|]; cbn [fst].
    - intros [r Hr]. discriminate.
    - intros (Ha & _). apply orb_true_iff in E1.
      destruct E1 as [E | E]; [apply Z.eqb_eq in E | apply Z.leb_le in E]; lia.
    - intros r Hr. discriminate. }
  apply orb_false_iff in E1. destruct E1 as [_ E1]. apply Z.leb_gt in E1.
  destruct (greater amount (u_balance u)) eqn:E2.
  { split; [split|]; cbn [fst].
    - intros [r Hr]. discriminate.
    - intros (_ & Hb & _). apply greater_within in Hb. congruence.
    - intros r Hr. discriminate. }
  pose proof (proj1 (greater_within _ _) E2) as Hw.
  destruct (Z.rem amount 100 =? 0) eqn:E3; cbn [negb].
  - apply Z.eqb_eq in E3. split; [split|]; cbn [fst snd].
    + intros _. auto.
    + intros _. eexists. reflexivity.
    + intros r Hr. inversion Hr; subst r. clear Hr.
      rewrite file_requested. cbn [withdraws pendingPurchases].
      pose proof (lookup_ref_requested
                    (dynamic_request u amount paymentMethod nano now) user
                    (fun x => set_balance (minus (u_balance x) amount) x)
                    st u H) as L.
      split; [reflexivity|]. split; [reflexivity|].
      split; [|split; [|split; [|split; reflexivity]]].
      * intros b Hb. rewrite L. unfold set_balance. now rewrite Hb.
      * intros Hb. rewrite L. unfold set_balance. rewrite Hb. cbn [minus].
        rewrite <- Hb. now destruct u.
      * intros Hb. rewrite Hb in Hw. cbn in Hw. lia.
  - apply Z.eqb_neq in E3. split; [split|]; cbn [fst].
    + intros [r Hr]. discriminate.
    + intros (_ & _ & Hr). contradiction.
    + intros r Hr. discriminate.
Qed.

(** On the example store: 200 of a balance of 300. *)
Lemma createWithdrawRequestDynamic_success_witness :
  exists request,
    fst (createWithdrawRequestDynamic (0%nat, 0%nat) 200 "CBE" "w7654321"
           "2024-01-03T00:00:00.000Z" (example_state pending)) =
    Some (Ok request).
Proof.
  destruct (createWithdrawRequestDynamic_success (example_state pending)
              (0%nat, 0%nat) example_user 200 "CBE" "w7654321"
              "2024-01-03T00:00:00.000Z" eq_refl) as ((_ & H) & _).
  apply H. cbn. repeat split; lia.
Defined.

(** X2. Neither withdrawal request touches a user record: for a user object
    looked up before the call, the users of db.json and of [db.data] after
    the call are the users db.json had, whether the request is created or
    refused.  The balance is changed in the object passed in, which belongs
    to the snapshot that [db.read()] has replaced. *)
Theorem withdrawal_requests_leave_stored_balances (st : State) (user : Ref)
    (u : User) (amount : Z) (paymentMethod nano now : string) :
  lookup_ref st user = Some u ->
  let dynamic :=
    snd (createWithdrawRequestDynamic user amount paymentMethod nano now st) in
  let full := snd (createWithdrawRequest user nano now st) in
  users (file dynamic) = users (file st) /\
  users (data dynamic) = users (file st) /\
  users (file full) = users (file st) /\
  users (data full) = users (file st) /\
  lookup_ref full user =
    Some {| u_id := u_id u; u_name := u_name u;
            u_referralCode := u_referralCode u; u_referredBy := u_referredBy u;
            u_balance := num 0;
            u_package := u_package u; u_createdAt := u_createdAt u;
            u_packageConfirmedAt := u_packageConfirmedAt u |}.
Proof.
  intros H dynamic full. unfold dynamic, full.
  rewrite (createWithdrawRequestDynamic_run _ _ _ _ _ _ _ H).
  rewrite (createWithdrawRequest_run _ _ _ _ _ H). cbn [snd].
  rewrite (lookup_ref_requested _ _ _ _ _ H).
  rewrite !file_requested. cbn [users].
  destruct ((amount =? 0) || (amount <=? 0)); [repeat split |].
  destruct (greater amount (u_balance u)); [repeat split |].
  destruct (negb (Z.rem amount 100 =? 0)); [repeat split|].
  cbn [snd]. rewrite file_requested. repeat split.
Qed.

(** On the example store: after a request for 200 the stored balance is
    still 300. *)
Lemma withdrawal_requests_leave_stored_balances_witness :
  users (file (snd (createWithdrawRequestDynamic (0%nat, 0%nat) 200 "CBE"
                      "w7654321" "2024-01-03T00:00:00.000Z"
                      (example_state pending)))) = [example_user].
Proof.
  exact (proj1 (withdrawal_requests_leave_stored_balances
           (example_state pending) (0%nat, 0%nat) example_user 200 "CBE"
           "w7654321" "2024-01-03T00:00:00.000Z" eq_refl)).
Defined.

Lemma assoc_In {A : Type} (k : string) (l : list (string * A)) :
  assoc k l <> None <-> In k (map fst l).
Proof.
  induction l as [|[k' v] l IH]; cbn; [split; [congruence | contradiction]|].
  destruct (String.eqb_spec k' k) as [-> | Hne].
  - split; [auto | discriminate].
  - rewrite IH. split; [auto | intros [H | H]; [contradiction | exact H]].
Qed.

(** [PACKAGES[packageType]] is truthy for the fifteen names and no other. *)
Lemma PACKAGES_names (packageType : string) :
  PACKAGES packageType <> None <-> In packageType property_names.
Proof.
  change property_names with (map fst PACKAGES_table ++ Object_prototype).
  rewrite in_app_iff, <- assoc_In. unfold PACKAGES.
  destruct (assoc packageType PACKAGES_table) as [pkg|].
  - split; [left | ]; discriminate.
  - destruct (existsb _ _) eqn:E.
    + split; [|discriminate]. intros _. right.
      apply existsb_exists in E. destruct E as (k & Hk & E).
      apply String.eqb_eq in E. now subst k.
    + split; [congruence|]. intros [H | H]; [congruence|].
      exfalso. assert (E' : existsb (String.eqb packageType) Object_prototype = true).
      { apply existsb_exists. exists packageType. split; [exact H|].
        apply String.eqb_refl. }
      congruence.
Qed.

(** X3. [confirmPurchase] answers ok exactly when a user has the id and
    [PACKAGES[packageType]] is truthy: for "Basic", "Premium" and "VIP" (as
    written, in this case) and also for the name of a property that
    [PACKAGES] inherits, such as "toString".  With no such user it answers
    "User not found", whatever the package; with a user and any other
    package name it answers "Invalid package".  When it answers an error the
    store is as before. *)
Theorem confirmPurchase_errors (st : State) (userId : Z)
    (packageType now : string) :
  let out := confirmPurchase userId packageType now st in
  let known :=
    In packageType
      [ "Basic"; "Premium"; "VIP";
        "constructor"; "__defineGetter__"; "__defineSetter__";
        "hasOwnProperty"; "__lookupGetter__"; "__lookupSetter__";
        "isPrototypeOf"; "propertyIsEnumerable"; "toString"; "valueOf";
        "__proto__"; "toLocaleString" ] in
  let registered := find_pos (has_id userId) (users (file st)) <> None in
  ((exists user, fst out = Some (Ok user)) <-> registered /\ known) /\
  (~ registered -> fst out = Some (Err "User not found")) /\
  (registered -> ~ known -> fst out = Some (Err "Invalid package")) /\
  (forall error, fst out = Some (Err error) -> store_unchanged st (snd out)).
Proof.
  intros out known registered. unfold out, known, registered.
  fold property_names. rewrite confirmPurchase_run.
  destruct (find_pos (has_id userId) (users (file st))) as [[i u]|].
  - destruct (PACKAGES packageType) as [property|] eqn:Ep.
    + assert (Hk : PACKAGES packageType <> None) by congruence.
      apply PACKAGES_names in Hk.
      split; [split|split; [|split]]; cbn [fst snd].
      * intros _. split; [discriminate | exact Hk].
      * intros _. eexists. reflexivity.
      * intros Hn. exfalso. apply Hn. discriminate.
      * intros _ Hn. contradiction.
      * intros error He. discriminate.
    + assert (Hk : ~ In packageType property_names).
      { intros Hk. apply PACKAGES_names in Hk. contradiction. }
      split; [split|split; [|split]]; cbn [fst snd].
      * intros [user Hu]. discriminate.
      * intros [_ Hk']. contradiction.
      * intros Hn. exfalso. apply Hn. discriminate.
      * intros _ _. reflexivity.
      * intros error _. apply store_unchanged_reloaded.
  - split; [split|split; [|split]]; cbn [fst snd].
    + intros [user Hu]. discriminate.
    + intros [Hn _]. exfalso. now apply Hn.
    + intros _. reflexivity.
    + intros Hn. exfalso. now apply Hn.
    + intros error _. apply store_unchanged_reloaded.
Qed.

Lemma map_balance_after_confirm (referredBy : option string) (code : string)
    (pkg : Package) (i j : nat) (r : User) (packageType now : string)
    (us : list User) :
  truthy referredBy = Some code ->
  find_pos (has_referralCode code) us = Some (j, r) ->
  map u_balance
    (pay_commission referredBy (package pkg)
       (update_nth i (set_package packageType now) us)) =
  update_nth j
    (fun b => match b with
              | num n => num (n + commission pkg)
              | NaN | null => num (commission pkg)
              end)
    (map u_balance us).
Proof.
  intros Ht Hr. unfold pay_commission. rewrite Ht.
  rewrite find_pos_update_nth by reflexivity. rewrite Hr.
  rewrite (map_update_nth u_balance _
             (fun b => match b with
                       | num n => num (n + commission pkg)
                       | NaN | null => num (commission pkg)
                       end))
    by (intros x; cbn; destruct (u_balance x); reflexivity).
  f_equal. now apply map_update_nth_same.
Qed.

(** X4. [confirmPurchase] does not remember that a purchase was confirmed:
    when the user was referred by the code of an existing user, confirming
    the same package of the table twice pays the referrer the commission
    twice. *)
Theorem confirmPurchase_twice_pays_twice (st : State) (userId : Z)
    (packageType now now' : string) (pkg : Package) (i j : nat) (u r : User)
    (code : string) :
  find_pos (has_id userId) (users (file st)) = Some (i, u) ->
  PACKAGES packageType = Some (package pkg) ->
  u_referredBy u = Some code ->
  code <> EmptyString ->
  find_pos (has_referralCode code) (users (file st)) = Some (j, r) ->
  let st1 := snd (confirmPurchase userId packageType now st) in
  let st2 := snd (confirmPurchase userId packageType now' st1) in
  map u_balance (users (file st1)) =
    update_nth j
      (fun b => match b with
                | num n => num (n + commission pkg)
                | NaN | null => num (commission pkg)
                end)
      (map u_balance (users (file st))) /\
  map u_balance (users (file st2)) =
    update_nth j
      (fun b => match b with
                | num n => num (n + 2 * commission pkg)
                | NaN | null => num (2 * commission pkg)
                end)
      (map u_balance (users (file st))).
Proof.
  intros Hu Hp Hc Hne Hr st1 st2.
  assert (Ht : truthy (u_referredBy u) = Some code).
  { rewrite Hc. destruct code; [contradiction | reflexivity]. }
  assert (E1 : file st1 =
    {| users := pay_commission (u_referredBy u) (package pkg)
                  (update_nth i (set_package packageType now) (users (file st)));
       pendingPurchases := filter (other_purchase userId packageType)
                             (pendingPurchases (file st));
       withdraws := withdraws (file st) |}).
  { unfold st1. rewrite confirmPurchase_file, Hu, Hp.
    now rewrite stored_pay_commission. }
  assert (B1 : map u_balance (users (file st1)) =
               update_nth j
                 (fun b => match b with
                           | num n => num (n + commission pkg)
                           | NaN | null => num (commission pkg)
                           end)
                 (map u_balance (users (file st)))).
  { rewrite E1. cbn [users].
    apply (map_balance_after_confirm _ code _ _ _ r); assumption. }
  split; [exact B1|].
  (* the second call finds the same user and the same referrer *)
  assert (Hu1 : exists u1, find_pos (has_id userId) (users (file st1)) =
                           Some (i, u1) /\ u_referredBy u1 = Some code).
  { rewrite E1. cbn [users]. unfold pay_commission. rewrite Ht.
    rewrite (find_pos_update_nth (has_referralCode code)) by reflexivity.
    rewrite Hr.
    rewrite (find_pos_update_nth (has_id userId)) by reflexivity.
    rewrite (find_pos_update_nth (has_id userId)) by reflexivity.
    rewrite Hu. eexists. split; [reflexivity|].
    destruct (Nat.eqb j i); destruct (Nat.eqb i i); cbn; exact Hc. }
  destruct Hu1 as (u1 & Hu1 & Hc1).
  assert (Hr1 : exists r1, find_pos (has_referralCode code) (users (file st1)) =
                           Some (j, r1)).
  { rewrite E1. cbn [users]. unfold pay_commission. rewrite Ht.
    rewrite (find_pos_update_nth (has_referralCode code)) by reflexivity.
    rewrite Hr.
    rewrite (find_pos_update_nth (has_referralCode code)) by reflexivity.
    rewrite (find_pos_update_nth (has_referralCode code)) by reflexivity.
    rewrite Hr. eexists. reflexivity. }
  destruct Hr1 as (r1 & Hr1).
  assert (Ht1 : truthy (u_referredBy u1) = Some code).
  { rewrite Hc1. destruct code; [contradiction | reflexivity]. }
  unfold st2. rewrite confirmPurchase_file, Hu1, Hp. cbn [users].
  rewrite stored_pay_commission.
  rewrite (map_balance_after_confirm _ code _ _ j r1) by assumption.
  rewrite B1, update_nth_twice. apply update_nth_ext.
  intros [n| |]; f_equal; lia.
Qed.

(** On the example shop: user 7 referred user 8 and gets 500 twice. *)
Lemma confirmPurchase_twice_pays_twice_witness :
  map u_balance
    (users (file (snd (confirmPurchase 8 "VIP" "2024-01-08T00:00:00.000Z"
       (snd (confirmPurchase 8 "VIP" "2024-01-07T00:00:00.000Z"
               example_shop)))))) = [num 1300; num 0].
Proof.
  exact (proj2 (confirmPurchase_twice_pays_twice example_shop 8 "VIP"
           "2024-01-07T00:00:00.000Z" "2024-01-08T00:00:00.000Z"
           {| price := 3500; commission := 500 |} 1%nat 0%nat
           example_referred example_user "abc123" eq_refl eq_refl eq_refl
           ltac:(discriminate) eq_refl)).
Defined.

(** X5. [addPendingPurchase] answers ok exactly when a user has the id and
    [PACKAGES[packageType]] is truthy: for the three packages and also for
    the name of a property that [PACKAGES] inherits.  It then appends one
    entry with the id generated, the user id, the package name, the note
    and the time, and leaves the users and the withdrawals as they were.
    With no such user it answers "User not found", with a user and any
    other package name "Invalid package", and the store is as before. *)
Theorem addPendingPurchase_behaviour (st : State) (userId : Z)
    (packageType note nano now : string) :
  let out := addPendingPurchase userId packageType note nano now st in
  let registered := find_pos (has_id userId) (users (file st)) <> None in
  let known :=
    In packageType
      [ "Basic"; "Premium"; "VIP";
        "constructor"; "__defineGetter__"; "__defineSetter__";
        "hasOwnProperty"; "__lookupGetter__"; "__lookupSetter__";
        "isPrototypeOf"; "propertyIsEnumerable"; "toString"; "valueOf";
        "__proto__"; "toLocaleString" ] in
  let entry := {| p_id := nano; p_userId := userId; p_package := packageType;
                  p_note := note; p_createdAt := now |} in
  (registered /\ known ->
   fst out = Some (Ok entry) /\
   pendingPurchases (file (snd out)) = pendingPurchases (file st) ++ [entry] /\
   users (file (snd out)) = users (file st) /\
   withdraws (file (snd out)) = withdraws (file st)) /\
  (~ registered -> fst out = Some (Err "User not found")) /\
  (registered -> ~ known -> fst out = Some (Err "Invalid package")) /\
  (forall error, fst out = Some (Err error) -> store_unchanged st (snd out)).
Proof.
  intros out registered known entry. unfold out, registered, known, entry.
  fold property_names.
  rewrite addPendingPurchase_file, addPendingPurchase_run.
  destruct (find_pos (has_id userId) (users (file st))) as [[i u]|].
  - destruct (PACKAGES packageType) as [property|] eqn:Ep.
    + assert (Hk : PACKAGES packageType <> None) by congruence.
      apply PACKAGES_names in Hk.
      cbv zeta. cbn [fst snd users pendingPurchases withdraws].
      split; [|split; [|split]].
      * intros _. repeat split.
      * intros Hn. exfalso. apply Hn. discriminate.
      * intros _ Hn. contradiction.
      * intros error He. discriminate.
    + assert (Hk : ~ In packageType property_names).
      { intros Hk. apply PACKAGES_names in Hk. contradiction. }
      cbn [fst snd]. split; [|split; [|split]].
      * intros [_ Hk']. contradiction.
      * intros Hn. exfalso. apply Hn. discriminate.
      * intros _ _. reflexivity.
      * intros error _. apply store_unchanged_reloaded.
  - cbn [fst snd]. split; [|split; [|split]].
    + intros [Hn _]. exfalso. now apply Hn.
    + intros _. reflexivity.
    + intros Hn. exfalso. now apply Hn.
    + intros error _. apply store_unchanged_reloaded.
Qed.

(** X6. When no withdrawal request has the id, [approveWithdrawRequest] and
    [rejectWithdrawRequest] answer "Withdraw request not found" and the
    store is as before. *)
Theorem unknown_request_not_found (st : State) (withdrawId text now : string) :
  find_pos (has_withdraw_id withdrawId) (withdraws (file st)) = None ->
  (fst (approveWithdrawRequest withdrawId text now st) =
     Some (Err "Withdraw request not found") /\
   store_unchanged st (snd (approveWithdrawRequest withdrawId text now st))) /\
  (fst (rejectWithdrawRequest withdrawId text now st) =
     Some (Err "Withdraw request not found") /\
   store_unchanged st (snd (rejectWithdrawRequest withdrawId text now st))).
Proof.
  intros H. rewrite approve_run, reject_run, H. cbn [fst snd].
  repeat split; apply store_unchanged_reloaded.
Qed.

(** On the example store, whose one request has another id. *)
Lemma unknown_request_not_found_witness :
  fst (approveWithdrawRequest "nosuchid" "ok" "2024-01-03T00:00:00.000Z"
         (example_state pending)) = Some (Err "Withdraw request not found").
Proof.
  exact (proj1 (proj1 (unknown_request_not_found (example_state pending)
           "nosuchid" "ok" "2024-01-03T00:00:00.000Z" eq_refl))).
Defined.

(** X7. Approving or rejecting the pending request [w] that the id finds
    answers ok with the request resolved: its status is "approved" or
    "rejected", its note is the note or reason given, its update time is the
    time of the call, and its id, user, amount, payment method and creation
    time are as before.  In db.json the resolved request takes the place of
    [w], every other request is as before, and so are the pending
    purchases. *)
Theorem resolution_changes_one_request (st : State)
    (withdrawId text now : string) (i : nat) (w : Withdraw) :
  find_pos (has_withdraw_id withdrawId) (withdraws (file st)) = Some (i, w) ->
  w_status w = pending ->
  let resolved status :=
    {| w_id := w_id w; w_userId := w_userId w; w_amount := w_amount w;
       w_paymentMethod := w_paymentMethod w; w_status := status;
       w_note := Some text; w_createdAt := w_createdAt w;
       w_updatedAt := now |} in
  let effect out status :=
    fst out = Some (Ok (resolved status)) /\
    nth_error (withdraws (file (snd out))) i = Some (resolved status) /\
    length (withdraws (file (snd out))) = length (withdraws (file st)) /\
    (forall k, k <> i ->
       nth_error (withdraws (file (snd out))) k =
       nth_error (withdraws (file st)) k) /\
    pendingPurchases (file (snd out)) = pendingPurchases (file st) in
  effect (approveWithdrawRequest withdrawId text now st) approved /\
  effect (rejectWithdrawRequest withdrawId text now st) rejected.
Proof.
  intros Hf Hs resolved effect. unfold effect, resolved.
  assert (Ep : Status_eqb (w_status w) pending = true)
    by now apply Status_eqb_pending.
  pose proof (find_pos_Some _ _ _ _ Hf) as (Hn & _).
  rewrite approve_file, reject_file, approve_run, reject_run, Hf, Ep.
  cbn [fst snd withdraws pendingPurchases].
  split; (split; [reflexivity|]; split; [|split; [|split]]).
  - rewrite nth_error_update_nth, Nat.eqb_refl, Hn. reflexivity.
  - apply update_nth_length.
  - intros k Hk. rewrite nth_error_update_nth.
    destruct (Nat.eqb_spec i k); [congruence | reflexivity].
  - reflexivity.
  - rewrite nth_error_update_nth, Nat.eqb_refl, Hn. reflexivity.
  - apply update_nth_length.
  - intros k Hk. rewrite nth_error_update_nth.
    destruct (Nat.eqb_spec i k); [congruence | reflexivity].
  - reflexivity.
Qed.

(** On the example store: the request for 200 is approved. *)
Lemma resolution_changes_one_request_witness :
  option_map w_status
    (nth_error
       (withdraws (file (snd (approveWithdrawRequest "w1234567" "paid"
                                "2024-01-03T00:00:00.000Z"
                                (example_state pending))))) 0) =
  Some approved.
Proof.
  destruct (resolution_changes_one_request (example_state pending) "w1234567"
              "paid" "2024-01-03T00:00:00.000Z" 0%nat (example_request pending)
              eq_refl eq_refl) as ((_ & H & _) & _).
  cbv beta in H. rewrite H. reflexivity.
Defined.

(** ** What every operation keeps *)

Lemma users_assigned (user : Ref) (f : User -> User) (st : State) :
  users (data (assigned user f st)) = users (data st) \/
  users (data (assigned user f st)) = update_nth (snd user) f (users (data st)).
Proof.
  unfold assigned. destruct (Nat.ltb (fst user) (length (loaded st)));
    [left | right]; reflexivity.
Qed.

Lemma pendingPurchases_assigned (user : Ref) (f : User -> User) (st : State) :
  pendingPurchases (data (assigned user f st)) = pendingPurchases (data st).
Proof.
  unfold assigned. destruct (Nat.ltb (fst user) (length (loaded st)));
    reflexivity.
Qed.

Lemma map_pay_commission_identity (referredBy : option string)
    (property : Property) (us : list User) :
  map user_identity (pay_commission referredBy property us) =
  map user_identity us.
Proof. apply map_pay_commission_same. reflexivity. Qed.

Lemma map_credit_user_identity (id : Z) (amount : Num) (us : list User) :
  map user_identity (credit_user id amount us) = map user_identity us.
Proof.
  unfold credit_user. destruct (find_pos _ us) as [[j u]|]; [|reflexivity].
  now apply map_update_nth_same.
Qed.

Lemma map_identity_stored (us : list User) :
  map user_identity (map stored_user us) = map user_identity us.
Proof. rewrite map_map. reflexivity. Qed.

(** The users of db.json after an operation: the same users with the same
    identity, or those and one new user whose id no user had. *)
Lemma apply_op_users (op : Op) (st : State) :
  map user_identity (users (file (apply_op op st))) =
    map user_identity (users (file st)) \/
  exists u,
    users (file (apply_op op st)) = users (file st) ++ [u] /\
    find_pos (has_id (u_id u)) (users (file st)) = None.
Proof.
  destruct op; cbn [apply_op].
  - rewrite register_file.
    destruct (find_pos _ _) as [[i u]|] eqn:E; [left; reflexivity|].
    right. eexists. split; [reflexivity | exact E].
  - left. rewrite confirmPurchase_file.
    destruct (find_pos _ _) as [[i u]|]; [|reflexivity].
    destruct (PACKAGES packageType); [|reflexivity].
    cbn [users].
    rewrite map_identity_stored, map_pay_commission_identity.
    now apply map_update_nth_same.
  - left. rewrite addPendingPurchase_file.
    destruct (find_pos _ _) as [[i u]|]; [|reflexivity].
    destruct (PACKAGES packageType); reflexivity.
  - left. rewrite createWithdrawRequestDynamic_any.
    destruct ((amount =? 0) || (amount <=? 0)); [reflexivity|].
    destruct (lookup_ref (reloaded st) user) as [u|]; [|reflexivity].
    destruct (greater amount (u_balance u)); [reflexivity|].
    destruct (negb (Z.rem amount 100 =? 0)); [reflexivity|].
    cbn [snd].
    destruct (users_file_saved user
                (fun x => set_balance (minus (u_balance x) amount) x)
                (dynamic_request u amount paymentMethod nano now) st)
      as [E | E]; rewrite E; [reflexivity|].
    rewrite map_identity_stored. now apply map_update_nth_same.
  - left. rewrite createWithdrawRequest_any.
    destruct (lookup_ref (reloaded st) user) as [u|]; [|reflexivity].
    cbn [snd].
    destruct (users_file_saved user (set_balance (num 0))
                (full_request u nano now) st) as [E | E];
      rewrite E; [reflexivity|].
    rewrite map_identity_stored. now apply map_update_nth_same.
  - left. rewrite approve_file.
    destruct (find_pos _ _) as [[i w]|]; [|reflexivity].
    destruct (Status_eqb (w_status w) pending); reflexivity.
  - left. rewrite reject_file.
    destruct (find_pos _ _) as [[i w]|]; [|reflexivity].
    destruct (Status_eqb (w_status w) pending); [|reflexivity].
    cbn [users]. apply map_credit_user_identity.
Qed.

(** X10. No operation removes or reorders a user or changes a user's id,
    name, referral code, [referredBy] or creation time: after any sequence
    of operations the users of db.json are the earlier ones, with that
    identity, followed by the users registered since. *)
Theorem users_are_kept (ops : list Op) (st : State) :
  exists registered,
    map user_identity (users (file (run ops st))) =
    map user_identity (users (file st)) ++ registered.
Proof.
  revert st. induction ops as [|op ops IH]; intros st.
  - exists []. cbn. now rewrite app_nil_r.
  - cbn [run fold_left]. destruct (IH (apply_op op st)) as [more Hmore].
    unfold run in Hmore. rewrite Hmore.
    destruct (apply_op_users op st) as [E | (u & E & _)].
    + exists more. now rewrite E.
    + exists (user_identity u :: more).
      rewrite E, map_app, <- app_assoc. reflexivity.
Qed.

Lemma find_pos_None_not_In (id : Z) (us : list User) :
  find_pos (has_id id) us = None -> ~ In id (map u_id us).
Proof.
  intros H Hin. apply find_pos_None in H.
  apply in_map_iff in Hin. destruct Hin as (u & Hu & Hin).
  eapply Forall_forall in H; [|exact Hin].
  unfold has_id in H. apply Z.eqb_neq in H. contradiction.
Qed.

Lemma map_id_of_identity (us us' : list User) :
  map user_identity us' = map user_identity us -> map u_id us' = map u_id us.
Proof.
  intros H.
  assert (E : forall l, map u_id l =
                        map (fun k => fst (fst (fst (fst k)))) (map user_identity l)).
  { intros l. rewrite map_map. reflexivity. }
  now rewrite (E us'), (E us), H.
Qed.

Lemma apply_op_unique_ids (op : Op) (st : State) :
  NoDup (map u_id (users (file st))) ->
  NoDup (map u_id (users (file (apply_op op st)))).
Proof.
  intros H. destruct (apply_op_users op st) as [E | (u & E & Hn)].
  - now rewrite (map_id_of_identity _ _ E).
  - rewrite E, map_app. cbn [map].
    apply find_pos_None_not_In in Hn.
    apply (NoDup_Add (a := u_id u) (l := map u_id (users (file st)))).
    + rewrite <- (app_nil_r (map u_id (users (file st)))) at 1. apply Add_app.
    + split; [exact H | exact Hn].
Qed.

(** X9. Starting from the empty store, no sequence of operations leaves two
    users with the same id in db.json. *)
Theorem user_ids_are_unique (ops : list Op) :
  NoDup (map u_id (users (file (run ops initial_state)))).
Proof.
  assert (G : forall st, NoDup (map u_id (users (file st))) ->
                         NoDup (map u_id (users (file (run ops st))))).
  { induction ops as [|op ops IH]; intros st H; [exact H|].
    cbn [run fold_left]. apply IH. now apply apply_op_unique_ids. }
  apply G. constructor.
Qed.

(** X26. What each operation leaves alone in db.json: a registration the
    pending purchases and the withdrawals; a purchase confirmation the
    withdrawals; a pending purchase the users and the withdrawals; a
    withdrawal request of either kind and an approval the pending
    purchases, and the users when the user object was looked up before; a
    rejection the pending purchases.  No operation touches the sessions. *)
Theorem operations_leave_the_rest (op : Op) (st : State) :
  let before := file st in
  let after := file (apply_op op st) in
  userSessions (apply_op op st) = userSessions st /\
  match op with
  | Register _ _ _ _ =>
      pendingPurchases after = pendingPurchases before /\
      withdraws after = withdraws before
  | ConfirmPurchase _ _ _ => withdraws after = withdraws before
  | AddPendingPurchase _ _ _ _ _ =>
      users after = users before /\ withdraws after = withdraws before
  | CreateWithdrawDynamic user _ _ _ _ | CreateWithdraw user _ _ =>
      pendingPurchases after = pendingPurchases before /\
      (forall u, lookup_ref st user = Some u -> users after = users before)
  | Approve _ _ _ =>
      users after = users before /\
      pendingPurchases after = pendingPurchases before
  | Reject _ _ _ => pendingPurchases after = pendingPurchases before
  end.
Proof.
  cbv zeta. destruct op; cbn [apply_op].
  - rewrite register_file, registerUserIfNotExists_run.
    destruct (find_pos _ _) as [[i u]|]; repeat split.
  - rewrite confirmPurchase_file, confirmPurchase_run.
    destruct (find_pos _ _) as [[i u]|]; [|repeat split].
    destruct (PACKAGES packageType); repeat split.
  - rewrite addPendingPurchase_file, addPendingPurchase_run.
    destruct (find_pos _ _) as [[i u]|]; [|repeat split].
    destruct (PACKAGES packageType); repeat split.
  - split; [|split].
    + rewrite createWithdrawRequestDynamic_any.
      destruct ((amount =? 0) || (amount <=? 0)); [reflexivity|].
      destruct (lookup_ref (reloaded st) user) as [u|]; [|reflexivity].
      destruct (greater amount (u_balance u)); [reflexivity|].
      destruct (negb (Z.rem amount 100 =? 0)); [reflexivity|].
      cbn [snd saved userSessions]. unfold assigned.
      destruct (Nat.ltb _ _); reflexivity.
    + rewrite createWithdrawRequestDynamic_any.
      destruct ((amount =? 0) || (amount <=? 0)); [reflexivity|].
      destruct (lookup_ref (reloaded st) user) as [u|]; [|reflexivity].
      destruct (greater amount (u_balance u)); [reflexivity|].
      destruct (negb (Z.rem amount 100 =? 0)); [reflexivity|].
      cbn [snd]. apply pendingPurchases_file_saved.
    + intros u H.
      rewrite (createWithdrawRequestDynamic_run _ _ _ _ _ _ _ H).
      destruct ((amount =? 0) || (amount <=? 0)); [reflexivity|].
      destruct (greater amount (u_balance u)); [reflexivity|].
      destruct (negb (Z.rem amount 100 =? 0)); [reflexivity|].
      cbn [snd]. now rewrite file_requested.
  - split; [|split].
    + rewrite createWithdrawRequest_any.
      destruct (lookup_ref (reloaded st) user) as [u|]; [|reflexivity].
      cbn [snd saved userSessions]. unfold assigned.
      destruct (Nat.ltb _ _); reflexivity.
    + rewrite createWithdrawRequest_any.
      destruct (lookup_ref (reloaded st) user) as [u|]; [|reflexivity].
      cbn [snd]. apply pendingPurchases_file_saved.
    + intros u H. rewrite (createWithdrawRequest_run _ _ _ _ _ H).
      cbn [snd]. now rewrite file_requested.
  - rewrite approve_file, approve_run.
    destruct (find_pos _ _) as [[i w]|]; [|repeat split].
    destruct (Status_eqb (w_status w) pending); repeat split.
  - rewrite reject_file, reject_run.
    destruct (find_pos _ _) as [[i w]|]; [|repeat split].
    destruct (Status_eqb (w_status w) pending); repeat split.
Qed.

Lemma truthy_not_empty (s : option string) : truthy s <> Some EmptyString.
Proof. destruct s as [[|c s]|]; discriminate. Qed.

Lemma display_name_not_empty (from : From) : display_name from <> EmptyString.
Proof.
  unfold display_name.
  destruct (truthy (first_name from)) as [n|] eqn:E1.
  - intros ->. now apply (truthy_not_empty (first_name from)).
  - destruct (truthy (username from)) as [n|] eqn:E2; [|discriminate].
    intros ->. now apply (truthy_not_empty (username from)).
Qed.

Lemma user_wf_stored (us : list User) :
  Forall user_wf us -> Forall user_wf (map stored_user us).
Proof.
  intros H. apply Forall_map. eapply Forall_impl; [|exact H].
  intros u Hu. exact Hu.
Qed.

Lemma apply_op_user_wf (op : Op) (st : State) :
  Forall user_wf (users (file st)) ->
  Forall user_wf (users (file (apply_op op st))).
Proof.
  intros H. destruct op; cbn [apply_op].
  - rewrite register_file.
    destruct (find_pos _ _) as [[i u]|]; [exact H|].
    cbn [users]. apply Forall_app. split; [exact H|].
    constructor; [|constructor]. repeat split; cbn.
    + apply display_name_not_empty.
    + apply truthy_not_empty.
    + discriminate.
  - rewrite confirmPurchase_file.
    destruct (find_pos _ _) as [[i u]|]; [|exact H].
    destruct (PACKAGES packageType) as [property|] eqn:Ep; [|exact H].
    cbn [users]. apply user_wf_stored.
    assert (H1 : Forall user_wf
                   (update_nth i (set_package packageType now) (users (file st)))).
    { apply Forall_update_nth; [exact H|].
      intros x _ (Hn & Hr & _). repeat split; try assumption.
      intros p Hp. cbn [u_package set_package] in Hp.
      inversion Hp; subst p. rewrite Ep. discriminate. }
    unfold pay_commission. destruct (truthy (u_referredBy u)); [|exact H1].
    destruct (find_pos _ _) as [[j r]|]; [|exact H1].
    apply Forall_update_nth; [exact H1|]. intros x _ Hx. exact Hx.
  - rewrite addPendingPurchase_file.
    destruct (find_pos _ _) as [[i u]|]; [|exact H].
    destruct (PACKAGES packageType); exact H.
  - rewrite createWithdrawRequestDynamic_any.
    destruct ((amount =? 0) || (amount <=? 0)); [exact H|].
    destruct (lookup_ref (reloaded st) user) as [u|]; [|exact H].
    destruct (greater amount (u_balance u)); [exact H|].
    destruct (negb (Z.rem amount 100 =? 0)); [exact H|].
    cbn [snd].
    destruct (users_file_saved user
                (fun x => set_balance (minus (u_balance x) amount) x)
                (dynamic_request u amount paymentMethod nano now) st)
      as [E | E]; rewrite E; [exact H|].
    apply user_wf_stored.
    apply Forall_update_nth; [exact H|]. intros x _ Hx. exact Hx.
  - rewrite createWithdrawRequest_any.
    destruct (lookup_ref (reloaded st) user) as [u|]; [|exact H].
    cbn [snd].
    destruct (users_file_saved user (set_balance (num 0))
                (full_request u nano now) st) as [E | E];
      rewrite E; [exact H|].
    apply user_wf_stored.
    apply Forall_update_nth; [exact H|]. intros x _ Hx. exact Hx.
  - rewrite approve_file.
    destruct (find_pos _ _) as [[i w]|]; [|exact H].
    destruct (Status_eqb (w_status w) pending); exact H.
  - rewrite reject_file.
    destruct (find_pos _ _) as [[i w]|]; [|exact H].
    destruct (Status_eqb (w_status w) pending); [|exact H].
    cbn [users]. unfold credit_user.
    destruct (find_pos _ (users (file st))) as [[j u]|]; [|exact H].
    apply Forall_update_nth; [exact H|]. intros x _ Hx. exact Hx.
Qed.

(** X8. Starting from the empty store, every user of db.json has a name that
    is not empty, a [referredBy] that is null or a non-empty code, and a
    package that is null or a name [PACKAGES[name]] is truthy for: "Basic",
    "Premium", "VIP", or the name of a property that [PACKAGES] inherits. *)
Theorem stored_users_are_well_formed (ops : list Op) (u : User) :
  In u (users (file (run ops initial_state))) ->
  u_name u <> EmptyString /\
  u_referredBy u <> Some EmptyString /\
  (u_package u = None \/
   exists name,
     u_package u = Some name /\
     In name
       [ "Basic"; "Premium"; "VIP";
         "constructor"; "__defineGetter__"; "__defineSetter__";
         "hasOwnProperty"; "__lookupGetter__"; "__lookupSetter__";
         "isPrototypeOf"; "propertyIsEnumerable"; "toString"; "valueOf";
         "__proto__"; "toLocaleString" ]).
Proof.
  assert (G : forall st, Forall user_wf (users (file st)) ->
                         Forall user_wf (users (file (run ops st)))).
  { induction ops as [|op ops IH]; intros st H; [exact H|].
    cbn [run fold_left]. apply IH. now apply apply_op_user_wf. }
  intros Hin. specialize (G initial_state (Forall_nil _)).
  eapply Forall_forall in G; [|exact Hin]. destruct G as (Hn & Hr & Hp).
  split; [exact Hn|]. split; [exact Hr|].
  destruct (u_package u) as [p|]; [right | left; reflexivity].
  exists p. split; [reflexivity|].
  fold property_names. apply PACKAGES_names. now apply Hp.
Qed.

(** After the example run user 8 has the package "VIP". *)
Lemma stored_users_are_well_formed_witness :
  u_name example_buyer <> EmptyString /\
  u_referredBy example_buyer <> Some EmptyString /\
  (u_package example_buyer = None \/
   exists name,
     u_package example_buyer = Some name /\
     In name
       [ "Basic"; "Premium"; "VIP";
         "constructor"; "__defineGetter__"; "__defineSetter__";
         "hasOwnProperty"; "__lookupGetter__"; "__lookupSetter__";
         "isPrototypeOf"; "propertyIsEnumerable"; "toString"; "valueOf";
         "__proto__"; "toLocaleString" ]).
Proof.
  apply (stored_users_are_well_formed example_run example_buyer).
  vm_compute. right. left. reflexivity.
Defined.

(** The withdrawals of db.json after an operation: the earlier requests with
    their identity, and at most one new request. *)
Lemma apply_op_withdraws (op : Op) (st : State) :
  exists created,
    map request_identity (withdraws (file (apply_op op st))) =
    map request_identity (withdraws (file st)) ++ created.
Proof.
  assert (Same : forall ws : list Withdraw,
            exists created, map request_identity ws =
                            map request_identity ws ++ created).
  { intros ws. exists []. now rewrite app_nil_r. }
  assert (Resolved : forall i status now note (ws : list Withdraw),
            exists created,
              map request_identity (update_nth i (resolve status now note) ws) =
              map request_identity ws ++ created).
  { intros. exists []. rewrite app_nil_r. now apply map_update_nth_same. }
  destruct op; cbn [apply_op].
  - rewrite register_file.
    destruct (find_pos _ _) as [[i u]|]; apply Same.
  - rewrite confirmPurchase_file.
    destruct (find_pos _ _) as [[i u]|]; [|apply Same].
    destruct (PACKAGES packageType); apply Same.
  - rewrite addPendingPurchase_file.
    destruct (find_pos _ _) as [[i u]|]; [|apply Same].
    destruct (PACKAGES packageType); apply Same.
  - rewrite createWithdrawRequestDynamic_any.
    destruct ((amount =? 0) || (amount <=? 0)); [apply Same|].
    destruct (lookup_ref (reloaded st) user) as [u|]; [|apply Same].
    destruct (greater amount (u_balance u)); [apply Same|].
    destruct (negb (Z.rem amount 100 =? 0)); [apply Same|].
    cbn [snd]. rewrite withdraws_file_saved.
    eexists. rewrite map_app. reflexivity.
  - rewrite createWithdrawRequest_any.
    destruct (lookup_ref (reloaded st) user) as [u|]; [|apply Same].
    cbn [snd]. rewrite withdraws_file_saved.
    eexists. rewrite map_app. reflexivity.
  - rewrite approve_file.
    destruct (find_pos _ _) as [[i w]|]; [|apply Same].
    destruct (Status_eqb (w_status w) pending); [apply Resolved | apply Same].
  - rewrite reject_file.
    destruct (find_pos _ _) as [[i w]|]; [|apply Same].
    destruct (Status_eqb (w_status w) pending); [apply Resolved | apply Same].
Qed.

(** X11. No operation removes or reorders a withdrawal request or changes
    its id, user, amount, payment method or creation time: after any
    sequence of operations the requests of db.json are the earlier ones,
    with that identity, followed by the requests created since. *)
Theorem requests_are_kept (ops : list Op) (st : State) :
  exists created,
    map request_identity (withdraws (file (run ops st))) =
    map request_identity (withdraws (file st)) ++ created.
Proof.
  revert st. induction ops as [|op ops IH]; intros st.
  - exists []. cbn. now rewrite app_nil_r.
  - cbn [run fold_left]. destruct (IH (apply_op op st)) as [more Hmore].
    unfold run in Hmore. rewrite Hmore.
    destruct (apply_op_withdraws op st) as [created E].
    exists (created ++ more). now rewrite E, app_assoc.
Qed.

Lemma written_as_stored_users (us : list User) :
  Forall2 user_written_as us (map stored_user us).
Proof.
  induction us as [|u us IH]; constructor; [|exact IH].
  repeat split. cbn. now destruct (u_balance u).
Qed.

Lemma written_as_stored_requests (ws : list Withdraw) :
  Forall2 request_written_as ws (map stored_request ws).
Proof.
  induction ws as [|w ws IH]; constructor; [|exact IH].
  repeat split. cbn. now destruct (w_amount w).
Qed.

(** After an operation db.json holds what [db.data] holds. *)
Lemma apply_op_saved (op : Op) (st : State) :
  file (apply_op op st) = to_json (data (apply_op op st)).
Proof.
  assert (R : file (reloaded st) = to_json (data (reloaded st)))
    by exact (eq_sym (to_json_file st)).
  destruct op; cbn [apply_op].
  - rewrite registerUserIfNotExists_run.
    destruct (find_pos _ _) as [[i u]|]; [exact R | reflexivity].
  - rewrite confirmPurchase_run.
    destruct (find_pos _ _) as [[i u]|]; [|exact R].
    destruct (PACKAGES packageType); [reflexivity | exact R].
  - rewrite addPendingPurchase_run.
    destruct (find_pos _ _) as [[i u]|]; [|exact R].
    destruct (PACKAGES packageType); [reflexivity | exact R].
  - rewrite createWithdrawRequestDynamic_any.
    destruct ((amount =? 0) || (amount <=? 0)); [exact R|].
    destruct (lookup_ref (reloaded st) user) as [u|]; [|exact R].
    destruct (greater amount (u_balance u)); [exact R|].
    destruct (negb (Z.rem amount 100 =? 0)); [exact R | reflexivity].
  - rewrite createWithdrawRequest_any.
    destruct (lookup_ref (reloaded st) user) as [u|]; [reflexivity | exact R].
  - rewrite approve_run.
    destruct (find_pos _ _) as [[i w]|]; [|exact R].
    destruct (Status_eqb (w_status w) pending); [reflexivity | exact R].
  - rewrite reject_run.
    destruct (find_pos _ _) as [[i w]|]; [|exact R].
    destruct (Status_eqb (w_status w) pending); [reflexivity | exact R].
Qed.

(** X12. Every operation, whether it answers ok, answers an error or throws,
    leaves in db.json what [db.data] holds, with null where a number of
    [db.data] is NaN: no change of [db.data] is left unsaved.  When no
    number of [db.data] is NaN, [db.data] and db.json are equal. *)
Theorem operations_save_their_changes (op : Op) (st : State) :
  let st' := apply_op op st in
  Forall2 user_written_as (users (data st')) (users (file st')) /\
  pendingPurchases (file st') = pendingPurchases (data st') /\
  Forall2 request_written_as (withdraws (data st')) (withdraws (file st')) /\
  (Forall (fun u => u_balance u <> NaN) (users (data st')) ->
   Forall (fun w => w_amount w <> NaN) (withdraws (data st')) ->
   data st' = file st').
Proof.
  cbv zeta. rewrite apply_op_saved. unfold to_json.
  cbn [users pendingPurchases withdraws].
  split; [apply written_as_stored_users|]. split; [reflexivity|].
  split; [apply written_as_stored_requests|].
  intros Hu Hw. symmetry. now apply to_json_same.
Qed.

(** ** The sum of "/stats" *)

Lemma fold_left_add_amounts (ws : list Withdraw) (a : Z) :
  fold_left (fun s x => s + or_zero (w_amount x)) ws a =
  a + fold_left (fun s x => s + or_zero (w_amount x)) ws 0.
Proof.
  revert a. induction ws as [|w ws IH]; intros a; cbn; [lia|].
  rewrite (IH (a + or_zero (w_amount w))), (IH (or_zero (w_amount w))). lia.
Qed.

Lemma stats_totalWithdraws_sum (d : Db) :
  stats_totalWithdraws d =
  fold_right (fun w s => approved_amount w + s) 0 (withdraws d).
Proof.
  unfold stats_totalWithdraws. induction (withdraws d) as [|w ws IH]; cbn;
    [reflexivity|].
  unfold approved_amount at 1.
  destruct (Status_eqb (w_status w) approved); cbn.
  - rewrite fold_left_add_amounts, IH. now destruct (w_amount w).
  - exact IH.
Qed.

Lemma approved_sum_app (ws ws' : list Withdraw) :
  fold_right (fun w s => approved_amount w + s) 0 (ws ++ ws') =
  fold_right (fun w s => approved_amount w + s) 0 ws +
  fold_right (fun w s => approved_amount w + s) 0 ws'.
Proof. induction ws as [|w ws IH]; cbn; [reflexivity | rewrite IH; lia]. Qed.

Lemma approved_sum_update_nth (f : Withdraw -> Withdraw) (i : nat)
    (w : Withdraw) (ws : list Withdraw) :
  nth_error ws i = Some w ->
  fold_right (fun w s => approved_amount w + s) 0 (update_nth i f ws) =
  fold_right (fun w s => approved_amount w + s) 0 ws
  - approved_amount w + approved_amount (f w).
Proof.
  revert i. induction ws as [|x ws IH]; intros [|i] H; cbn in *;
    try discriminate.
  - inversion H; subst. lia.
  - rewrite (IH i H). lia.
Qed.

(** X24. The sum of the approved amounts that "/stats" computes grows only
    by approvals: an operation that approves a pending request adds the
    amount of that request, and every other operation (a request created,
    a rejection, a failed approval, a registration, a purchase) leaves the
    sum as it was. *)
Theorem approved_total_grows_by_approvals (op : Op) (st : State) :
  stats_totalWithdraws (file (apply_op op st)) =
  stats_totalWithdraws (file st) + approved_by op (file st).
Proof.
  rewrite !stats_totalWithdraws_sum.
  destruct op; cbn [apply_op approved_by].
  - rewrite register_file.
    destruct (find_pos _ _) as [[i u]|]; cbn; lia.
  - rewrite confirmPurchase_file.
    destruct (find_pos _ _) as [[i u]|]; [|cbn; lia].
    destruct (PACKAGES packageType); cbn; lia.
  - rewrite addPendingPurchase_file.
    destruct (find_pos _ _) as [[i u]|]; [|cbn; lia].
    destruct (PACKAGES packageType); cbn; lia.
  - rewrite createWithdrawRequestDynamic_any.
    destruct ((amount =? 0) || (amount <=? 0)); [cbn; lia|].
    destruct (lookup_ref (reloaded st) user) as [u|]; [|cbn; lia].
    destruct (greater amount (u_balance u)); [cbn; lia|].
    destruct (negb (Z.rem amount 100 =? 0)); [cbn; lia|].
    cbn [snd]. rewrite withdraws_file_saved.
    rewrite approved_sum_app. cbn. lia.
  - rewrite createWithdrawRequest_any.
    destruct (lookup_ref (reloaded st) user) as [u|]; [|cbn; lia].
    cbn [snd]. rewrite withdraws_file_saved.
    rewrite approved_sum_app. cbn. lia.
  - rewrite approve_file.
    destruct (find_pos _ _) as [[i w]|] eqn:E; [|cbn; lia].
    destruct (Status_eqb (w_status w) pending) eqn:Ep; [|cbn; lia].
    cbn [withdraws].
    apply find_pos_Some in E. destruct E as (Hn & _).
    rewrite (approved_sum_update_nth _ _ _ _ Hn).
    apply Status_eqb_pending in Ep. unfold approved_amount.
    cbn [resolve w_status w_amount Status_eqb]. rewrite Ep. cbn. lia.
  - rewrite reject_file.
    destruct (find_pos _ _) as [[i w]|] eqn:E; [|cbn; lia].
    destruct (Status_eqb (w_status w) pending) eqn:Ep; [|cbn; lia].
    cbn [withdraws].
    apply find_pos_Some in E. destruct E as (Hn & _).
    rewrite (approved_sum_update_nth _ _ _ _ Hn).
    apply Status_eqb_pending in Ep. unfold approved_amount.
    cbn [resolve w_status w_amount Status_eqb]. rewrite Ep. cbn. lia.
Qed.

(** ** The withdraw dialogue *)

Lemma session_get_delete_same (k : Z) (m : Sessions) :
  session_get k (session_delete k m) = None.
Proof.
  induction m as [|[k' v] m IH]; cbn; [reflexivity|].
  destruct (Z.eqb k' k) eqn:E; cbn; [exact IH|]. now rewrite E.
Qed.

Lemma session_get_delete_other (k k' : Z) (m : Sessions) :
  k' <> k -> session_get k' (session_delete k m) = session_get k' m.
Proof.
  intros H. induction m as [|[k0 v] m IH]; cbn; [reflexivity|].
  destruct (Z.eqb k0 k) eqn:E; cbn.
  - apply Z.eqb_eq in E. subst k0.
    destruct (Z.eqb k k') eqn:E'; [apply Z.eqb_eq in E'; congruence | exact IH].
  - destruct (Z.eqb k0 k'); [reflexivity | exact IH].
Qed.

Lemma session_get_set_same (k : Z) (v : Session) (m : Sessions) :
  session_get k (session_set k v m) = Some v.
Proof. unfold session_set. cbn. now rewrite Z.eqb_refl. Qed.

Lemma session_get_set_other (k k' : Z) (v : Session) (m : Sessions) :
  k' <> k -> session_get k' (session_set k v m) = session_get k' m.
Proof.
  intros H. unfold session_set. cbn.
  destruct (Z.eqb k k') eqn:E; [apply Z.eqb_eq in E; congruence|].
  now apply session_get_delete_other.
Qed.

Lemma withdraw_command_run (from : Z) (st : State) :
  withdraw_command from st =
  match find_pos (has_id from) (users (file st)) with
  | None => (Some PleaseStart, reloaded st)
  | Some (_, u) =>
      if or_zero (u_balance u) <? MIN_WITHDRAW
      then (Some MinimumWithdraw, reloaded st)
      else
        (Some EnterAmount,
         with_sessions
           (session_set from
              {| action := withdraw; step := amount_step; s_data := None |})
           (reloaded st))
  end.
Proof.
  unfold withdraw_command, has_id. run_monad.
  destruct (find_pos _ _) as [[i u]|] eqn:E; [|reflexivity].
  cbn [option_map fst]. run_monad.
  apply find_pos_Some in E. destruct E as (Hn & _). rewrite Hn.
  destruct (or_zero (u_balance u) <? MIN_WITHDRAW); reflexivity.
Qed.

Lemma on_text_run (from : Z) (message_text nano now : string) (st : State) :
  on_text from message_text nano now st =
  match session_get from (userSessions st) with
  | None => (Some None, st)
  | Some session =>
      let text := toLowerCase (trim message_text) in
      if String.eqb text "cancel" then
        (Some (Some Canceled), with_sessions (session_delete from) st)
      else
        match find_pos (has_id from) (users (data st)) with
        | None => (Some (Some UserNotFound), st)
        | Some (i, u) =>
            match step session with
            | amount_step =>
                match parseInt message_text with
                | None => (Some (Some InvalidAmount), st)
                | Some amount =>
                    if (amount <=? 0) || negb (Z.rem amount 100 =? 0)
                    then (Some (Some InvalidAmount), st)
                    else if greater amount (u_balance u)
                    then (Some (Some InsufficientBalance), st)
                    else
                      (Some (Some ChooseMethod),
                       with_sessions
                         (session_set from
                            {| action := withdraw; step := method_step;
                               s_data := Some amount |}) st)
                end
            | method_step =>
                match payment_method_of text with
                | None => (Some (Some InvalidMethod), st)
                | Some method =>
                    match s_data session with
                    | None => (None, st)
                    | Some amount =>
                        if (amount =? 0) || (amount <=? 0) then
                          (Some (Some (Failed "Invalid amount")), reloaded st)
                        else if greater amount (u_balance u) then
                          (Some (Some (Failed "Insufficient balance")),
                           reloaded st)
                        else if negb (Z.rem amount 100 =? 0) then
                          (Some (Some (Failed "Amount must end with 00")),
                           reloaded st)
                        else
                          (Some (Some (Submitted
                             (dynamic_request u amount method nano now))),
                           with_sessions (session_delete from)
                             (requested
                                (dynamic_request u amount method nano now)
                                (length (loaded st), i)
                                (fun x =>
                                   set_balance (minus (u_balance x) amount) x)
                                st))
                    end
                end
            end
        end
  end.
Proof.
  unfold on_text, bind at 1, get_session.
  destruct (session_get from (userSessions st)) as [session|]; [|reflexivity].
  cbv zeta. destruct (String.eqb (toLowerCase (trim message_text)) "cancel");
    [reflexivity|].
  unfold bind at 1, findUserById, has_id.
  destruct (find_pos _ (users (data st))) as [[i u]|] eqn:Eu;
    [|reflexivity].
  cbn [option_map fst].
  pose proof (find_pos_Some _ _ _ _ Eu) as (Hn & _).
  assert (Hl : lookup_ref st (length (loaded st), i) = Some u)
    by (rewrite lookup_ref_current; exact Hn).
  destruct (action session). destruct (step session).
  - destruct (parseInt message_text) as [amount|]; [|reflexivity].
    destruct ((amount <=? 0) || negb (Z.rem amount 100 =? 0)); [reflexivity|].
    unfold bind at 1, deref. rewrite Hl.
    destruct (greater amount (u_balance u)); reflexivity.
  - fold (payment_method_of (toLowerCase (trim message_text))).
    destruct (payment_method_of (toLowerCase (trim message_text)))
      as [method|]; [|reflexivity].
    destruct (s_data session) as [amount|]; [|reflexivity].
    unfold bind at 1.
    rewrite (createWithdrawRequestDynamic_run _ _ _ _ _ _ _ Hl).
    destruct ((amount =? 0) || (amount <=? 0)); [reflexivity|].
    destruct (greater amount (u_balance u)); [reflexivity|].
    destruct (negb (Z.rem amount 100 =? 0)); reflexivity.
Qed.

(** X14. "/withdraw" opens a session, waiting for the amount, exactly when
    the sender is a user of db.json whose balance is an integer of at least
    100; the sessions of the other senders stay.  Otherwise the sessions
    stay as they are.  In no case does it change db.json. *)
Theorem withdraw_command_opens_session (st : State) (from : Z) :
  let out := withdraw_command from st in
  (fst out = Some EnterAmount <->
   exists i u b, find_pos (has_id from) (users (file st)) = Some (i, u) /\
                 u_balance u = num b /\ MIN_WITHDRAW <= b) /\
  (fst out = Some EnterAmount ->
   session_get from (userSessions (snd out)) =
     Some {| action := withdraw; step := amount_step; s_data := None |} /\
   forall other, other <> from ->
     session_get other (userSessions (snd out)) =
     session_get other (userSessions st)) /\
  (fst out <> Some EnterAmount -> userSessions (snd out) = userSessions st) /\
  file (snd out) = file st.
Proof.
  intros out. unfold out. rewrite withdraw_command_run.
  destruct (find_pos (has_id from) (users (file st))) as [[i u]|].
  - destruct (or_zero (u_balance u) <? MIN_WITHDRAW) eqn:E; cbn [fst snd].
    + apply Z.ltb_lt in E. split; [split|split; [|split]].
      * discriminate.
      * intros (i' & u' & b & H & Hb & Hm). inversion H; subst.
        rewrite Hb in E. cbn in E. lia.
      * discriminate.
      * reflexivity.
      * reflexivity.
    + apply Z.ltb_ge in E. split; [split|split; [|split]].
      * intros _. destruct (u_balance u) as [b| |] eqn:Eb.
        -- exists i, u, b. repeat split; [exact Eb | exact E].
        -- cbn in E. unfold MIN_WITHDRAW in E. lia.
        -- cbn in E. unfold MIN_WITHDRAW in E. lia.
      * reflexivity.
      * intros _. split; [apply session_get_set_same|].
        intros other Ho. now apply session_get_set_other.
      * intros H. now contradiction H.
      * reflexivity.
  - cbn [fst snd]. split; [split|split; [|split]].
    + discriminate.
    + intros (i' & u' & b & H & _). discriminate.
    + discriminate.
    + reflexivity.
    + reflexivity.
Qed.


(** X15. In either step of the dialogue, an answer that reads "cancel" once
    trimmed and put in lower case ends the session of its sender: the
    sender has no session afterwards, the sessions of the others stay, and
    db.json, [db.data] and the user objects are not touched. *)
Theorem on_text_cancel_ends_session (st : State) (from : Z)
    (message_text nano now : string) (session : Session) :
  session_get from (userSessions st) = Some session ->
  toLowerCase (trim message_text) = "cancel" ->
  let out := on_text from message_text nano now st in
  fst out = Some (Some Canceled) /\
  session_get from (userSessions (snd out)) = None /\
  (forall other, other <> from ->
     session_get other (userSessions (snd out)) =
     session_get other (userSessions st)) /\
  file (snd out) = file st /\ data (snd out) = data st /\
  loaded (snd out) = loaded st.
Proof.
  intros Hs Hc out. unfold out. rewrite on_text_run, Hs. cbv zeta.
  rewrite Hc.
  change (String.eqb "cancel" "cancel") with true. cbn [fst snd].
  repeat split.
  - apply session_get_delete_same.
  - intros other Ho. now apply session_get_delete_other.
Qed.

(** In the step that waits for the payment method, with " Cancel ". *)
Lemma on_text_cancel_ends_session_witness :
  fst (on_text 9 " Cancel " "w7654321" "2024-02-02T00:00:00.000Z"
         example_method_session) = Some (Some Canceled).
Proof.
  exact (proj1 (on_text_cancel_ends_session example_method_session 9
           " Cancel " "w7654321" "2024-02-02T00:00:00.000Z" _ eq_refl
           eq_refl)).
Defined.



Lemma payment_method_of_known (text method : string) :
  payment_method_of text = Some method ->
  method = "Telebirr" \/ method = "CBE" \/ method = "Transfer".
Proof.
  unfold payment_method_of.
  destruct (includes text "telebirr" || String.eqb text "1");
    [intros H; inversion H; auto|].
  destruct (includes text "cbe" || String.eqb text "2");
    [intros H; inversion H; auto|].
  destruct (includes text "transfer" || String.eqb text "3");
    [intros H; inversion H; auto | discriminate].
Qed.

(** X17. Whenever the dialogue answers that a request was submitted, the
    request is pending, of the sender, with the id generated and one of the
    payment methods "Telebirr", "CBE", "Transfer"; its amount is a positive
    multiple of 100 for which [amount > u.balance] does not hold, [u] being
    the sender's user in [db.data]; it is the one request added to the
    withdrawals of db.json; and the session of the sender has ended. *)
Theorem on_text_submitted_request (st : State) (from : Z)
    (message_text nano now : string) (request : Withdraw) :
  let out := on_text from message_text nano now st in
  fst out = Some (Some (Submitted request)) ->
  w_status request = pending /\
  w_userId request = from /\
  w_id request = nano /\
  (w_paymentMethod request = Some "Telebirr" \/
   w_paymentMethod request = Some "CBE" \/
   w_paymentMethod request = Some "Transfer") /\
  (exists i u amount,
     find_pos (has_id from) (users (data st)) = Some (i, u) /\
     w_amount request = num amount /\
     acceptable_amount (u_balance u) amount) /\
  withdraws (file (snd out)) = withdraws (file st) ++ [request] /\
  session_get from (userSessions (snd out)) = None.
Proof.
  intros out. unfold out. rewrite on_text_run.
  destruct (session_get from (userSessions st)) as [session|];
    [|discriminate].
  cbv zeta.
  destruct (String.eqb (toLowerCase (trim message_text)) "cancel");
    [discriminate|].
  destruct (find_pos (has_id from) (users (data st))) as [[i u]|] eqn:Eu;
    [|discriminate].
  destruct (step session).
  { destruct (parseInt message_text) as [a|]; [|discriminate].
    destruct ((a <=? 0) || negb (Z.rem a 100 =? 0)); [discriminate|].
    destruct (greater a (u_balance u)); discriminate. }
  destruct (payment_method_of (toLowerCase (trim message_text)))
    as [method|] eqn:Em; [|discriminate].
  destruct (s_data session) as [amount|]; [|discriminate].
  destruct ((amount =? 0) || (amount <=? 0)) eqn:E1; [discriminate|].
  destruct (greater amount (u_balance u)) eqn:E2; [discriminate|].
  destruct (negb (Z.rem amount 100 =? 0)) eqn:E3; [discriminate|].
  cbn [fst snd]. intros H. inversion H; subst request. clear H.
  apply orb_false_iff in E1. destruct E1 as [_ E1]. apply Z.leb_gt in E1.
  apply greater_within in E2.
  apply negb_false_iff, Z.eqb_eq in E3.
  pose proof (find_pos_Some _ _ _ _ Eu) as (_ & Hid & _).
  unfold has_id in Hid. apply Z.eqb_eq in Hid.
  split; [reflexivity|]. split; [exact Hid|]. split; [reflexivity|].
  split.
  { cbn [dynamic_request w_paymentMethod].
    destruct (payment_method_of_known _ _ Em) as [-> | [-> | ->]]; auto. }
  split; [exists i, u, amount; repeat split; assumption|].
  split; [now rewrite file_with_sessions, file_requested|].
  apply session_get_delete_same.
Qed.

(** The last step of the example dialogue. *)
Lemma on_text_submitted_request_witness :
  withdraws (file (snd (on_text 9 "telebirr" "w7654321"
                          "2024-02-02T00:00:00.000Z" example_method_session))) =
  [example_withdrawal].
Proof.
  destruct (on_text_submitted_request example_method_session 9 "telebirr"
              "w7654321" "2024-02-02T00:00:00.000Z" example_withdrawal
              eq_refl) as (_ & _ & _ & _ & _ & H & _).
  exact H.
Defined.




(** ** The other handlers *)

Lemma split_on_no_sep (sep : ascii) (s : string) :
  Forall (fun c => c <> sep) (list_ascii_of_string s) ->
  split_on sep s = [s].
Proof.
  induction s as [|c s IH]; cbn; intros H; [reflexivity|].
  inversion H; subst.
  destruct (Ascii.eqb_spec c sep); [contradiction|].
  now rewrite IH.
Qed.

Lemma start_command_run (from : From) (message_text : option string)
    (nano now : string) (st : State) :
  start_command from message_text nano now st =
  registerUserIfNotExists from
    (truthy (nth_error
               (split_on " "%char
                  match truthy message_text with
                  | Some t => t
                  | None => EmptyString
                  end) 1))
    nano now (reloaded st).
Proof. reflexivity. Qed.

(** X19. "/start" of a sender who is not yet a user registers the sender.
    After "/start CODE", for a non-empty CODE without a space, the new user
    has [referredBy = CODE]; after "/start" alone, and after "/start  CODE"
    with two spaces, [referredBy] is null. *)
Theorem start_command_referral_code (st : State) (from : From)
    (code nano now : string) :
  find_pos (has_id (from_id from)) (users (file st)) = None ->
  code <> EmptyString ->
  no_space code ->
  let registered message referredBy :=
    exists u,
      users (file (snd (start_command from (Some message) nano now st))) =
        users (file st) ++ [u] /\
      u_id u = from_id from /\ u_referralCode u = nano /\
      u_balance u = num 0 /\
      u_referredBy u = referredBy in
  registered ("/start " ++ code)%string (Some code) /\
  registered "/start" None /\
  registered ("/start  " ++ code)%string None.
Proof.
  intros Hn Hc Hs registered. unfold registered.
  assert (R : forall referralCode,
            users (file (snd (registerUserIfNotExists from referralCode nano now
                                (reloaded st)))) =
            users (file st) ++ [new_user from referralCode nano now]).
  { intros referralCode. rewrite register_file, file_reloaded.
    now rewrite Hn. }
  split; [|split].
  - exists (new_user from (Some code) nano now).
    rewrite start_command_run, R. cbn [truthy append].
    cbn [split_on Ascii.eqb Bool.eqb].
    rewrite (split_on_no_sep _ code Hs). cbn [nth_error].
    assert (Ht : truthy (Some code) = Some code)
      by (destruct code; [contradiction | reflexivity]).
    rewrite Ht. repeat split; try reflexivity.
    cbn. exact Ht.
  - exists (new_user from None nano now).
    rewrite start_command_run, R. repeat split; reflexivity.
  - exists (new_user from None nano now).
    rewrite start_command_run, R. cbn [truthy append].
    cbn [split_on Ascii.eqb Bool.eqb].
    destruct (split_on " " code); repeat split; reflexivity.
Qed.

(** Sara joins the example store through the link of user 7. *)
Lemma start_command_referral_code_witness :
  map u_referredBy
    (users (file (snd (start_command example_from (Some "/start abc123")
                         "k3J9xQ" "2024-01-05T00:00:00.000Z"
                         (example_state pending))))) =
  [None; Some "abc123"].
Proof.
  destruct (start_command_referral_code (example_state pending) example_from
              "abc123" "k3J9xQ" "2024-01-05T00:00:00.000Z" eq_refl
              ltac:(discriminate)
              ltac:(repeat constructor; discriminate))
    as ((u & Hu & _ & _ & _ & Hr) & _).
  cbn [append] in Hu. rewrite Hu, map_app. cbn [map]. rewrite Hr. reflexivity.
Defined.

Lemma myrefs_command_run (from : Z) (st : State) :
  myrefs_command from st =
  match find_pos (has_id from) (users (file st)) with
  | None => (Some NotRegistered, reloaded st)
  | Some (_, u) =>
      (Some (if Nat.eqb (length (referrals_of u (users (file st)))) 0
             then NoReferrals
             else Referrals (referrals_of u (users (file st)))),
       reloaded st)
  end.
Proof.
  unfold myrefs_command, has_id. run_monad.
  destruct (find_pos _ _) as [[i u]|] eqn:E; [|reflexivity].
  cbn [option_map fst]. run_monad.
  apply find_pos_Some in E. destruct E as (Hn & _). rewrite Hn.
  destruct (Nat.eqb _ 0); reflexivity.
Qed.



(** X20. When a sender who is not yet a user registers with the referral
    code of the user [r], "/myrefs" of [r] then lists the referrals it
    listed before followed by the new user. *)
Theorem registration_shows_in_myrefs (st : State) (from : From)
    (nano now : string) (rid : Z) (j : nat) (r : User) :
  find_pos (has_id rid) (users (file st)) = Some (j, r) ->
  find_pos (has_id (from_id from)) (users (file st)) = None ->
  u_referralCode r <> EmptyString ->
  let st1 := snd (registerUserIfNotExists from (Some (u_referralCode r))
                    nano now st) in
  exists u,
    users (file st1) = users (file st) ++ [u] /\
    u_id u = from_id from /\
    fst (myrefs_command rid st1) =
      Some (Referrals (referrals_of r (users (file st)) ++ [u])).
Proof.
  intros Hr Hn Hc st1.
  exists (new_user from (Some (u_referralCode r)) nano now).
  assert (E : file st1 =
    {| users := users (file st) ++
                [new_user from (Some (u_referralCode r)) nano now];
       pendingPurchases := pendingPurchases (file st);
       withdraws := withdraws (file st) |}).
  { unfold st1. now rewrite register_file, Hn. }
  split; [now rewrite E|]. split; [reflexivity|].
  rewrite myrefs_command_run, E. cbn [users].
  rewrite (find_pos_app_Some _ _ _ _ Hr). cbn [fst].
  unfold referrals_of at 1 2. rewrite filter_app. cbn [filter].
  assert (Ht : u_referredBy (new_user from (Some (u_referralCode r)) nano now)
               = Some (u_referralCode r)).
  { cbn. destruct (u_referralCode r); [contradiction | reflexivity]. }
  rewrite Ht, String.eqb_refl.
  fold (referrals_of r (users (file st))).
  rewrite length_app, Nat.add_1_r. reflexivity.
Qed.

(** Sara registers on the example store with the code of user 7. *)
Lemma registration_shows_in_myrefs_witness :
  exists u,
    fst (myrefs_command 7
           (snd (registerUserIfNotExists example_from (Some "abc123") "k3J9xQ"
                   "2024-01-05T00:00:00.000Z" (example_state pending)))) =
    Some (Referrals [u]) /\ u_id u = 8.
Proof.
  destruct (registration_shows_in_myrefs (example_state pending) example_from
              "k3J9xQ" "2024-01-05T00:00:00.000Z" 7 0%nat example_user
              eq_refl eq_refl ltac:(discriminate)) as (u & _ & Hid & H).
  exists u. split; [exact H | exact Hid].
Defined.


(** The rounds of the broadcast: one attempt for each user, in order. *)
Lemma for_each_deliver (delivers : Z -> bool) (text : string)
    (us : list User) (st : State) :
  for_each us (fun u =>
    try_catch
      (deliver delivers (u_id u) text ;;;
       ret {| chat := u_id u; message := text; delivered := true |})
      (ret {| chat := u_id u; message := text; delivered := false |})) st =
  (Some (map (fun u => {| chat := u_id u; message := text;
                          delivered := delivers (u_id u) |}) us),
   st).
Proof.
  induction us as [|u us IH]; [reflexivity|].
  cbn [for_each map]. unfold bind at 1, try_catch at 1, bind at 1, deliver at 1.
  destruct (delivers (u_id u)); cbn [ret throw];
    unfold bind at 1; rewrite IH; reflexivity.
Qed.

(** X22. [broadcastMessage] never fails: whichever deliveries throw, it
    attempts one delivery of the text to each user of db.json, in their
    order, answers ok with the number of users of db.json (not the number
    of messages delivered), and changes nothing in the store. *)
Theorem broadcastMessage_counts_users (delivers : Z -> bool) (text : string)
    (st : State) :
  exists attempts,
    fst (broadcastMessage delivers text st) =
      Some (Ok (length (users (file st))), attempts) /\
    map chat attempts = map u_id (users (file st)) /\
    Forall (fun a => message a = text /\ delivered a = delivers (chat a))
      attempts /\
    store_unchanged st (snd (broadcastMessage delivers text st)).
Proof.
  assert (E : broadcastMessage delivers text st =
              (Some (Ok (length (users (file st))),
                     map (fun u => {| chat := u_id u; message := text;
                                      delivered := delivers (u_id u) |})
                       (users (file st))),
               reloaded st)).
  { unfold broadcastMessage, bind at 1 2, get_data.
    change (db_read st) with (Some tt, reloaded st). cbv iota beta.
    unfold bind at 1. cbn [data reloaded]. rewrite for_each_deliver.
    reflexivity. }
  rewrite E. eexists. cbn [fst snd]. split; [reflexivity|].
  split; [now rewrite map_map|].
  split; [|apply store_unchanged_reloaded].
  apply Forall_map, Forall_forall. intros u _. split; reflexivity.
Qed.

(** X23. [isAdmin] holds only for an update without a sender when ADMIN_ID
    is not set.  For every sender it fails, whatever ADMIN_ID is: the id of
    the sender is a number, ADMIN_ID is a string of the environment, and
    [===] does not hold between a number and a string. *)
Theorem isAdmin_never_holds_for_a_sender (env : option string)
    (sender : option Z) :
  (isAdmin env sender = true <-> env = None /\ sender = None) /\
  (forall id, isAdmin env (Some id) = false).
Proof.
  split.
  - unfold isAdmin, ADMIN_ID. destruct env, sender; cbn; split;
      try discriminate; try (intros [? ?]; discriminate); auto.
  - intros id. unfold isAdmin, ADMIN_ID. destruct env; reflexivity.
Qed.
